(* ===== verification/_CoqProject ===== *)
-Q . S2P
Prelude.v
Config.v
Logger.v
World.v
Vehicle.v
Signal.v
LightSpec.v
Sensor.v
Decision.v
Manager.v
Json.v
Main.v
SecondCopy.v
Page.v
Server.v
