(* ===== verification/Prelude.v ===== *)
(** * A verification development of [dengiaothong.py], the AI traffic-light simulator

    The program (src/New folder/dengiaothong.py) simulates one signalised
    intersection.  A [TrafficManager] owns a list of [Car]s on four lanes,
    a [SmartTrafficLight], a [TrafficAISensor] and a
    [LightDecisionAlgorithm].  Each cycle it logs its start, scans the cars
    (per-lane counts, the highest-priority emergency vehicle, a density
    label), decides the red, green and yellow durations, opens a priority
    window when an emergency vehicle was seen, and drives the light through
    RED, GREEN and YELLOW.  Within a phase it ticks every 0.5 s: it expires
    the priority window, maybe spawns a car, moves every car and counts
    those that cross the counting line, and dumps a JSON snapshot for the
    browser page.  A [TrafficLogger] keeps every line in memory and appends
    it to [traffic_log.txt].  The module-level code runs [run_simulation]
    (ten cycles) in a thread and serves the page over HTTP.  The file holds
    the whole program twice (lines 1-908 and 910-1792); the second copy
    runs only once the first copy's server has stopped.

    ** Files, in dependency order
    - Prelude.v: the exceptions the code raises ([PyExn]), the
      state-and-exception monad [PyM] with its notation in [sim_scope],
      [for_each] for [for] loops, [try_except], total-correctness triples,
      Python's [max(key=)] and slices, the hint database [traffic] and the
      tactic [zdiv_lia].
    - Config.v: the [CONFIG] dictionary (lines 14-34) and the string
      enumerations of the code: car types, light states, density labels.
    - Logger.v: [TrafficLogger] (lines 41-61): log entries as data, the
      text of a line as [log] formats it ([format_entry]), [get_recent_logs],
      and the phase trace read off the log.
    - World.v: the process state: the clock, the random source, the
      logger's entries and file, and the snapshot file.  [Sim] is [PyM
      World].  It gives [time.time], [time.sleep], [random.random],
      [random.randint], [random.choice], [logger.log] and the file writes.
    - Vehicle.v, [Module Car]: [Car] (lines 69-120): [CAR_TYPES],
      [__init__] ([init]), [move] (split into [advance] and [respawn]) and
      [get_display_info].
    - Signal.v, [Module SmartTrafficLight]: the light (lines 125-165): every
      method, and the phase order as a step relation [phase_step].
    - LightSpec.v, [Module LightSpec]: the light's contract as an abstract
      timer (a deadline, a priority window, two counters), the
      abstraction function [abs] from the concrete light, and the calls
      the manager makes ([LightOp], [light_op]) in any sequence.
    - Sensor.v, [Module TrafficAISensor]: [scan_traffic] (lines 170-220),
      with [lane_counts] as a [gmap Z Z].
    - Decision.v, [Module LightDecisionAlgorithm]:
      [calculate_light_times] of both copies (lines 233-266 and 1131-1164).
    - Manager.v, [Module TrafficManager]: [spawn_cars], [update_cars],
      [write_simulation_data] and [run_cycle] (lines 271-384), the phase
      loop [phase_loop] with fuel, and the same loop by count ([ticks]).
    - Json.v, [Module Json]: the snapshot as the JSON value
      [write_simulation_data] dumps (lines 113-120 and 371-381), the
      reading of its fields back, and the schema the page relies on.
    - Main.v, [Module Program]: the first copy's module-level start-up and
      [run_simulation] (lines 859-898).
    - SecondCopy.v, [Module SecondCopy]: the second copy's [run_cycle] and
      [main] (lines 1223-1281 and 1755-1790).
    - Page.v, [Module Page]: the script of the browser page (lines 660-825):
      the canvas calls of [drawRoad], [drawTrafficLight], [drawCars] and
      [drawScene], a small interpreter [render] of those calls, the
      dashboard update [updateDisplay] and the poll [fetchData].
    - Server.v, [Module Server]: [start_web_server] and the request
      handler (lines 832-853): the process's directory and files (text
      or dumped JSON) and the snapshot file the simulation holds open, the
      two threads' file events (the page's write and the chdir; the log's
      appends, and the snapshot file's [open] and [json.dump]) and every
      interleaving of them, and the page's poll against the server
      (lines 805-814).

    ** How the model corresponds to the code
    Every method is a function in [Sim] that takes the object's fields as
    a record and returns the updated record; [self.x = ...] becomes a
    record update, and [logger.log], [time.time()] and the [random]
    functions act on the world.  Exceptions are values of [res]; the state
    reached before a [raise] is kept, as in Python.  A [for] loop is
    [for_each].  A [while] loop is a [Fixpoint] on fuel that raises
    [FuelExhausted] when the fuel runs out.  A dict keyed by lane is a
    [gmap Z Z], so [lane_counts[7] += 1] raises [KeyError 7] as in the code.

    Three abstractions are made, each chosen so that every comparison
    of the code is decided as it is in Python:
    - positions are integers in tenths of a pixel, so [speed * 0.7] and
      [speed * 0.3] are exact (thresholds 3500, 8000, 9000);
    - [random.random()] is drawn at a resolution of 1/100, the resolution
      of every probability in [CONFIG];
    - the clock is injected: it is in milliseconds, and only [time.sleep]
      advances it, so the work of a tick takes no time.
    With this clock a phase of [d] seconds runs exactly [2 d] ticks.  The
    fuel is the number of loop tests allowed, [2 d + 1].  The longest
    phase lasts [LIGHT_MAX + 2 = 17] s, so fuel 35 is enough for every
    phase of every cycle.

    ** The theorems
    - Decision: the durations are within their bounds (C1).  The fast
      path gives fixed values (C2).  The density path is given in closed
      form and is monotone in the traffic (C3).  The second copy's
      fast-path red is below [LIGHT_MIN] (C18).
    - Car: a priority vehicle moves (C4).  Waiting time is monotone
      (C5).  [move] preserves well-formedness (C9).  Red-light behaviour
      before and past the stop line (C13).
    - Sensor: the counts are exact (C8).  An unknown lane raises
      [KeyError] (C22).  The reported priority is the earliest maximum
      (C7).  The density bands (C23).  The history stays bounded (C24).
    - Light: the priority window is a deadline (C15).  [time_left] is
      bounded (C16).
    - Manager: the loop of [update_cars] is the same computation as moving
      every car once under the light as it stands and then counting the
      uncounted cars past the line ([update_cars_ref]), and it counts each
      car exactly once (C6).  A car that was counted is never counted
      again (C19).  Spawning is rate-limited and bounded (C10), and the
      type of a new car has the distribution of lines 297-307, whose
      regular branch takes half the draws, not the 30% of its comment
      (C31).  A cycle terminates and drives RED, GREEN and YELLOW in order
      (C11).  A red phase lets no car through (C12).  On red a car's
      waiting time grows by two per second, so the page's seconds label
      counts ticks (C39).
    - Program: a fresh start never simulates, because of a [NameError]
      (C20).  A restart runs all ten cycles to the end, its 30 phase
      changes in the cyclic order of [phase_step] with every duration in
      range (C21).  The second copy never completes a cycle, because of an
      [AttributeError] (C25).
    - Light contract: every sequence of calls on a light refines the
      abstract timer (C32), through the one-call simulation
      [light_op_refines].
    - Phase loop: the [while] loop on the clock is the loop by count of
      [2 d] ticks (C33).
    - JSON: a snapshot survives the trip through JSON, with the priority
      type written as the string the light holds, ["none"] when no window
      is open (C34).  What [write_simulation_data] writes has the page's
      schema (C35).
    - Server: under every interleaving of the two threads, a program
      started from another directory serves no page, because the page is
      written before the [os.chdir] (C36).  Started from the script's
      directory, it serves the page (C37).  The page's poll of
      [traffic_data.json?t=...] shows exactly the latest snapshot written
      after the chdir, through the handler, [response.json()] and the
      JSON encoding (C38).  The snapshot file is truncated by [open] before
      [json.dump] fills it, and a poll in between gets an empty file that
      the page ignores (C17).  Polls do not wait for each other, and one
      whose response arrives after a newer one's puts the older snapshot
      back on the page while the file holds the newer (C30).
    - Page: one lamp is lit, the light's own (C26).  Four lanes of cars
      are painted on three lanes (C27).  The painted stop line is the
      model's (C28).  The log panel shows the tail of the level tag
      before each message (C29).  After any run of polls the page shows
      the latest snapshot it received and nothing of what it showed
      before (C14).
    Their proofs rest on frame lemmas ([*_frame], [*_run], [*_spec]) that
    say what each operation does to the world.  The phase loop's
    termination is proved in a Section on an arbitrary tick invariant
    ([phase_loop_runs]).  The cycle's opening is proved in a Section on
    any decision method that meets the interface [DecisionContract]
    ([plan_cycle_with_spec]).  Both copies of [calculate_light_times] are
    instances of that interface.

    ** Not modelled
    These parts are not modelled:
    - the socket, [serve_forever]'s request loop and [webbrowser];
      Server.v answers a request from the state of the run at that point;
    - the page's markup and CSS, which have no behaviour, the scroll
      position of the log panel, and the second copy of the page, which
      holds the same script; the polling timer is a run of polls
      ([polls]), each against the state of the files at that moment;
    - the interleaving of the simulation thread with the server, except
      for the file events of Server.v.  [run_simulation] runs as one
      sequential computation;
    - [print].
    The snapshot is a JSON value (Json.v), not JSON text: [json.dump]'s
    indentation, escapes and float printing are the library's.  The page
    reads the snapshot as data, which C34 justifies.  The second copy's
    classes are the first copy's line for line, except for the parts
    modelled in Decision.v and SecondCopy.v, so they are not modelled
    again. *)

From stdpp Require Import base list gmap strings.
From Stdlib Require Import ZArith Lia.

(** ** Python exceptions that the modelled code can raise

    [KeyError k] is raised by [lane_counts[car.lane] += 1] on a lane outside
    0..3; [AttributeError a] and [NameError n] by the two module-level
    defects of the program (see [Main.v]).  [FuelExhausted] is not a Python
    exception: it is what the fuel-bounded model of a [while] loop returns
    when its fuel runs out, and the termination theorems show it never does
    with the fuel the development gives. *)
Inductive PyExn : Type :=
| KeyError (key : Z)
| AttributeError (attr : string)
| NameError (name : string)
| FuelExhausted.

(** The outcome of a statement: a value, or an exception in flight. *)
Inductive res (A : Type) : Type :=
| Ok (a : A)
| Raise (e : PyExn).
Arguments Ok {A} a.
Arguments Raise {A} e.

(** ** A state-and-exception monad

    [PyM S A] runs on a state [S] and returns the outcome with the state
    reached, so that mutations made before an exception stay visible, as in
    Python. *)
Definition PyM (S A : Type) : Type := S -> res A * S.

Section Monad.
Context {S : Type}.

Definition ret {A} (a : A) : PyM S A := fun s => (Ok a, s).

Definition bind {A B} (m : PyM S A) (f : A -> PyM S B) : PyM S B :=
  fun s => match m s with
           | (Ok a, s') => f a s'
           | (Raise e, s') => (Raise e, s')
           end.

Definition raise {A} (e : PyExn) : PyM S A := fun s => (Raise e, s).

Definition get : PyM S S := fun s => (Ok s, s).
Definition put (s' : S) : PyM S unit := fun _ => (Ok tt, s').
Definition gets {A} (f : S -> A) : PyM S A := fun s => (Ok (f s), s).
Definition modify (f : S -> S) : PyM S unit := fun s => (Ok tt, f s).

(** [try: m except Exception as e: h e] *)
Definition try_except {A} (m : PyM S A) (h : PyExn -> PyM S A) : PyM S A :=
  fun s => match m s with
           | (Ok a, s') => (Ok a, s')
           | (Raise e, s') => h e s'
           end.

(** [for x in xs: body(x)], threading an accumulator. *)
Fixpoint for_each {A B} (xs : list A) (acc : B) (body : B -> A -> PyM S B)
  : PyM S B :=
  match xs with
  | [] => ret acc
  | x :: xs' => bind (body acc x) (fun acc' => for_each xs' acc' body)
  end.

End Monad.

Declare Scope sim_scope.
Delimit Scope sim_scope with sim.
Notation "x <- m ;; k" := (bind m (fun x => k))
  (at level 100, m at next level, right associativity) : sim_scope.
Notation "m ;;; k" := (bind m (fun _ => k))
  (at level 100, right associativity) : sim_scope.

(** ** Total-correctness triples over [PyM]

    [triple P m Q]: from any state satisfying [P], [m] returns normally
    (no exception) with a value and a state satisfying [Q]. *)
Definition triple {S A} (P : S -> Prop) (m : PyM S A) (Q : A -> S -> Prop) : Prop :=
  forall s, P s -> exists a s', m s = (Ok a, s') /\ Q a s'.

Create HintDb traffic discriminated.
Create Rewrite HintDb traffic.

(** ** Python slicing

    [l[i:]] for an integer [i]: a negative [i] counts from the end, and is
    clamped at the start of the list. *)
Definition py_slice_from {A} (i : Z) (l : list A) : list A :=
  if (0 <=? i)%Z then drop (Z.to_nat i) l
  else drop (Z.to_nat (Z.max 0 (Z.of_nat (length l) + i))) l.

(** ** Python's [max(xs, key=k)] on a non-empty list [x :: xs]

    CPython scans left to right and replaces the current maximum only by an
    item whose key is strictly greater, so the result is the first item of
    maximal key. *)
Definition py_max_by {A} (key : A -> Z) (x : A) (xs : list A) : A :=
  fold_left (fun best y => if (key best <? key y)%Z then y else best) xs x.

(** A [res] value as a statement that does not touch the state. *)
Definition of_res {S A} (r : res A) : PyM S A := fun s => (r, s).

Section MonadLemmas.
Context {S : Type}.

Lemma bind_ok {A B} (m : PyM S A) (f : A -> PyM S B) s a s' :
  m s = (Ok a, s') -> bind m f s = f a s'.
Proof. intros H. unfold bind. by rewrite H. Qed.

Lemma bind_raise {A B} (m : PyM S A) (f : A -> PyM S B) s e s' :
  m s = (Raise e, s') -> bind m f s = (Raise e, s').
Proof. intros H. unfold bind. by rewrite H. Qed.

Lemma bind_assoc {A B C} (m : PyM S A) (f : A -> PyM S B) (g : B -> PyM S C) s :
  bind (bind m f) g s = bind m (fun x => bind (f x) g) s.
Proof. unfold bind. by destruct (m s) as [[a|e] s']. Qed.

Lemma bind_ret_l {A B} (a : A) (f : A -> PyM S B) s : bind (ret a) f s = f a s.
Proof. reflexivity. Qed.

Lemma bind_ret_r {A} (m : PyM S A) s : bind m ret s = m s.
Proof. unfold bind. by destruct (m s) as [[a|e] s']. Qed.

Lemma triple_ret {A} (P : S -> Prop) (a : A) :
  triple P (ret a) (fun r s => r = a /\ P s).
Proof. intros s Hs. by exists a, s. Qed.

Lemma triple_bind {A B} (P : S -> Prop) (Q : A -> S -> Prop) (R : B -> S -> Prop)
      (m : PyM S A) (f : A -> PyM S B) :
  triple P m Q -> (forall a, triple (Q a) (f a) R) -> triple P (bind m f) R.
Proof.
  intros Hm Hf s Hs. destruct (Hm s Hs) as (a & s1 & E1 & HQ).
  rewrite (bind_ok _ _ _ _ _ E1). by apply Hf.
Qed.

Lemma triple_conseq {A} (P P' : S -> Prop) (Q Q' : A -> S -> Prop) (m : PyM S A) :
  triple P' m Q' -> (forall s, P s -> P' s) -> (forall a s, Q' a s -> Q a s) ->
  triple P m Q.
Proof.
  intros Hm HP HQ s Hs. destruct (Hm s (HP s Hs)) as (a & s' & E & H).
  exists a, s'. auto.
Qed.

Lemma triple_for_each {A B} (I : B -> S -> Prop) (xs : list A) (acc : B)
      (body : B -> A -> PyM S B) :
  (forall b x, In x xs -> triple (I b) (body b x) I) ->
  triple (I acc) (for_each xs acc body) I.
Proof.
  revert acc. induction xs as [|x xs IH]; intros acc Hb; simpl.
  - intros s Hs. by exists acc, s.
  - apply triple_bind with (Q := I); [apply Hb; by left|].
    intros b. apply IH. intros b' x' Hin. apply Hb. by right.
Qed.

End MonadLemmas.

(** The result of [py_max_by]: an item of the list, whose key bounds every
    key of the list, and before which every item has a strictly smaller
    key (the earliest maximum). *)
Lemma py_max_by_spec {A} (key : A -> Z) (x : A) (xs : list A) :
  let r := py_max_by key x xs in
  (forall y, In y (x :: xs) -> (key y <= key r)%Z) /\
  exists pre post, x :: xs = pre ++ r :: post /\
                   forall y, In y pre -> (key y < key r)%Z.
Proof.
  unfold py_max_by. revert x. induction xs as [|y ys IH]; intros x; simpl.
  - split; [intros y [<-|[]]; lia|]. by exists [], [].
  - destruct (Z.ltb_spec (key x) (key y)) as [Hxy|Hxy].
    + destruct (IH y) as (Hb & pre & post & E & Hpre). split.
      * intros z [<-|Hz]; [specialize (Hb y (or_introl eq_refl)); lia|].
        by apply Hb.
      * exists (x :: pre), post. rewrite E. split; [done|].
        intros z [<-|Hz]; [specialize (Hb y (or_introl eq_refl)); lia|]. by apply Hpre.
    + destruct (IH x) as (Hb & pre & post & E & Hpre). split.
      * intros z [<-|[<-|Hz]]; [apply Hb; by left| |apply Hb; by right].
        specialize (Hb x (or_introl eq_refl)); lia.
      * destruct pre as [|x' pre'].
        -- simpl in E. injection E as <- <-. by exists [], (y :: ys).
        -- simpl in E. injection E as <- E'. exists (x :: y :: pre'), post.
           split; [simpl; by rewrite <- E'|]. intros z [<-|[<-|Hz]]; [apply Hpre; by left| |].
           ++ specialize (Hpre x (or_introl eq_refl)); lia.
           ++ apply Hpre; by right.
Qed.

(** [lia] after turning [/] and [mod] by constants into their Euclidean
    equations. *)
Ltac zdiv_lia := Z.to_euclidean_division_equations; lia.
