(* ===== verification/Config.v ===== *)
(** * Config: the [CONFIG] dictionary and the program's enumerations

    [CONFIG] (dengiaothong.py, lines 14-34) becomes one constant per key.
    Probabilities are kept in hundredths, the resolution at which every
    comparison [random.random() < p] of the program is decided (see
    [World.random_random]).  Speeds are in pixels per tick; positions in the
    rest of the development are in tenths of a pixel, so that the factors
    0.7 and 0.3 of [Car.move] stay exact.

    The string-valued enumerations of the code (car types, light states,
    density labels) become inductive types with decidable equality. *)

From stdpp Require Import base strings.
From Stdlib Require Import ZArith.
From S2P Require Import Prelude.

Local Open Scope Z_scope.

Module CONFIG.
Definition LANE1_MAX : Z := 15.
Definition LANE2_MAX : Z := 15.
Definition LANE3_MAX : Z := 15.
Definition LANE4_MAX : Z := 15.
(** 0.15, 0.08 and 0.07, in hundredths *)
Definition EMERGENCY_PROB : Z := 15.
Definition POLICE_PROB : Z := 8.
Definition FIRE_PROB : Z := 7.
Definition LIGHT_MIN : Z := 8.
Definition LIGHT_MAX : Z := 15.
Definition YELLOW_MIN : Z := 3.
Definition YELLOW_MAX : Z := 5.
Definition MAX_CYCLES : Z := 10.
Definition CAR_SPEED_NORMAL : Z := 8.
Definition CAR_SPEED_EMERGENCY : Z := 15.
Definition CAR_SPEED_SLOW : Z := 5.
Definition MAX_CARS_PER_LANE : Z := 8.
(** 0.3, in hundredths *)
Definition CAR_SPAWN_PROB : Z := 30.
End CONFIG.

(** The keys of [Car.CAR_TYPES]. *)
Inductive CarType : Type :=
| normal | emergency | police | fire | truck | bus.

#[export] Instance CarType_eq_dec : EqDecision CarType.
Proof. solve_decision. Defined.

(** The values of [SmartTrafficLight.state]: "red", "green", "yellow". *)
Inductive LightState : Type := red | green | yellow.

#[export] Instance LightState_eq_dec : EqDecision LightState.
Proof. solve_decision. Defined.

(** The five labels of [density_level] in [scan_traffic]:
    "RẤT ÍT", "ÍT", "TRUNG BÌNH", "NHIỀU", "RẤT NHIỀU". *)
Inductive DensityLevel : Type :=
| RAT_IT | IT | TRUNG_BINH | NHIEU | RAT_NHIEU.

#[export] Instance DensityLevel_eq_dec : EqDecision DensityLevel.
Proof. solve_decision. Defined.

(** A priority type is the string "none" or a car type's name. *)
Abbreviation PriorityType := (option CarType).

(** ** The strings the code uses for these values *)

(** The keys of [CAR_TYPES] (lines 71-76). *)
Definition car_type_name (t : CarType) : string :=
  match t with
  | normal => "normal" | emergency => "emergency" | police => "police"
  | fire => "fire" | truck => "truck" | bus => "bus"
  end.

(** [priority_type.upper()] of a car type. *)
Definition car_type_upper (t : CarType) : string :=
  match t with
  | normal => "NORMAL" | emergency => "EMERGENCY" | police => "POLICE"
  | fire => "FIRE" | truck => "TRUCK" | bus => "BUS"
  end.

(** A priority type as a string: "none" or the type's name. *)
Definition priority_name (p : PriorityType) : string :=
  match p with None => "none" | Some t => car_type_name t end.

(** The light states of [light_sequence] (lines 341-345). *)
Definition light_state_name (s : LightState) : string :=
  match s with red => "red" | green => "green" | yellow => "yellow" end.

(** [state.upper()] *)
Definition light_state_upper (s : LightState) : string :=
  match s with red => "RED" | green => "GREEN" | yellow => "YELLOW" end.

(** The labels of line 209. *)
Definition density_name (d : DensityLevel) : string :=
  match d with
  | RAT_IT => "RẤT ÍT" | IT => "ÍT" | TRUNG_BINH => "TRUNG BÌNH"
  | NHIEU => "NHIỀU" | RAT_NHIEU => "RẤT NHIỀU"
  end.
