(* ===== verification/Logger.v ===== *)
(** * Logger: [TrafficLogger] (dengiaothong.py, lines 41-64)

    A log line is kept as the data it is formatted from: the wall-clock
    time of day in seconds, the level and the message with its arguments.
    Each message constructor is one [logger.log(...)] call site of the
    program.  The global [logger] object, its in-memory [entries] and the
    [traffic_log.txt] file it appends to live in the world state of
    [World.v], where [World.log] performs [TrafficLogger.log]. *)

From stdpp Require Import base list strings pretty.
From Stdlib Require Import ZArith Lia.
From S2P Require Import Prelude Config.

Local Open Scope Z_scope.

Module TrafficLogger.

Inductive Level : Type := INFO | CYCLE | PRIORITY | SYSTEM | ERROR.

#[export] Instance Level_eq_dec : EqDecision Level.
Proof. solve_decision. Defined.

(** The messages of the program, one per call site. *)
Inductive Msg : Type :=
| LightSet (state : LightState) (duration : Z)              (* set_state *)
| PriorityOn (ptype : CarType) (duration : Z)               (* activate_priority *)
| PriorityOff                                              (* update_priority *)
| AIScan (l1 l2 l3 l4 total : Z) (density : DensityLevel)
         (priority : PriorityType)                         (* scan_traffic *)
| PriorityTimes (red_time green_time : Z)                   (* calculate_light_times *)
| AdjustedTimes (red_time green_time yellow_time : Z)       (* calculate_light_times *)
| CycleStart (cycle : Z)                                   (* run_cycle *)
| PhaseEnd (state : LightState) (cycle : Z)                (* run_cycle *)
| SimStart                                                 (* run_simulation *)
| SimDone (total_passed : Z)                               (* run_simulation *)
| SimError (e : PyExn).                                    (* run_simulation *)

Record Entry := mkEntry {
  log_time : Z;          (** seconds since midnight, as [%H:%M:%S] shows it *)
  log_level : Level;
  log_msg : Msg
}.

(** [datetime.now().strftime("%H:%M:%S")] for a clock in milliseconds. *)
Definition time_of_day (now_ms : Z) : Z := (now_ms / 1000) mod 86400.

(** [log_entry] of [log]: the line built from the clock, level and message. *)
Definition make_entry (now_ms : Z) (level : Level) (msg : Msg) : Entry :=
  mkEntry (time_of_day now_ms) level msg.

(** [get_recent_logs(count)]:
    [self.entries[-count:] if self.entries else []] *)
Definition get_recent_logs (count : Z) (entries : list Entry) : list Entry :=
  match entries with
  | [] => []
  | _ => py_slice_from (- count) entries
  end.

(** ** The text of a log line

    Python's [str()] of the exceptions the model raises.  [FuelExhausted]
    is the model's own and is never raised with the fuel the theorems
    give. *)
Definition py_str_exn (e : PyExn) : string :=
  match e with
  | KeyError k => pretty k
  | AttributeError a => "'TrafficManager' object has no attribute '" +:+ a +:+ "'"
  | NameError n => "name '" +:+ n +:+ "' is not defined"
  | FuelExhausted => "fuel exhausted"
  end.

(** The [level] argument of [log]. *)
Definition level_name (l : Level) : string :=
  match l with
  | INFO => "INFO" | CYCLE => "CYCLE" | PRIORITY => "PRIORITY"
  | SYSTEM => "SYSTEM" | ERROR => "ERROR"
  end.

(** The [message] argument of each call site: lines 140, 153, 159,
    211-212, 243, 265, 326, 366, 873, 883-884 and 887. *)
Definition message (m : Msg) : string :=
  match m with
  | LightSet st d => "Đèn chuyển sang " +:+ light_state_upper st +:+ " trong " +:+ pretty d +:+ " giây"
  | PriorityOn t d => "🚨 Kích hoạt ưu tiên: " +:+ car_type_upper t +:+ " trong " +:+ pretty d +:+ " giây"
  | PriorityOff => "Kết thúc chế độ ưu tiên"
  | AIScan l1 l2 l3 l4 total dl p =>
      "AI Scan: L1=" +:+ pretty l1 +:+ ", L2=" +:+ pretty l2 +:+ ", L3=" +:+ pretty l3 +:+
      ", L4=" +:+ pretty l4 +:+ ", " +:+ "Tổng=" +:+ pretty total +:+ " (" +:+
      density_name dl +:+ "), Ưu tiên=" +:+ priority_name p
  | PriorityTimes r g => "Chế độ ưu tiên: Đỏ=" +:+ pretty r +:+ "s, Xanh=" +:+ pretty g +:+ "s"
  | AdjustedTimes r g y =>
      "Điều chỉnh đèn: Đỏ=" +:+ pretty r +:+ "s, Xanh=" +:+ pretty g +:+ "s, Vàng=" +:+ pretty y +:+ "s"
  | CycleStart n => "🚦 Bắt đầu chu kỳ " +:+ pretty n
  | PhaseEnd st n => "Kết thúc " +:+ light_state_upper st +:+ " chu kỳ " +:+ pretty n
  | SimStart => "🎬 Bắt đầu mô phỏng hệ thống đèn giao thông thông minh"
  | SimDone n => "✅ Mô phỏng hoàn tất! Tổng số xe đã qua: " +:+ pretty n
  | SimError e => "❌ Lỗi trong mô phỏng: " +:+ py_str_exn e
  end.

(** A number below 100 with two decimal digits, as [%H], [%M], [%S] print it. *)
Definition two_digits (n : Z) : string :=
  String (Ascii.ascii_of_nat (48 + Z.to_nat (n / 10)))
         (String (Ascii.ascii_of_nat (48 + Z.to_nat (n mod 10))) EmptyString).

(** [strftime("%H:%M:%S")] of a time of day in seconds (line 47). *)
Definition strftime_hms (t : Z) : string :=
  two_digits (t / 3600) +:+ ":" +:+ two_digits ((t / 60) mod 60) +:+ ":" +:+ two_digits (t mod 60).

(** [log_entry = f"[{timestamp}] [{level}] {message}"] (line 48): the line
    [log] prints, stores and appends to the file. *)
Definition format_entry (e : Entry) : string :=
  "[" +:+ strftime_hms (log_time e) +:+ "] [" +:+ level_name (log_level e) +:+ "] " +:+
  message (log_msg e).

(** The phases the light was set to, in the order of the log: the
    "Đèn chuyển sang ..." lines of [set_state]. *)
Definition phase_of_entry (e : Entry) : list (LightState * Z) :=
  match log_msg e with
  | LightSet st d => [(st, d)]
  | _ => []
  end.

Definition phase_trace (es : list Entry) : list (LightState * Z) :=
  List.flat_map phase_of_entry es.

Lemma phase_trace_app es1 es2 :
  phase_trace (es1 ++ es2) = phase_trace es1 ++ phase_trace es2.
Proof. apply List.flat_map_app. Qed.

End TrafficLogger.
