(* ===== verification/World.v ===== *)
(** * World: the process state every component reads or writes

    The wall clock ([time.time()], [time.sleep]), the random source
    ([random.random], [random.randint], [random.choice]), the global
    [logger] with its [traffic_log.txt] file, and the [traffic_data.json]
    snapshot file read by the browser page.  The simulation runs on this
    state through the monad [Sim] of the prelude.

    The clock is injected: [now] is in milliseconds and only [sleep]
    advances it, so the computation between two clock reads takes no time.
    The random source is a stream of raw draws; each primitive maps the next
    draw into its range ([random.random()] to hundredths, [randint a b] to
    [a..b], [choice] to an index), and an exhausted stream draws 0. *)

From stdpp Require Import base list strings.
From Stdlib Require Import ZArith.
From S2P Require Import Prelude Config Logger.

Local Open Scope Z_scope.

(** One element of the snapshot's "cars" list: [Car.get_display_info()]. *)
Record DisplayInfo := mkDisplayInfo {
  di_lane : Z;
  di_type : CarType;
  di_position : Z;
  di_emoji : string;
  di_waiting_time : Z
}.

(** The JSON object [write_simulation_data] writes to [traffic_data.json]. *)
Record Snapshot := mkSnapshot {
  light_state : LightState;
  snap_cars : list DisplayInfo;
  current_cycle : Z;
  max_cycles : Z;
  remaining_time : Z;             (** milliseconds *)
  snap_priority_type : PriorityType;
  snap_priority_active : bool;
  snap_total_vehicles_passed : Z;
  snap_log : list string          (** the formatted lines of [get_recent_logs(10)] *)
}.

Record World := mkWorld {
  now : Z;                                   (** ms since the epoch *)
  draws : list Z;                            (** the random stream *)
  entries : list TrafficLogger.Entry;        (** [logger.entries] *)
  log_file : option (list TrafficLogger.Entry); (** [traffic_log.txt], None if absent *)
  traffic_data : option Snapshot             (** [traffic_data.json] *)
}.

Abbreviation Sim := (PyM World).

Local Open Scope sim_scope.

(** [time.time()] *)
Definition time_time : Sim Z := gets now.

(** [time.sleep(ms / 1000)] *)
Definition sleep (ms : Z) : Sim unit :=
  modify (fun w => mkWorld (now w + ms) (draws w) (entries w) (log_file w) (traffic_data w)).

Definition next_draw : Sim Z :=
  fun w => match draws w with
           | [] => (Ok 0, w)
           | d :: ds => (Ok d, mkWorld (now w) ds (entries w) (log_file w) (traffic_data w))
           end.

(** [random.random()], as the hundredths [floor(100 * u)] of the draw [u]:
    the program only compares it with probabilities that are whole
    hundredths, and [u < k/100] iff [floor(100 u) < k]. *)
Definition random_random : Sim Z := d <- next_draw ;; ret (d mod 100).

(** [random.randint(a, b)], for [a <= b]. *)
Definition randint (a b : Z) : Sim Z := d <- next_draw ;; ret (a + d mod (b - a + 1)).

(** [random.choice([x0; x1; ...])] on a non-empty list. *)
Definition choice {A} (x0 : A) (xs : list A) : Sim A :=
  d <- next_draw ;;
  ret (nth (Z.to_nat (d mod Z.of_nat (S (length xs)))) (x0 :: xs) x0).

(** [TrafficLogger.log(message, level)]: append the entry to [entries] and
    to [traffic_log.txt] (opened in append mode, so created when absent);
    [print] is not modelled. *)
Definition log (level : TrafficLogger.Level) (msg : TrafficLogger.Msg) : Sim unit :=
  modify (fun w =>
    let e := TrafficLogger.make_entry (now w) level msg in
    mkWorld (now w) (draws w) (entries w ++ [e])
            (Some (default [] (log_file w) ++ [e])) (traffic_data w)).

(** [os.remove(CONFIG["LOG_FILE"])] *)
Definition remove_log_file : Sim unit :=
  modify (fun w => mkWorld (now w) (draws w) (entries w) None (traffic_data w)).

(** [json.dump(data, open("traffic_data.json", "w"))] *)
Definition write_traffic_data (s : Snapshot) : Sim unit :=
  modify (fun w => mkWorld (now w) (draws w) (entries w) (log_file w) (Some s)).

(** A world at the epoch with an exhausted random stream, no log and no
    snapshot: the concrete start state of the witnesses. *)
Definition empty_world : World := mkWorld 0 [] [] None None.

(** ** Frame lemmas: what each primitive leaves unchanged *)

Lemma log_now lvl m w : now (snd (log lvl m w)) = now w.
Proof. reflexivity. Qed.

Lemma log_entries lvl m w :
  entries (snd (log lvl m w)) = entries w ++ [TrafficLogger.make_entry (now w) lvl m].
Proof. reflexivity. Qed.

Lemma randint_range a b w :
  a <= b -> exists v w', randint a b w = (Ok v, w') /\ a <= v <= b /\ now w' = now w
                         /\ entries w' = entries w.
Proof.
  intros Hab. unfold randint, bind, ret, next_draw.
  destruct (draws w) as [|d ds]; (eexists _, _; split; [reflexivity|]); simpl;
    (split; [|split; reflexivity]).
  - pose proof (Z.mod_pos_bound 0 (b - a + 1)); lia.
  - pose proof (Z.mod_pos_bound d (b - a + 1)); lia.
Qed.

Lemma random_random_range w :
  exists v w', random_random w = (Ok v, w') /\ 0 <= v < 100 /\ now w' = now w
               /\ entries w' = entries w.
Proof.
  unfold random_random, bind, ret, next_draw.
  destruct (draws w) as [|d ds]; (eexists _, _; split; [reflexivity|]); simpl;
    (split; [|split; reflexivity]); apply Z.mod_pos_bound; lia.
Qed.

Lemma choice_frame {A} (x0 : A) xs w :
  exists v w', choice x0 xs w = (Ok v, w') /\ now w' = now w /\ entries w' = entries w.
Proof.
  unfold choice, bind, ret, next_draw.
  destruct (draws w); (eexists _, _; split; [reflexivity|]); auto.
Qed.

Lemma sleep_run ms w :
  sleep ms w = (Ok tt, mkWorld (now w + ms) (draws w) (entries w) (log_file w) (traffic_data w)).
Proof. reflexivity. Qed.

Lemma bind_time_time {A} (f : Z -> Sim A) w : bind time_time f w = f (now w) w.
Proof. reflexivity. Qed.

(** What a log line adds to the phase trace: its phase when it is a
    [set_state] line, nothing otherwise. *)
Lemma log_trace lvl m w :
  TrafficLogger.phase_trace (entries (snd (log lvl m w))) =
  TrafficLogger.phase_trace (entries w) ++
  TrafficLogger.phase_of_entry (TrafficLogger.make_entry (now w) lvl m).
Proof. rewrite log_entries, TrafficLogger.phase_trace_app. simpl. by rewrite app_nil_r. Qed.

#[export] Hint Rewrite log_now log_trace : traffic.

Lemma log_run lvl m w : log lvl m w = (Ok tt, snd (log lvl m w)).
Proof. reflexivity. Qed.

Lemma remove_log_file_run w :
  remove_log_file w = (Ok tt, mkWorld (now w) (draws w) (entries w) None (traffic_data w)).
Proof. reflexivity. Qed.
