(* ===== verification/Vehicle.v ===== *)
(** * Vehicle: the class [Car] (dengiaothong.py, lines 69-120)

    A car's attributes are copied from the table [CAR_TYPES] when it is
    created; [move] advances it by one tick according to the light and the
    priority flag, and respawns it upstream when it leaves the screen.
    Positions are in tenths of a pixel: [position += speed * 0.7] becomes
    [position + speed * 7], and the thresholds 350, 800 and 900 of the code
    become 3500, 8000 and 9000.  Python's float sums are computed here
    exactly. *)

From stdpp Require Import base list strings.
From Stdlib Require Import ZArith Lia.
From S2P Require Import Prelude Config Logger World.

Local Open Scope Z_scope.
Local Open Scope sim_scope.

Module Car.

(** One row of [CAR_TYPES]. *)
Record CarAttrs := mkAttrs { ct_emoji : string; ct_speed : Z; ct_priority : Z }.

(** [Car.CAR_TYPES] (lines 70-77), as a total function of the car type. *)
Definition CAR_TYPES (t : CarType) : CarAttrs :=
  match t with
  | normal => mkAttrs "🚗" CONFIG.CAR_SPEED_NORMAL 0
  | emergency => mkAttrs "🚑" CONFIG.CAR_SPEED_EMERGENCY 3
  | police => mkAttrs "🚓" CONFIG.CAR_SPEED_EMERGENCY 2
  | fire => mkAttrs "🚒" CONFIG.CAR_SPEED_EMERGENCY 1
  | truck => mkAttrs "🚚" CONFIG.CAR_SPEED_SLOW 0
  | bus => mkAttrs "🚌" CONFIG.CAR_SPEED_SLOW 0
  end.

(** The attributes a [Car] object carries. *)
Record Car := mkCar {
  lane : Z;
  type : CarType;
  position : Z;          (** tenths of a pixel *)
  speed : Z;
  priority : Z;
  emoji : string;
  waiting_time : Z;
  passed : bool
}.

(** The stop line [350], the counting line [800] of [update_cars] and the
    exit line [900], in tenths of a pixel. *)
Definition STOP_LINE : Z := 3500.
Definition PASS_LINE : Z := 8000.
Definition EXIT_LINE : Z := 9000.

Definition with_position (c : Car) (p : Z) : Car :=
  mkCar (lane c) (type c) p (speed c) (priority c) (emoji c) (waiting_time c) (passed c).

Definition with_waiting (c : Car) (n : Z) : Car :=
  mkCar (lane c) (type c) (position c) (speed c) (priority c) (emoji c) n (passed c).

Definition with_passed (c : Car) (b : bool) : Car :=
  mkCar (lane c) (type c) (position c) (speed c) (priority c) (emoji c) (waiting_time c) b.

(** [Car.__init__(lane, car_type)] (lines 79-87). *)
Definition init (l : Z) (t : CarType) : Sim Car :=
  p <- randint (-100) (-20) ;;
  let a := CAR_TYPES t in
  ret (mkCar l t (p * 10) (ct_speed a) (ct_priority a) (ct_emoji a) 0 false).

(** The movement part of [move] (lines 91-105). *)
Definition advance (light_state : LightState) (priority_active : bool) (c : Car) : Car :=
  if (0 <? priority c) && priority_active then
    with_position c (position c + (speed c + 5) * 10)
  else
    match light_state with
    | green => with_position c (position c + speed c * 10)
    | yellow => with_position c (position c + speed c * 7)
    | red =>
        let c' := with_waiting c (waiting_time c + 1) in
        if position c' <? STOP_LINE then c'           (* position += 0 *)
        else with_position c' (position c' + speed c' * 3)
    end.

(** The reset part of [move] (lines 108-111). *)
Definition respawn (c : Car) (p : Z) : Car :=
  mkCar (lane c) (type c) p (speed c) (priority c) (emoji c) 0 true.

(** [Car.move(light_state, priority_active)] (lines 89-111). *)
Definition move (light_state : LightState) (priority_active : bool) (c : Car) : Sim Car :=
  let c1 := advance light_state priority_active c in
  if EXIT_LINE <? position c1 then
    p <- randint (-200) (-50) ;; ret (respawn c1 (p * 10))
  else ret c1.

(** [Car.get_display_info()] (lines 113-120). *)
Definition get_display_info (c : Car) : DisplayInfo :=
  mkDisplayInfo (lane c) (type c) (position c) (emoji c) (waiting_time c).

(** ** Well-formedness of a car

    Its attributes are those of its type, its lane is one of the four, its
    position lies between the lowest respawn point and the exit line, and
    its waiting time is not negative. *)
Definition car_wf (c : Car) : Prop :=
  speed c = ct_speed (CAR_TYPES (type c)) /\
  priority c = ct_priority (CAR_TYPES (type c)) /\
  emoji c = ct_emoji (CAR_TYPES (type c)) /\
  0 <= lane c <= 3 /\
  -2000 <= position c <= EXIT_LINE /\
  0 <= waiting_time c.

(** An ambulance upstream on lane 1, a sedan past the stop line, and a
    sedan just before the counting line. *)
Definition ambulance : Car := mkCar 1 emergency (-500) 15 3 "🚑" 0 false.
Definition sedan_past_line : Car := mkCar 0 normal 4000 8 0 "🚗" 5 false.
Definition sedan_near_exit : Car := mkCar 2 normal 7950 8 0 "🚗" 0 false.

(** ** Lemmas on the attribute table and on [advance] *)

Lemma CAR_TYPES_speed_bounds t : 5 <= ct_speed (CAR_TYPES t) <= 15.
Proof. destruct t; simpl; unfold CONFIG.CAR_SPEED_NORMAL, CONFIG.CAR_SPEED_EMERGENCY,
  CONFIG.CAR_SPEED_SLOW; lia. Qed.

Lemma CAR_TYPES_priority_bounds t : 0 <= ct_priority (CAR_TYPES t) <= 3.
Proof. destruct t; simpl; lia. Qed.

Lemma advance_frame ls pa c :
  lane (advance ls pa c) = lane c /\ type (advance ls pa c) = type c /\
  speed (advance ls pa c) = speed c /\ priority (advance ls pa c) = priority c /\
  emoji (advance ls pa c) = emoji c /\ passed (advance ls pa c) = passed c.
Proof.
  unfold advance. destruct (_ && _); [done|].
  destruct ls; [destruct (_ <? _)|..]; done.
Qed.

(** [advance] moves a car forward by at most 200 (a boosted emergency
    speed) and never backwards. *)
Lemma advance_position ls pa c :
  0 <= speed c <= 15 ->
  position c <= position (advance ls pa c) <= position c + 200.
Proof.
  intros Hs. unfold advance. destruct (_ && _); simpl; [lia|].
  destruct ls; simpl; [destruct (_ <? _); simpl|..]; lia.
Qed.

(** What [move] returns, by whether [advance] crosses the exit line. *)
Lemma move_cases ls pa c w :
  let c1 := advance ls pa c in
  (position c1 <= EXIT_LINE /\ move ls pa c w = (Ok c1, w)) \/
  (EXIT_LINE < position c1 /\
   exists p w', move ls pa c w = (Ok (respawn c1 (p * 10)), w') /\ -200 <= p <= -50
                /\ now w' = now w /\ entries w' = entries w).
Proof.
  cbv zeta. unfold move.
  destruct (Z.ltb_spec EXIT_LINE (position (advance ls pa c))) as [Hx|Hx].
  - right. split; [done|].
    destruct (randint_range (-200) (-50) w) as (p & w' & E & Hp & Hn & He); [lia|].
    exists p, w'. rewrite (bind_ok _ _ _ _ _ E). auto.
  - left. auto.
Qed.

Lemma advance_waiting ls pa c :
  waiting_time c <= waiting_time (advance ls pa c) <= waiting_time c + 1.
Proof.
  unfold advance. destruct (_ && _); simpl; [lia|].
  destruct ls; simpl; [destruct (_ <? _); simpl|..]; lia.
Qed.

(** [advance] keeps a well-formed car well-formed as long as it does not
    cross the exit line. *)
Lemma advance_wf ls pa c :
  car_wf c -> position (advance ls pa c) <= EXIT_LINE -> car_wf (advance ls pa c).
Proof.
  intros (Hs & Hp & He & Hl & Hpos & Hw) Hx.
  destruct (advance_frame ls pa c) as (El & Et & Es & Ep & Ee & _).
  pose proof (CAR_TYPES_speed_bounds (type c)).
  pose proof (advance_position ls pa c ltac:(lia)).
  pose proof (advance_waiting ls pa c).
  unfold car_wf. rewrite El, Et, Es, Ep, Ee. repeat split; first [assumption | lia].
Qed.

Lemma with_passed_wf c b : car_wf c -> car_wf (with_passed c b).
Proof. done. Qed.

#[export] Hint Resolve CAR_TYPES_speed_bounds CAR_TYPES_priority_bounds with_passed_wf : traffic.

(** On red, outside a priority window, a car before the stop line only
    waits. *)
Lemma advance_red_stopped pa c :
  (0 <? priority c) && pa = false -> position c < STOP_LINE ->
  advance red pa c = with_waiting c (waiting_time c + 1).
Proof.
  intros Hp Hpos. unfold advance. rewrite Hp. simpl.
  by destruct (Z.ltb_spec (position c) STOP_LINE); [|lia].
Qed.

(** ** Properties of [move] *)

(** C4: a priority vehicle ([priority > 0]) moves while the priority window
    is active, whatever the light: it advances by [speed + 5] pixels, a
    strict increase, unless that step takes it past the exit line, in which
    case it is respawned upstream, marked passed, with its waiting time
    reset. *)
Theorem move_priority_advances ls c w :
  car_wf c -> 0 < priority c ->
  exists c' w', move ls true c w = (Ok c', w') /\
    ((position c + (speed c + 5) * 10 <= EXIT_LINE /\ position c < position c' /\
      position c' = position c + (speed c + 5) * 10) \/
     (EXIT_LINE < position c + (speed c + 5) * 10 /\ passed c' = true /\
      waiting_time c' = 0 /\ -2000 <= position c' <= -500)).
Proof.
  intros Hwf Hp.
  assert (Ea : advance ls true c = with_position c (position c + (speed c + 5) * 10)).
  { unfold advance. by rewrite (proj2 (Z.ltb_lt 0 (priority c)) Hp). }
  pose proof (CAR_TYPES_speed_bounds (type c)). destruct Hwf as (Hs & _).
  destruct (move_cases ls true c w) as [(Hx & E) | (Hx & p & w' & E & Hr & _)];
    rewrite Ea in *; simpl in *.
  - eexists _, _. split; [exact E|]. left. simpl. lia.
  - eexists _, _. split; [exact E|]. right. simpl. lia.
Qed.

(** C5: the waiting time of a car never decreases, except when the car
    leaves the screen and is respawned upstream (passed, at a negative
    position, with waiting time 0); a tick adds at most one. *)
Theorem move_waiting_monotone ls pa c w :
  exists c' w', move ls pa c w = (Ok c', w') /\
    (waiting_time c <= waiting_time c' <= waiting_time c + 1 \/
     (passed c' = true /\ waiting_time c' = 0 /\ position c' < 0)).
Proof.
  pose proof (advance_waiting ls pa c).
  destruct (move_cases ls pa c w) as [(Hx & E) | (Hx & p & w' & E & Hr & _)].
  - eexists _, _. split; [exact E|]. left. lia.
  - eexists _, _. split; [exact E|]. right. simpl. lia.
Qed.

(** C13: on red and outside a priority window (or for a car without
    priority), a car before the stop line does not move and only its
    waiting time grows; a car past the stop line creeps forward by
    [speed * 0.3] and its waiting time grows as well, although the spec
    counts waiting ticks only for cars stopped before the line.  In
    particular a freshly spawned emergency vehicle stays where it is
    until a scan activates the priority window. *)
Theorem move_red_outside_priority pa c w :
  (0 <? priority c) && pa = false ->
  (position c < STOP_LINE ->
     move red pa c w = (Ok (with_waiting c (waiting_time c + 1)), w)) /\
  (STOP_LINE <= position c -> position c + speed c * 3 <= EXIT_LINE ->
     move red pa c w =
       (Ok (with_position (with_waiting c (waiting_time c + 1)) (position c + speed c * 3)), w)).
Proof.
  intros Hp. split.
  - intros Hpos. unfold move. rewrite (advance_red_stopped pa c Hp Hpos). simpl.
    destruct (Z.ltb_spec EXIT_LINE (position c)); [unfold STOP_LINE, EXIT_LINE in *; lia|].
    reflexivity.
  - intros Hpos Hx. unfold move, advance. rewrite Hp. simpl.
    destruct (Z.ltb_spec (position c) STOP_LINE); [lia|]. simpl.
    destruct (Z.ltb_spec EXIT_LINE (position c + speed c * 3)); [lia|].
    reflexivity.
Qed.

(** [move] keeps a car well-formed, never raises, and leaves the clock and
    the log alone. *)
Lemma move_wf ls pa c w :
  car_wf c ->
  exists c' w', move ls pa c w = (Ok c', w') /\ car_wf c' /\
    lane c' = lane c /\ type c' = type c /\ now w' = now w /\ entries w' = entries w.
Proof.
  intros Hwf.
  destruct (advance_frame ls pa c) as (El & Et & _).
  destruct (move_cases ls pa c w) as [(Hx & E) | (Hx & p & w' & E & Hr & Hn & Hen)].
  - eexists _, _. split; [exact E|]. split; [auto using advance_wf|]. auto.
  - eexists _, _. split; [exact E|].
    destruct Hwf as (Hs & Hp & He & Hl & Hpos & Hw).
    destruct (advance_frame ls pa c) as (_ & _ & Es & Ep & Ee & _).
    unfold car_wf; simpl. rewrite El, Et, Es, Ep, Ee. unfold EXIT_LINE.
    repeat split; first [assumption | lia].
Qed.

(** C9: [move] keeps a car well-formed (its position stays within
    [-200, 900] pixels, its attributes those of its type, its lane one of
    the four), never raises, and keeps its lane, its type and the clock. *)
Theorem move_preserves_wf ls pa c w :
  car_wf c ->
  exists c' w', move ls pa c w = (Ok c', w') /\ car_wf c' /\
    lane c' = lane c /\ type c' = type c /\ now w' = now w.
Proof.
  intros Hwf. destruct (move_wf ls pa c w Hwf) as (c' & w' & E & H1 & H2 & H3 & H4 & _).
  exists c', w'. auto.
Qed.

(** [Car.__init__] builds a well-formed car that has not passed, upstream
    of the screen between -100 and -20 pixels. *)
Lemma init_wf l t w :
  0 <= l <= 3 ->
  exists c w', init l t w = (Ok c, w') /\ car_wf c /\ passed c = false /\
    -1000 <= position c <= -200 /\ lane c = l /\ type c = t /\ now w' = now w /\
    entries w' = entries w.
Proof.
  intros Hl. unfold init.
  destruct (randint_range (-100) (-20) w) as (p & w' & E & Hp & Hn & He); [lia|].
  rewrite (bind_ok _ _ _ _ _ E). eexists _, _. split; [reflexivity|].
  unfold car_wf, EXIT_LINE; simpl. repeat split; first [reflexivity | assumption | lia].
Qed.

(** ** Concrete cars and witnesses *)

Ltac car_wf_tac := unfold car_wf, EXIT_LINE; simpl; repeat split; first [reflexivity | lia].

Lemma move_priority_advances_witness :
  exists c' w', move red true ambulance empty_world = (Ok c', w') /\
    ((position ambulance + (speed ambulance + 5) * 10 <= EXIT_LINE /\
      position ambulance < position c' /\
      position c' = position ambulance + (speed ambulance + 5) * 10) \/
     (EXIT_LINE < position ambulance + (speed ambulance + 5) * 10 /\ passed c' = true /\
      waiting_time c' = 0 /\ -2000 <= position c' <= -500)).
Proof. apply (move_priority_advances red ambulance empty_world); [car_wf_tac|simpl; lia]. Defined.

Lemma move_red_outside_priority_witness :
  move red false ambulance empty_world =
    (Ok (with_waiting ambulance (waiting_time ambulance + 1)), empty_world) /\
  move red false sedan_past_line empty_world =
    (Ok (with_position (with_waiting sedan_past_line (waiting_time sedan_past_line + 1))
           (position sedan_past_line + speed sedan_past_line * 3)), empty_world).
Proof.
  split.
  - apply (move_red_outside_priority false ambulance empty_world); [reflexivity|simpl; unfold STOP_LINE; lia].
  - apply (move_red_outside_priority false sedan_past_line empty_world);
      [reflexivity|simpl; unfold STOP_LINE; lia|simpl; unfold EXIT_LINE; lia].
Defined.

Lemma move_preserves_wf_witness :
  exists c' w', move green false sedan_near_exit empty_world = (Ok c', w') /\ car_wf c' /\
    lane c' = lane sedan_near_exit /\ type c' = type sedan_near_exit /\
    now w' = now empty_world.
Proof. apply (move_preserves_wf green false sedan_near_exit empty_world). car_wf_tac. Defined.

End Car.
