(* ===== verification/Signal.v ===== *)
(** * Signal: the class [SmartTrafficLight] (dengiaothong.py, lines 125-165)

    The light's attributes form the record [Light]; each method is an
    operation on it in the [Sim] monad, reading the injected clock where the
    code calls [time.time()] and appending to the log where it calls
    [logger.log].  Times are in milliseconds ([timer] and the durations the
    methods take stay in seconds, as in the code).

    The cyclic phase order RED -> GREEN -> YELLOW -> RED that [run_cycle]
    drives is the step relation [phase_step]. *)

From stdpp Require Import base list strings.
From Stdlib Require Import ZArith Lia.
From S2P Require Import Prelude Config Logger World.

Local Open Scope Z_scope.
Local Open Scope sim_scope.

Module SmartTrafficLight.

Record Light := mkLight {
  state : LightState;
  timer : Z;                      (** seconds *)
  start_time : Z;                 (** ms *)
  priority_active : bool;
  priority_type : PriorityType;
  priority_end_time : Z;          (** ms *)
  cycle_count : Z;
  total_vehicles_passed : Z
}.

(** [SmartTrafficLight.__init__()] (lines 126-134). *)
Definition init : Sim Light :=
  t <- time_time ;;
  ret (mkLight red 0 t false None 0 0 0).

(** [set_state(state, duration)] (lines 136-140). *)
Definition set_state (st : LightState) (duration : Z) (l : Light) : Sim Light :=
  t <- time_time ;;
  let l' := mkLight st duration t (priority_active l) (priority_type l)
                    (priority_end_time l) (cycle_count l) (total_vehicles_passed l) in
  log TrafficLogger.INFO (TrafficLogger.LightSet st duration) ;;;
  ret l'.

(** The value [time_left()] computes at clock [t]:
    [max(0, self.timer - (t - self.start_time))]. *)
Definition time_left_at (l : Light) (t : Z) : Z :=
  Z.max 0 (timer l * 1000 - (t - start_time l)).

(** [time_left()] (lines 142-144). *)
Definition time_left (l : Light) : Sim Z :=
  t <- time_time ;; ret (time_left_at l t).

(** [is_done()] (lines 146-147). *)
Definition is_done (l : Light) : Sim bool :=
  r <- time_left l ;; ret (r <=? 0).

(** [activate_priority(priority_type, duration)] (lines 149-153). *)
Definition activate_priority (ptype : CarType) (duration : Z) (l : Light) : Sim Light :=
  t <- time_time ;;
  let l' := mkLight (state l) (timer l) (start_time l) true (Some ptype)
                    (t + duration * 1000) (cycle_count l) (total_vehicles_passed l) in
  log TrafficLogger.PRIORITY (TrafficLogger.PriorityOn ptype duration) ;;;
  ret l'.

(** [update_priority()] (lines 155-159). *)
Definition update_priority (l : Light) : Sim Light :=
  t <- time_time ;;
  if priority_active l && (priority_end_time l <? t) then
    let l' := mkLight (state l) (timer l) (start_time l) false None
                      (priority_end_time l) (cycle_count l) (total_vehicles_passed l) in
    log TrafficLogger.PRIORITY TrafficLogger.PriorityOff ;;;
    ret l'
  else ret l.

(** [increment_cycle()] (lines 161-162). *)
Definition increment_cycle (l : Light) : Light :=
  mkLight (state l) (timer l) (start_time l) (priority_active l) (priority_type l)
          (priority_end_time l) (cycle_count l + 1) (total_vehicles_passed l).

(** [vehicle_passed()] (lines 164-165). *)
Definition vehicle_passed (l : Light) : Light :=
  mkLight (state l) (timer l) (start_time l) (priority_active l) (priority_type l)
          (priority_end_time l) (cycle_count l) (total_vehicles_passed l + 1).

(** The light [l] with its passed-vehicle counter set to [n]. *)
Definition with_total (l : Light) (n : Z) : Light :=
  mkLight (state l) (timer l) (start_time l) (priority_active l) (priority_type l)
          (priority_end_time l) (cycle_count l) n.

(** ** The phase cycle driven by [run_cycle] *)

Definition next_phase (s : LightState) : LightState :=
  match s with red => green | green => yellow | yellow => red end.

Inductive phase_step : LightState -> LightState -> Prop :=
| step_red_green : phase_step red green
| step_green_yellow : phase_step green yellow
| step_yellow_red : phase_step yellow red.

(** Reflexive-transitive closure of [phase_step]. *)
Inductive phase_reach : LightState -> LightState -> Prop :=
| reach_refl s : phase_reach s s
| reach_step s1 s2 s3 : phase_step s1 s2 -> phase_reach s2 s3 -> phase_reach s1 s3.

(** The phases appear in this order in a list of successive phases. *)
Fixpoint phase_chain (s : LightState) (l : list LightState) : Prop :=
  match l with
  | [] => True
  | s' :: l' => phase_step s s' /\ phase_chain s' l'
  end.

(** The light as [__init__] builds it at clock 0. *)
Definition initial_light : Light := mkLight red 0 0 false None 0 0 0.

Lemma vehicle_passed_with_total l :
  vehicle_passed l = with_total l (total_vehicles_passed l + 1).
Proof. reflexivity. Qed.

Lemma with_total_twice l n1 n2 : with_total (with_total l n1) n2 = with_total l n2.
Proof. reflexivity. Qed.

Lemma with_total_same l : with_total l (total_vehicles_passed l) = l.
Proof. by destruct l. Qed.

(** ** Lemmas: what each method does to the light and to the world *)

Lemma set_state_run st d l w :
  set_state st d l w =
  (Ok (mkLight st d (now w) (priority_active l) (priority_type l)
               (priority_end_time l) (cycle_count l) (total_vehicles_passed l)),
   snd (log TrafficLogger.INFO (TrafficLogger.LightSet st d) w)).
Proof. reflexivity. Qed.

Lemma activate_priority_run p d l w :
  activate_priority p d l w =
  (Ok (mkLight (state l) (timer l) (start_time l) true (Some p) (now w + d * 1000)
               (cycle_count l) (total_vehicles_passed l)),
   snd (log TrafficLogger.PRIORITY (TrafficLogger.PriorityOn p d) w)).
Proof. reflexivity. Qed.

Lemma update_priority_run l w :
  update_priority l w =
  if priority_active l && (priority_end_time l <? now w) then
    (Ok (mkLight (state l) (timer l) (start_time l) false None
                 (priority_end_time l) (cycle_count l) (total_vehicles_passed l)),
     snd (log TrafficLogger.PRIORITY TrafficLogger.PriorityOff w))
  else (Ok l, w).
Proof.
  unfold update_priority, bind, time_time, gets; simpl.
  by destruct (priority_active l && (priority_end_time l <? now w)).
Qed.

(** [update_priority] changes neither the phase, nor the counters, nor the
    clock; the log grows by at most the "end of priority" line. *)
Lemma update_priority_frame l w :
  exists l' w', update_priority l w = (Ok l', w') /\
    state l' = state l /\ timer l' = timer l /\ start_time l' = start_time l /\
    total_vehicles_passed l' = total_vehicles_passed l /\
    cycle_count l' = cycle_count l /\ now w' = now w /\ draws w' = draws w /\
    (priority_active l' = true -> priority_active l = true).
Proof.
  rewrite update_priority_run. destruct (_ && _) eqn:E; eexists _, _;
    (split; [reflexivity|]); simpl; repeat split; auto; intros H; discriminate H.
Qed.

(** [update_priority] never logs a phase change. *)
Lemma update_priority_trace l w l' w' :
  update_priority l w = (Ok l', w') ->
  TrafficLogger.phase_trace (entries w') = TrafficLogger.phase_trace (entries w).
Proof.
  rewrite update_priority_run. destruct (_ && _); intros [= _ <-]; [|done].
  simpl. rewrite TrafficLogger.phase_trace_app. simpl. by rewrite app_nil_r.
Qed.

(** ** Properties of the priority window *)

(** C15: the priority window is a deadline.  After [activate_priority p d]
    at clock [t], [update_priority] keeps the window open at every clock up
    to [t + d] seconds and closes it (priority type back to "none") at
    every later clock.  A second activation replaces the deadline by its
    own, earlier or later, instead of extending the first: windows do not
    stack. *)
Theorem priority_window_deadline p d l w l1 w1 :
  activate_priority p d l w = (Ok l1, w1) ->
  priority_end_time l1 = now w + d * 1000 /\ priority_type l1 = Some p /\
  (forall w2, now w2 <= now w + d * 1000 ->
     update_priority l1 w2 = (Ok l1, w2)) /\
  (forall w2, now w + d * 1000 < now w2 ->
     exists l2 w3, update_priority l1 w2 = (Ok l2, w3) /\
       priority_active l2 = false /\ priority_type l2 = None) /\
  (forall p' d' w2 l2 w3, activate_priority p' d' l1 w2 = (Ok l2, w3) ->
     priority_end_time l2 = now w2 + d' * 1000).
Proof.
  rewrite activate_priority_run. intros [= <- _]. simpl.
  repeat split.
  - intros w2 Hle. rewrite update_priority_run. simpl.
    by destruct (Z.ltb_spec (now w + d * 1000) (now w2)); [lia|].
  - intros w2 Hlt. rewrite update_priority_run. simpl.
    destruct (Z.ltb_spec (now w + d * 1000) (now w2)); [|lia].
    by eexists _, _.
  - intros p' d' w2 l2 w3. rewrite activate_priority_run. by intros [= <- _].
Qed.

(** ** Properties of the countdown *)

(** C16: [time_left()] is between 0 and the phase duration once the phase
    has started; right after [set_state(st, d)] it is the whole duration,
    and it counts down one millisecond per elapsed millisecond; two calls
    with no time elapsed between them return the same value and leave the
    world unchanged. *)
Theorem time_left_spec st d l w l1 w1 e :
  set_state st d l w = (Ok l1, w1) -> 0 <= d -> 0 <= e ->
  time_left_at l1 (now w + e) = Z.max 0 (d * 1000 - e) /\
  0 <= time_left_at l1 (now w + e) <= d * 1000 /\
  (forall w2, (v1 <- time_left l1 ;; v2 <- time_left l1 ;; ret (v1, v2)) w2 =
              (Ok (time_left_at l1 (now w2), time_left_at l1 (now w2)), w2)).
Proof.
  rewrite set_state_run. intros [= <- _] Hd He. unfold time_left_at; simpl.
  split; [|split; [lia|reflexivity]]. f_equal. lia.
Qed.

(** ** The phase cycle *)

Lemma next_phase_step s : phase_step s (next_phase s).
Proof. destruct s; constructor. Qed.

Lemma phase_step_next s s' : phase_step s s' -> s' = next_phase s.
Proof. by inversion 1. Qed.

#[export] Hint Resolve next_phase_step : traffic.
#[export] Hint Constructors phase_step phase_reach : traffic.

(** The light has no terminal phase: every phase reaches every other. *)
Lemma phase_reach_all s1 s2 : phase_reach s1 s2.
Proof. destruct s1, s2; eauto 6 with traffic. Qed.

(** ** Witnesses *)

Lemma priority_window_deadline_witness :
  exists l1 w1, activate_priority emergency 12 initial_light empty_world = (Ok l1, w1) /\
  priority_end_time l1 = now empty_world + 12 * 1000 /\ priority_type l1 = Some emergency /\
  (forall w2, now w2 <= now empty_world + 12 * 1000 ->
     update_priority l1 w2 = (Ok l1, w2)) /\
  (forall w2, now empty_world + 12 * 1000 < now w2 ->
     exists l2 w3, update_priority l1 w2 = (Ok l2, w3) /\
       priority_active l2 = false /\ priority_type l2 = None) /\
  (forall p' d' w2 l2 w3, activate_priority p' d' l1 w2 = (Ok l2, w3) ->
     priority_end_time l2 = now w2 + d' * 1000).
Proof.
  eexists _, _. split; [apply activate_priority_run|].
  exact (priority_window_deadline emergency 12 initial_light empty_world _ _
           (activate_priority_run _ _ _ _)).
Defined.

Lemma time_left_spec_witness :
  exists l1 w1, set_state green 10 initial_light empty_world = (Ok l1, w1) /\
  time_left_at l1 (now empty_world + 2500) = Z.max 0 (10 * 1000 - 2500) /\
  0 <= time_left_at l1 (now empty_world + 2500) <= 10 * 1000 /\
  (forall w2, (v1 <- time_left l1 ;; v2 <- time_left l1 ;; ret (v1, v2)) w2 =
              (Ok (time_left_at l1 (now w2), time_left_at l1 (now w2)), w2)).
Proof.
  eexists _, _. split; [apply set_state_run|].
  apply (time_left_spec green 10 initial_light empty_world _ _ 2500
           (set_state_run _ _ _ _)); lia.
Defined.

End SmartTrafficLight.
