(* ===== verification/LightSpec.v ===== *)
(** * LightSpec: what the light promises, and that [SmartTrafficLight] keeps it

    The contract of the light, as [run_cycle] and [update_cars] use it, is
    an abstract timer.  Its state is the phase, the instant the phase ends,
    the priority window (its type and end, when one is open), and the two
    counters.  Its operations say, over the clock reading [t], what each
    method does to that state and what it returns.

    The concrete light keeps more: [timer] and [start_time] instead of a
    deadline, and the window as the flag [priority_active] beside
    [priority_type] and [priority_end_time].  [abs] maps a concrete light to
    the abstract state.  [light_inv] is the invariant of the representation:
    the flag is set exactly when a priority type is stored.  The refinement
    theorem shows that every method keeps the invariant, never raises, reads
    the clock without moving it, and commutes with [abs]. *)

From stdpp Require Import base list strings.
From Stdlib Require Import ZArith Lia.
From S2P Require Import Prelude Config Logger World Signal.

Local Open Scope Z_scope.
Local Open Scope sim_scope.

Module LightSpec.
Import SmartTrafficLight.

(** ** The abstract light *)

Record AbsLight := mkAbs {
  a_state : LightState;
  a_deadline : Z;                       (** ms: when the phase ends *)
  a_window : option (CarType * Z);      (** the open priority window and its end, in ms *)
  a_cycles : Z;
  a_passed : Z
}.

(** The calls [TrafficManager] makes on the light. *)
Inductive LightOp : Type :=
| SetState (st : LightState) (duration : Z)
| TimeLeft
| IsDone
| ActivatePriority (p : CarType) (duration : Z)
| UpdatePriority
| IncrementCycle
| VehiclePassed.

(** What a call returns: nothing, a time in ms, or a boolean. *)
Inductive OpResult : Type :=
| RNone
| RTime (ms : Z)
| RBool (b : bool).

(** The abstract meaning of each call at clock [t]. *)
Definition abs_op (op : LightOp) (t : Z) (a : AbsLight) : AbsLight * OpResult :=
  match op with
  | SetState st d =>
      (mkAbs st (t + d * 1000) (a_window a) (a_cycles a) (a_passed a), RNone)
  | TimeLeft => (a, RTime (Z.max 0 (a_deadline a - t)))
  | IsDone => (a, RBool (a_deadline a <=? t))
  | ActivatePriority p d =>
      (mkAbs (a_state a) (a_deadline a) (Some (p, t + d * 1000)) (a_cycles a) (a_passed a), RNone)
  | UpdatePriority =>
      match a_window a with
      | Some (_, e) =>
          if e <? t then (mkAbs (a_state a) (a_deadline a) None (a_cycles a) (a_passed a), RNone)
          else (a, RNone)
      | None => (a, RNone)
      end
  | IncrementCycle =>
      (mkAbs (a_state a) (a_deadline a) (a_window a) (a_cycles a + 1) (a_passed a), RNone)
  | VehiclePassed =>
      (mkAbs (a_state a) (a_deadline a) (a_window a) (a_cycles a) (a_passed a + 1), RNone)
  end.

(** ** The concrete light seen abstractly *)

(** The priority window is open exactly when a type is stored. *)
Definition light_inv (l : Light) : Prop :=
  priority_active l = true <-> is_Some (priority_type l).

Definition abs (l : Light) : AbsLight :=
  mkAbs (state l) (start_time l + timer l * 1000)
        (if priority_active l
         then match priority_type l with Some p => Some (p, priority_end_time l) | None => None end
         else None)
        (cycle_count l) (total_vehicles_passed l).

(** Each call as the method the code invokes. *)
Definition light_op (op : LightOp) (l : Light) : Sim (Light * OpResult) :=
  match op with
  | SetState st d => l' <- set_state st d l ;; ret (l', RNone)
  | TimeLeft => r <- time_left l ;; ret (l, RTime r)
  | IsDone => b <- is_done l ;; ret (l, RBool b)
  | ActivatePriority p d => l' <- activate_priority p d l ;; ret (l', RNone)
  | UpdatePriority => l' <- update_priority l ;; ret (l', RNone)
  | IncrementCycle => ret (increment_cycle l, RNone)
  | VehiclePassed => ret (vehicle_passed l, RNone)
  end.

(** A sequence of calls, each made [dt] ms after the previous one, as
    [run_cycle] makes them between its [time.sleep] calls. *)
Fixpoint light_run (ops : list (Z * LightOp)) (l : Light) : Sim (Light * list OpResult) :=
  match ops with
  | [] => ret (l, [])
  | (dt, op) :: ops' =>
      sleep dt ;;;
      p <- light_op op l ;;
      let (l', r) := p in
      q <- light_run ops' l' ;;
      let (l'', rs) := q in
      ret (l'', r :: rs)
  end.

(** The same sequence on the abstract light, from clock [t]. *)
Fixpoint abs_run (ops : list (Z * LightOp)) (t : Z) (a : AbsLight) : AbsLight * list OpResult :=
  match ops with
  | [] => (a, [])
  | (dt, op) :: ops' =>
      let (a', r) := abs_op op (t + dt) a in
      let (a'', rs) := abs_run ops' (t + dt) a' in
      (a'', r :: rs)
  end.

(** ** Refinement *)

Lemma time_left_run l w : time_left l w = (Ok (time_left_at l (now w)), w).
Proof. reflexivity. Qed.

(** [is_done()] is [time_left() <= 0], which holds exactly when the phase's
    deadline has passed. *)
Lemma time_left_at_done l t : (time_left_at l t <=? 0) = (start_time l + timer l * 1000 <=? t).
Proof.
  unfold time_left_at.
  destruct (Z.leb_spec (Z.max 0 (timer l * 1000 - (t - start_time l))) 0),
           (Z.leb_spec (start_time l + timer l * 1000) t); lia.
Qed.

(** One call: it returns normally at the same clock reading, keeps the
    invariant, and its effect seen through [abs] is the abstract one. *)
Lemma light_op_refines op l w :
  light_inv l ->
  exists l' r w', light_op op l w = (Ok (l', r), w') /\ now w' = now w /\
    light_inv l' /\ abs_op op (now w) (abs l) = (abs l', r).
Proof.
  intros Hi. destruct op as [st d| | |p d| | |]; cbn [light_op].
  - rewrite (bind_ok _ _ _ _ _ (set_state_run st d l w)).
    eexists _, _, _. split; [reflexivity|]. split; [apply log_now|]. split; [exact Hi|].
    reflexivity.
  - rewrite (bind_ok _ _ _ _ _ (time_left_run l w)).
    eexists _, _, _. split; [reflexivity|]. split; [done|]. split; [exact Hi|].
    unfold abs, time_left_at. cbn. do 2 f_equal. lia.
  - unfold is_done. rewrite bind_assoc, (bind_ok _ _ _ _ _ (time_left_run l w)).
    eexists _, _, _. split; [reflexivity|]. split; [done|]. split; [exact Hi|].
    cbn. by rewrite time_left_at_done.
  - rewrite (bind_ok _ _ _ _ _ (activate_priority_run p d l w)).
    eexists _, _, _. split; [reflexivity|]. split; [apply log_now|].
    split; [unfold light_inv; simpl; split; eauto|reflexivity].
  - pose proof (update_priority_run l w) as E.
    destruct (priority_active l) eqn:Ha; [destruct (priority_end_time l <? now w) eqn:He|];
      simpl in E; rewrite (bind_ok _ _ _ _ _ E);
      eexists _, _, _; (split; [reflexivity|]); [split; [apply log_now|]|split; [done|]..];
      unfold abs; simpl; rewrite ?Ha.
    + split; [unfold light_inv; simpl; split; [discriminate|by intros []]|].
      destruct Hi as [Hi _]. destruct (Hi Ha) as [p Hp]. by rewrite Hp, He.
    + split; [exact Hi|]. destruct Hi as [Hi _]. destruct (Hi Ha) as [p Hp].
      by rewrite Hp, He.
    + split; [exact Hi|]. done.
  - eexists _, _, _. split; [reflexivity|]. split; [done|]. split; [exact Hi|]. reflexivity.
  - eexists _, _, _. split; [reflexivity|]. split; [done|]. split; [exact Hi|]. reflexivity.
Qed.

(** The clock advance of a sequence: the sum of its delays. *)
Definition total_delay (ops : list (Z * LightOp)) : Z := foldr (fun p acc => p.1 + acc) 0 ops.

(** C32: the light refines its abstract contract.  From any light whose
    priority flag agrees with its stored type, every sequence of method
    calls, at any delays, returns normally, keeps that agreement, advances
    the clock only by the delays, and returns what the abstract light
    returns, ending in the abstract light's state. *)
Theorem light_run_refines ops l w :
  light_inv l ->
  exists l' rs w', light_run ops l w = (Ok (l', rs), w') /\ light_inv l' /\
    now w' = now w + total_delay ops /\ abs_run ops (now w) (abs l) = (abs l', rs).
Proof.
  revert l w. induction ops as [|[dt op] ops IH]; intros l w Hi; cbn [light_run abs_run total_delay foldr].
  - eexists _, _, _. split; [reflexivity|]. split; [exact Hi|]. split; [simpl; lia|reflexivity].
  - rewrite (bind_ok _ _ _ _ _ (sleep_run dt w)).
    set (w1 := mkWorld _ _ _ _ _).
    destruct (light_op_refines op l w1 Hi) as (l1 & r & w2 & E1 & Ht1 & Hi1 & Ha1).
    rewrite (bind_ok _ _ _ _ _ E1). cbv beta iota.
    destruct (IH l1 w2 Hi1) as (l3 & rs & w3 & E3 & Hi3 & Ht3 & Ha3).
    rewrite (bind_ok _ _ _ _ _ E3). cbv beta iota.
    eexists _, _, _. split; [reflexivity|]. split; [exact Hi3|].
    rewrite Ht3, Ht1. subst w1. split; [simpl; unfold total_delay; lia|].
    rewrite Ht1 in Ha3. cbn [now] in Ha1, Ha3. rewrite Ha1, Ha3. reflexivity.
Qed.

Lemma light_run_refines_witness :
  light_inv initial_light /\
  exists l' rs w',
    light_run [(0, ActivatePriority emergency 12); (500, SetState red 15); (12600, UpdatePriority);
               (200, IsDone)] initial_light empty_world = (Ok (l', rs), w') /\ light_inv l' /\
    now w' = now empty_world + total_delay [(0, ActivatePriority emergency 12); (500, SetState red 15);
               (12600, UpdatePriority); (200, IsDone)] /\
    abs_run [(0, ActivatePriority emergency 12); (500, SetState red 15); (12600, UpdatePriority);
               (200, IsDone)] (now empty_world) (abs initial_light) = (abs l', rs).
Proof.
  assert (H : light_inv initial_light) by (unfold light_inv; simpl; split; [discriminate|by intros []]).
  split; [exact H|]. apply (light_run_refines _ initial_light empty_world). exact H.
Defined.

End LightSpec.
