(* ===== verification/Sensor.v ===== *)
(** * Sensor: the class [TrafficAISensor] (dengiaothong.py, lines 170-220)

    [scan_traffic] tallies the cars per lane in the dictionary
    [lane_counts] (a [gmap Z Z] with the keys 0..3; an unknown lane raises
    [KeyError]), collects the priority vehicles that have not passed, picks
    the first one of highest priority with Python's [max], classifies the
    total into a density label, appends a record to a history of at most 10
    entries and logs a line.  The sensor's state is its history and the
    count of scans that saw a priority vehicle. *)

From stdpp Require Import base list gmap strings.
From Stdlib Require Import ZArith Lia.
From S2P Require Import Prelude Config Logger World Vehicle.

Local Open Scope Z_scope.
Local Open Scope sim_scope.

Module TrafficAISensor.
Import Car.

Record HistoryEntry := mkHist {
  h_cycle : Z;
  h_lane_counts : gmap Z Z;
  h_total : Z;
  h_priority : PriorityType;
  h_timestamp : Z
}.

Record Sensor := mkSensor {
  history : list HistoryEntry;
  priority_vehicles_detected : Z
}.

(** The dictionary [scan_traffic] returns. *)
Record TrafficData := mkData {
  lane_counts : gmap Z Z;
  total : Z;
  priority : PriorityType;
  density_level : DensityLevel;
  emergency_count : Z
}.

(** [TrafficAISensor.__init__()] (lines 171-173). *)
Definition init : Sensor := mkSensor [] 0.

(** [{0: 0, 1: 0, 2: 0, 3: 0}] (line 177). *)
Definition initial_lane_counts : gmap Z Z :=
  <[3:=0]> (<[2:=0]> (<[1:=0]> (<[0:=0]> ∅))).

(** One iteration of the loop at lines 180-183. *)
Definition tally_car (acc : gmap Z Z * list Car) (c : Car)
  : res (gmap Z Z * list Car) :=
  let (counts, em) := acc in
  match counts !! lane c with
  | None => Raise (KeyError (lane c))
  | Some n =>
      Ok (<[lane c := n + 1]> counts,
          if (0 <? Car.priority c) && negb (passed c) then em ++ [c] else em)
  end.

(** The loop at lines 180-183: the tally, or the [KeyError] of the first
    car whose lane is not a key. *)
Fixpoint tally (cars : list Car) (acc : gmap Z Z * list Car) : res (gmap Z Z * list Car) :=
  match cars with
  | [] => Ok acc
  | c :: cs => match tally_car acc c with
               | Ok acc' => tally cs acc'
               | Raise e => Raise e
               end
  end.

(** [sum(lane_counts.values())] *)
Definition sum_values (m : gmap Z Z) : Z := map_fold (fun _ v acc => v + acc) 0 m.

(** The [density_level] expression (line 209). *)
Definition classify_density (total_vehicles : Z) : DensityLevel :=
  if total_vehicles <? 5 then RAT_IT
  else if total_vehicles <? 10 then IT
  else if total_vehicles <? 15 then TRUNG_BINH
  else if total_vehicles <? 20 then NHIEU
  else RAT_NHIEU.

(** [self.history.append(r); if len(self.history) > 10: self.history.pop(0)] *)
Definition push_history (h : list HistoryEntry) (r : HistoryEntry) : list HistoryEntry :=
  let h' := h ++ [r] in
  if 10 <? Z.of_nat (length h') then tail h' else h'.

(** [scan_traffic(cars, current_cycle)] (lines 175-220). *)
Definition scan_traffic (cars : list Car) (current_cycle : Z) (s : Sensor)
  : Sim (TrafficData * Sensor) :=
  acc <- of_res (tally cars (initial_lane_counts, [])) ;;
  let (counts, emergency_vehicles) := acc in
  let priority_type :=
    match emergency_vehicles with
    | [] => None
    | c :: cs => Some (type (py_max_by Car.priority c cs))
    end in
  let detected :=
    match emergency_vehicles with
    | [] => priority_vehicles_detected s
    | _ => priority_vehicles_detected s + 1
    end in
  let total_vehicles := sum_values counts in
  t <- time_time ;;
  let hist := push_history (history s)
                (mkHist current_cycle counts total_vehicles priority_type t) in
  let dl := classify_density total_vehicles in
  log TrafficLogger.INFO
      (TrafficLogger.AIScan (default 0 (counts !! 0)) (default 0 (counts !! 1))
                            (default 0 (counts !! 2)) (default 0 (counts !! 3))
                            total_vehicles dl priority_type) ;;;
  ret (mkData counts total_vehicles priority_type dl (Z.of_nat (length emergency_vehicles)),
       mkSensor hist detected).

(** The rank of a density label, from 0 ("RẤT ÍT") to 4 ("RẤT NHIỀU"). *)
Definition density_rank (d : DensityLevel) : Z :=
  match d with RAT_IT => 0 | IT => 1 | TRUNG_BINH => 2 | NHIEU => 3 | RAT_NHIEU => 4 end.

Definition sample_cars : list Car := [ambulance; sedan_past_line; sedan_near_exit].
Definition stray_car : Car := mkCar 7 normal 0 8 0 "🚗" 0 false.

(** ** Lemmas on the tally *)

(** The priority vehicles that have not passed, in list order: the
    [emergency_vehicles] of the code. *)
Definition candidates (cars : list Car) : list Car :=
  List.filter (fun c => (0 <? Car.priority c) && negb (passed c)) cars.

(** The number of cars in lane [k]. *)
Definition count_lane (k : Z) (cars : list Car) : Z :=
  Z.of_nat (length (List.filter (fun c => lane c =? k) cars)).

Definition valid_lane (c : Car) : Prop := 0 <= lane c <= 3.

Lemma initial_lane_counts_lookup k :
  initial_lane_counts !! k = if decide (0 <= k <= 3) then Some 0 else None.
Proof.
  unfold initial_lane_counts. rewrite !lookup_insert, lookup_empty.
  repeat case_decide; subst; try done; lia.
Qed.

Lemma sum_values_incr (m : gmap Z Z) k n :
  m !! k = Some n -> sum_values (<[k:=n + 1]> m) = sum_values m + 1.
Proof.
  intros Hk. unfold sum_values.
  rewrite <- (insert_delete_id m k n Hk) at 2. rewrite <- insert_delete_eq.
  rewrite !(map_fold_insert_L (fun _ v acc => v + acc)); [lia| |by rewrite lookup_delete_eq
    | |by rewrite lookup_delete_eq]; intros; lia.
Qed.

(** The tally keeps the keys, counts each car once in its lane, and
    appends the candidates to the priority list. *)
Lemma tally_ok cars (counts : gmap Z Z) em :
  Forall (fun c => is_Some (counts !! lane c)) cars ->
  exists counts', tally cars (counts, em) = Ok (counts', em ++ candidates cars) /\
    sum_values counts' = sum_values counts + Z.of_nat (length cars) /\
    (forall k, counts' !! k = (fun n => n + count_lane k cars) <$> counts !! k).
Proof.
  revert counts em. induction cars as [|c cs IH]; intros counts em Hall; simpl.
  - exists counts. rewrite app_nil_r. repeat split; [lia|].
    intros k. unfold count_lane. simpl. destruct (counts !! k); simpl; f_equal; lia.
  - inversion Hall as [|? ? [n Hn] Hcs]; subst. rewrite Hn.
    destruct (IH (<[lane c:=n + 1]> counts)
                 (if (0 <? Car.priority c) && negb (passed c) then em ++ [c] else em))
      as (counts' & E & Hsum & Hk).
    { eapply Forall_impl; [exact Hcs|]. intros c' [n' Hn'].
      rewrite lookup_insert. case_decide; eauto. }
    exists counts'. split; [|split].
    + rewrite E. f_equal. unfold candidates. simpl.
      destruct (_ && _); simpl; by rewrite <- ?app_assoc.
    + rewrite Hsum, (sum_values_incr _ _ _ Hn). lia.
    + intros k. rewrite Hk, lookup_insert. unfold count_lane. simpl.
      case_decide as Hck; [subst; rewrite Hn, Z.eqb_refl; simpl; f_equal; lia|].
      rewrite (proj2 (Z.eqb_neq (lane c) k) Hck). done.
Qed.

(** Whenever the tally succeeds, its priority list is the candidates. *)
Lemma tally_candidates cars (counts counts' : gmap Z Z) em em' :
  tally cars (counts, em) = Ok (counts', em') -> em' = em ++ candidates cars.
Proof.
  revert counts em. induction cars as [|c cs IH]; intros counts em E; simpl in *.
  - injection E as _ <-. by rewrite app_nil_r.
  - destruct (counts !! lane c); [|discriminate]. apply IH in E. rewrite E.
    unfold candidates; simpl. destruct (_ && _); simpl; by rewrite <- ?app_assoc.
Qed.

(** The tally raises [KeyError] at the first car whose lane is not a key. *)
Lemma tally_key_error pre c post (counts : gmap Z Z) em :
  Forall (fun c' => is_Some (counts !! lane c')) pre -> counts !! lane c = None ->
  tally (pre ++ c :: post) (counts, em) = Raise (KeyError (lane c)).
Proof.
  revert counts em. induction pre as [|c0 pre IH]; intros counts em Hall Hc; simpl.
  - by rewrite Hc.
  - inversion Hall as [|? ? [n Hn] Hpre]; subst. rewrite Hn. apply IH.
    + eapply Forall_impl; [exact Hpre|]. intros c' [n' Hn'].
      rewrite lookup_insert. case_decide; eauto.
    + rewrite lookup_insert. case_decide; [congruence|done].
Qed.

Lemma initial_counts_cover cars :
  Forall valid_lane cars -> Forall (fun c => is_Some (initial_lane_counts !! lane c)) cars.
Proof.
  intros H. eapply Forall_impl; [exact H|]. intros c Hc.
  rewrite initial_lane_counts_lookup. case_decide; [eauto|contradiction].
Qed.

Lemma sum_values_initial : sum_values initial_lane_counts = 0.
Proof. reflexivity. Qed.

(** A successful scan, unfolded. *)
Lemma scan_traffic_ok_inv cars n s w d s' w' :
  scan_traffic cars n s w = (Ok (d, s'), w') ->
  exists counts em, tally cars (initial_lane_counts, []) = Ok (counts, em) /\
    lane_counts d = counts /\ total d = sum_values counts /\
    density_level d = classify_density (sum_values counts) /\
    priority d = match em with [] => None | c :: cs => Some (type (py_max_by Car.priority c cs)) end /\
    history s' = push_history (history s)
                   (mkHist n counts (sum_values counts) (priority d) (now w)) /\
    now w' = now w.
Proof.
  unfold scan_traffic, bind, of_res.
  destruct (tally cars _) as [[counts em]|e]; [|discriminate].
  simpl. intros [= <- <- <-]. by exists counts, em.
Qed.

(** On valid lanes [scan_traffic] returns normally, keeps the clock and
    only appends its scan line to the log. *)
Lemma scan_traffic_frame cars n s w :
  Forall valid_lane cars ->
  exists d s' w', scan_traffic cars n s w = (Ok (d, s'), w') /\ now w' = now w /\
    TrafficLogger.phase_trace (entries w') = TrafficLogger.phase_trace (entries w).
Proof.
  intros Hv.
  destruct (tally_ok cars initial_lane_counts [] (initial_counts_cover _ Hv)) as (counts & E & _).
  unfold scan_traffic, bind, of_res. rewrite E. simpl.
  eexists _, _, _. split; [reflexivity|]. split; [done|].
  cbn [entries]. rewrite TrafficLogger.phase_trace_app. simpl. by rewrite app_nil_r.
Qed.

(** ** Properties of [scan_traffic] *)

(** C8: when every car is on one of the four lanes, [scan_traffic] returns
    normally; [lane_counts[k]] is the number of cars on lane [k], the total
    is the number of cars (passed ones included), the density label is the
    one of that total, and the clock does not move. *)
Theorem scan_traffic_counts cars n s w :
  Forall valid_lane cars ->
  exists d s' w', scan_traffic cars n s w = (Ok (d, s'), w') /\
    total d = Z.of_nat (length cars) /\
    (forall k, 0 <= k <= 3 -> lane_counts d !! k = Some (count_lane k cars)) /\
    density_level d = classify_density (Z.of_nat (length cars)) /\ now w' = now w.
Proof.
  intros Hv.
  destruct (tally_ok cars initial_lane_counts [] (initial_counts_cover _ Hv))
    as (counts & E & Hsum & Hk).
  destruct (scan_traffic cars n s w) as [[[d s']|e] w'] eqn:Es.
  - destruct (scan_traffic_ok_inv _ _ _ _ _ _ _ Es) as (c' & em & E' & Hlc & Ht & Hd & _ & _ & Hn).
    rewrite E in E'. injection E' as <- _.
    exists d, s', w'. rewrite Hlc, Ht, Hd, Hsum, sum_values_initial.
    split; [done|]. split; [lia|]. split; [|auto].
    intros k Hk'. rewrite Hk, initial_lane_counts_lookup. case_decide; [|lia]. simpl; f_equal; lia.
  - unfold scan_traffic, bind, of_res in Es. rewrite E in Es. discriminate.
Qed.

(** C22: a car on a lane outside 0..3 makes [scan_traffic] raise
    [KeyError] with that lane (the first such car in the list), before any
    change to the sensor or the world. *)
Theorem scan_traffic_key_error pre c post n s w :
  Forall valid_lane pre -> ~ valid_lane c ->
  scan_traffic (pre ++ c :: post) n s w = (Raise (KeyError (lane c)), w).
Proof.
  intros Hpre Hc. unfold scan_traffic, bind, of_res.
  rewrite (tally_key_error pre c post); [done|by apply initial_counts_cover|].
  rewrite initial_lane_counts_lookup. by case_decide.
Qed.

(** C7: the priority the scan reports is "none" exactly when no priority
    vehicle (rank > 0) is waiting un-passed; otherwise it is the type of
    the first such vehicle, in list order, whose rank is maximal: every
    candidate's rank is at most its rank, and every candidate before it
    has a strictly lower rank (ties go to the earliest). *)
Theorem scan_priority_earliest_max cars n s w d s' w' :
  scan_traffic cars n s w = (Ok (d, s'), w') ->
  match candidates cars with
  | [] => priority d = None
  | _ => exists pre c post, candidates cars = pre ++ c :: post /\
           priority d = Some (type c) /\
           (forall y, In y (candidates cars) -> Car.priority y <= Car.priority c) /\
           (forall y, In y pre -> Car.priority y < Car.priority c)
  end.
Proof.
  intros Es.
  destruct (scan_traffic_ok_inv _ _ _ _ _ _ _ Es) as (counts & em & E & _ & _ & _ & Hp & _).
  apply tally_candidates in E. simpl in E. subst em. rewrite Hp. destruct (candidates cars) as [|c0 cs] eqn:Ec; [done|].
  destruct (py_max_by_spec Car.priority c0 cs) as (Hb & pre & post & E' & Hpre).
  exists pre, (py_max_by Car.priority c0 cs), post. auto.
Qed.

(** C23: [density_level] splits the totals into bands of five: the label's
    rank is [min(4, total / 5)], so the boundary totals 5, 10, 15 and 20
    fall into the band above them, 0 into "RẤT ÍT" and 20 or more into
    "RẤT NHIỀU". *)
Theorem classify_density_rank n :
  0 <= n -> density_rank (classify_density n) = Z.min 4 (n / 5).
Proof.
  intros Hn. unfold classify_density.
  destruct (Z.ltb_spec n 5); [cbn [density_rank]; zdiv_lia|].
  destruct (Z.ltb_spec n 10); [cbn [density_rank]; zdiv_lia|].
  destruct (Z.ltb_spec n 15); [cbn [density_rank]; zdiv_lia|].
  destruct (Z.ltb_spec n 20); cbn [density_rank]; zdiv_lia.
Qed.

(** C24: the history never holds more than 10 records, and its newest
    record is the current scan's cycle and total. *)
Theorem scan_history_bounded cars n s w d s' w' :
  (length (history s) <= 10)%nat ->
  scan_traffic cars n s w = (Ok (d, s'), w') ->
  (length (history s') <= 10)%nat /\
  exists r, last (history s') = Some r /\ h_cycle r = n /\ h_total r = total d.
Proof.
  intros Hlen Es.
  destruct (scan_traffic_ok_inv _ _ _ _ _ _ _ Es) as (counts & em & _ & _ & Ht & _ & _ & Hh & _).
  rewrite Hh, Ht. unfold push_history. rewrite length_app. simpl.
  destruct (Z.ltb_spec 10 (Z.of_nat (length (history s) + 1))) as [H|H].
  - destruct (history s) as [|h0 hs]; simpl in *; [lia|]. split; [rewrite length_app; simpl; lia|].
    eexists. rewrite last_app. simpl. split; [reflexivity|]. auto.
  - split; [rewrite length_app; simpl; lia|]. eexists. rewrite last_app. simpl. auto.
Qed.

(** ** Witnesses *)

Lemma scan_traffic_counts_witness :
  exists d s' w', scan_traffic sample_cars 1 init empty_world = (Ok (d, s'), w') /\
    total d = Z.of_nat (length sample_cars) /\
    (forall k, 0 <= k <= 3 -> lane_counts d !! k = Some (count_lane k sample_cars)) /\
    density_level d = classify_density (Z.of_nat (length sample_cars)) /\
    now w' = now empty_world.
Proof.
  apply (scan_traffic_counts sample_cars 1 init empty_world).
  repeat constructor; unfold valid_lane; simpl; lia.
Defined.

Lemma scan_traffic_key_error_witness :
  scan_traffic ([sedan_past_line] ++ stray_car :: []) 1 init empty_world =
    (Raise (KeyError (lane stray_car)), empty_world).
Proof.
  apply (scan_traffic_key_error [sedan_past_line] stray_car [] 1 init empty_world).
  - repeat constructor; unfold valid_lane; simpl; lia.
  - unfold valid_lane; simpl; lia.
Defined.

Lemma scan_priority_earliest_max_witness :
  exists d s' w', scan_traffic sample_cars 1 init empty_world = (Ok (d, s'), w') /\
  match candidates sample_cars with
  | [] => priority d = None
  | _ => exists pre c post, candidates sample_cars = pre ++ c :: post /\
           priority d = Some (type c) /\
           (forall y, In y (candidates sample_cars) -> Car.priority y <= Car.priority c) /\
           (forall y, In y pre -> Car.priority y < Car.priority c)
  end.
Proof.
  destruct (scan_traffic sample_cars 1 init empty_world) as [[[d s']|e] w'] eqn:E;
    [|vm_compute in E; discriminate].
  exists d, s', w'. split; [reflexivity|].
  exact (scan_priority_earliest_max sample_cars 1 init empty_world d s' w' E).
Defined.

Lemma classify_density_rank_witness :
  density_rank (classify_density 20) = Z.min 4 (20 / 5).
Proof. apply (classify_density_rank 20). lia. Defined.

Lemma scan_history_bounded_witness :
  exists d s' w', scan_traffic sample_cars 1 init empty_world = (Ok (d, s'), w') /\
  (length (history s') <= 10)%nat /\
  exists r, last (history s') = Some r /\ h_cycle r = 1 /\ h_total r = total d.
Proof.
  destruct (scan_traffic sample_cars 1 init empty_world) as [[[d s']|e] w'] eqn:E;
    [|vm_compute in E; discriminate].
  exists d, s', w'. split; [reflexivity|].
  exact (scan_history_bounded sample_cars 1 init empty_world d s' w' (le_0_n _) E).
Defined.

End TrafficAISensor.
