(* ===== verification/Decision.v ===== *)
(** * Decision: the class [LightDecisionAlgorithm] (dengiaothong.py,
    lines 225-266, and its second copy at lines 1123-1164)

    [calculate_light_times] maps a sensor reading and the cycle number to
    the red, green and yellow durations in seconds.  The two copies of the
    class in the file differ only in the constants of the priority fast
    path (red 15 and green cap 23 in the first, red 2 and green cap 12 in
    the second), so both are instances of [calculate_light_times_with]. *)

From stdpp Require Import base list gmap strings.
From Stdlib Require Import ZArith Lia.
From S2P Require Import Prelude Config Logger World Vehicle Sensor.

Local Open Scope Z_scope.
Local Open Scope sim_scope.

Module LightDecisionAlgorithm.
Import TrafficAISensor.

(** [self.base_times] of [__init__] (lines 226-231); never read. *)
Record BaseTimes := mkBaseTimes { base_red : Z; base_green : Z; base_yellow : Z }.

Definition init : BaseTimes :=
  mkBaseTimes CONFIG.LIGHT_MIN CONFIG.LIGHT_MIN CONFIG.YELLOW_MIN.

(** The density adjustment of the green time (lines 247-256). *)
Definition density_green (total_vehicles : Z) : Z :=
  let base_green := CONFIG.LIGHT_MIN in
  if 15 <? total_vehicles then Z.min CONFIG.LIGHT_MAX (base_green + 8)
  else if 10 <? total_vehicles then Z.min CONFIG.LIGHT_MAX (base_green + 5)
  else if 5 <? total_vehicles then Z.min CONFIG.LIGHT_MAX (base_green + 3)
  else base_green.

(** The cycle adjustment (lines 259-260). *)
Definition cycle_green (green_time current_cycle : Z) : Z :=
  if 5 <? current_cycle then Z.min (green_time + 2) CONFIG.LIGHT_MAX else green_time.

(** [calculate_light_times(traffic_data, current_cycle)], with the
    fast-path red time and green cap as parameters. *)
Definition calculate_light_times_with (priority_red green_cap : Z)
    (traffic_data : TrafficData) (current_cycle : Z) : Sim (Z * Z * Z) :=
  match priority traffic_data with
  | Some _ =>
      let red_time := priority_red in
      let green_time := Z.min green_cap (CONFIG.LIGHT_MAX + 2) in
      let yellow_time := CONFIG.YELLOW_MAX in
      log TrafficLogger.PRIORITY (TrafficLogger.PriorityTimes red_time green_time) ;;;
      ret (red_time, green_time, yellow_time)
  | None =>
      let green_time := cycle_green (density_green (total traffic_data)) current_cycle in
      let red_time := Z.max CONFIG.LIGHT_MIN (green_time - 2) in
      yellow_time <- randint CONFIG.YELLOW_MIN CONFIG.YELLOW_MAX ;;
      log TrafficLogger.INFO (TrafficLogger.AdjustedTimes red_time green_time yellow_time) ;;;
      ret (red_time, green_time, yellow_time)
  end.

(** The first copy (lines 233-266): the one the program runs. *)
Definition calculate_light_times : TrafficData -> Z -> Sim (Z * Z * Z) :=
  calculate_light_times_with 15 23.

(** The second copy (lines 1131-1164). *)
Definition calculate_light_times_dup : TrafficData -> Z -> Sim (Z * Z * Z) :=
  calculate_light_times_with 2 12.

Definition reading_priority : TrafficData := mkData ∅ 3 (Some emergency) RAT_IT 1.
Definition reading_busy : TrafficData := mkData ∅ 12 None TRUNG_BINH 0.

(** ** Lemmas *)

(** The green time of the density path in closed form:
    [min(LIGHT_MAX, LIGHT_MIN + density bonus + cycle bonus)]. *)
Definition density_bonus (total_vehicles : Z) : Z :=
  if 15 <? total_vehicles then 8
  else if 10 <? total_vehicles then 5
  else if 5 <? total_vehicles then 3
  else 0.

Definition cycle_bonus (current_cycle : Z) : Z := if 5 <? current_cycle then 2 else 0.

Lemma density_green_bounds n :
  CONFIG.LIGHT_MIN <= density_green n <= CONFIG.LIGHT_MAX.
Proof.
  unfold density_green, CONFIG.LIGHT_MIN, CONFIG.LIGHT_MAX.
  repeat (destruct (_ <? _)); lia.
Qed.

Lemma cycle_green_bounds g c :
  CONFIG.LIGHT_MIN <= g <= CONFIG.LIGHT_MAX ->
  CONFIG.LIGHT_MIN <= cycle_green g c <= CONFIG.LIGHT_MAX.
Proof. unfold cycle_green, CONFIG.LIGHT_MIN, CONFIG.LIGHT_MAX. destruct (_ <? _); lia. Qed.

Lemma calculate_light_times_with_none pr gc d c w :
  priority d = None ->
  exists y w', calculate_light_times_with pr gc d c w =
    (Ok (Z.max CONFIG.LIGHT_MIN (cycle_green (density_green (total d)) c - 2),
         cycle_green (density_green (total d)) c, y), w') /\
    CONFIG.YELLOW_MIN <= y <= CONFIG.YELLOW_MAX /\ now w' = now w.
Proof.
  intros Hp. unfold calculate_light_times_with. rewrite Hp.
  destruct (randint_range CONFIG.YELLOW_MIN CONFIG.YELLOW_MAX w) as (y & w1 & E & Hy & Hn & _);
    [unfold CONFIG.YELLOW_MIN, CONFIG.YELLOW_MAX; lia|].
  rewrite (bind_ok _ _ _ _ _ E). eexists _, _. split; [reflexivity|]. auto.
Qed.

Lemma calculate_light_times_with_some pr gc d c w t :
  priority d = Some t ->
  calculate_light_times_with pr gc d c w =
    (Ok (pr, Z.min gc (CONFIG.LIGHT_MAX + 2), CONFIG.YELLOW_MAX),
     snd (log TrafficLogger.PRIORITY
            (TrafficLogger.PriorityTimes pr (Z.min gc (CONFIG.LIGHT_MAX + 2))) w)).
Proof. intros Hp. unfold calculate_light_times_with. by rewrite Hp. Qed.

(** The durations of either copy, with the frame of the world: no time
    passes and no phase change is logged.  The fast path returns its own
    red time and capped green; the density path stays in
    [LIGHT_MIN, LIGHT_MAX]. *)
Lemma calculate_light_times_with_range pr gc d c w :
  exists r g y w', calculate_light_times_with pr gc d c w = (Ok (r, g, y), w') /\
    ((r = pr /\ g = Z.min gc (CONFIG.LIGHT_MAX + 2)) \/
     (CONFIG.LIGHT_MIN <= r <= CONFIG.LIGHT_MAX /\ CONFIG.LIGHT_MIN <= g <= CONFIG.LIGHT_MAX)) /\
    CONFIG.YELLOW_MIN <= y <= CONFIG.YELLOW_MAX /\ now w' = now w /\
    TrafficLogger.phase_trace (entries w') = TrafficLogger.phase_trace (entries w).
Proof.
  destruct (priority d) as [t|] eqn:Hp.
  - rewrite (calculate_light_times_with_some _ _ _ _ _ t Hp).
    eexists _, _, _, _. split; [reflexivity|].
    autorewrite with traffic. simpl. rewrite app_nil_r.
    split; [by left|]. unfold CONFIG.YELLOW_MIN, CONFIG.YELLOW_MAX. repeat split; lia.
  - unfold calculate_light_times_with. rewrite Hp.
    destruct (randint_range CONFIG.YELLOW_MIN CONFIG.YELLOW_MAX w) as (y & w1 & E & Hy & Hn & He);
      [unfold CONFIG.YELLOW_MIN, CONFIG.YELLOW_MAX; lia|].
    rewrite (bind_ok _ _ _ _ _ E). eexists _, _, _, _. split; [reflexivity|]. cbn [entries now].
    rewrite TrafficLogger.phase_trace_app, app_nil_r, He.
    pose proof (cycle_green_bounds _ c (density_green_bounds (total d))).
    unfold CONFIG.LIGHT_MIN, CONFIG.LIGHT_MAX in *. split; [right; lia|]. repeat split; auto; lia.
Qed.

(** The ranges of the running copy's durations. *)
Lemma calculate_light_times_range d c w :
  exists r g y w', calculate_light_times d c w = (Ok (r, g, y), w') /\
    CONFIG.LIGHT_MIN <= r <= CONFIG.LIGHT_MAX /\
    CONFIG.LIGHT_MIN <= g <= CONFIG.LIGHT_MAX + 2 /\
    CONFIG.YELLOW_MIN <= y <= CONFIG.YELLOW_MAX /\ now w' = now w /\
    TrafficLogger.phase_trace (entries w') = TrafficLogger.phase_trace (entries w).
Proof.
  destruct (calculate_light_times_with_range 15 23 d c w) as (r & g & y & w' & E & Hrg & H).
  exists r, g, y, w'. split; [exact E|].
  unfold CONFIG.LIGHT_MIN, CONFIG.LIGHT_MAX in *. split; [lia|]. split; [lia|]. exact H.
Qed.

(** The ranges of the second copy's durations: its fast-path red of 2 s
    is below [LIGHT_MIN] but still positive. *)
Lemma calculate_light_times_dup_range d c w :
  exists r g y w', calculate_light_times_dup d c w = (Ok (r, g, y), w') /\
    2 <= r <= CONFIG.LIGHT_MAX /\
    CONFIG.LIGHT_MIN <= g <= CONFIG.LIGHT_MAX + 2 /\
    CONFIG.YELLOW_MIN <= y <= CONFIG.YELLOW_MAX /\ now w' = now w /\
    TrafficLogger.phase_trace (entries w') = TrafficLogger.phase_trace (entries w).
Proof.
  destruct (calculate_light_times_with_range 2 12 d c w) as (r & g & y & w' & E & Hrg & H).
  exists r, g, y, w'. split; [exact E|].
  unfold CONFIG.LIGHT_MIN, CONFIG.LIGHT_MAX in *. split; [lia|]. split; [lia|]. exact H.
Qed.

(** ** Properties of [calculate_light_times] *)

(** C1: for every reading and cycle, the durations of the running copy lie
    in their configured ranges: red in [LIGHT_MIN, LIGHT_MAX], green in
    [LIGHT_MIN, LIGHT_MAX + 2] (the fast path's bonus) and yellow in
    [YELLOW_MIN, YELLOW_MAX]; no exception is raised and no time passes. *)
Theorem calculate_light_times_bounds d c w :
  exists r g y w', calculate_light_times d c w = (Ok (r, g, y), w') /\
    CONFIG.LIGHT_MIN <= r <= CONFIG.LIGHT_MAX /\
    CONFIG.LIGHT_MIN <= g <= CONFIG.LIGHT_MAX + 2 /\
    CONFIG.YELLOW_MIN <= y <= CONFIG.YELLOW_MAX /\ now w' = now w.
Proof.
  destruct (calculate_light_times_range d c w) as (r & g & y & w' & E & Hr & Hg & Hy & Hn & _).
  exists r, g, y, w'. auto.
Qed.

(** C2: the priority fast path.  Whenever the reading names a priority
    vehicle, the running copy returns red 15 s, green 17 s
    ([min(23, LIGHT_MAX + 2)]) and yellow [YELLOW_MAX] = 5 s, whatever the
    total count and the cycle number, without drawing a random number. *)
Theorem calculate_light_times_priority d t c w :
  priority d = Some t ->
  fst (calculate_light_times d c w) = Ok (15, 17, 5) /\
  draws (snd (calculate_light_times d c w)) = draws w /\
  now (snd (calculate_light_times d c w)) = now w.
Proof.
  intros Hp. unfold calculate_light_times.
  by rewrite (calculate_light_times_with_some _ _ _ _ _ t Hp).
Qed.

(** C3: without a priority vehicle the green time is
    [min(LIGHT_MAX, LIGHT_MIN + density bonus + cycle bonus)], with the
    density bonus 8, 5, 3 or 0 for more than 15, 10, 5 or at most 5
    vehicles and the cycle bonus 2 after cycle 5; the red time is
    [max(LIGHT_MIN, green - 2)]; and the green time never shrinks when the
    count of vehicles or the cycle number grows. *)
Theorem calculate_light_times_density d c w :
  priority d = None ->
  exists y w', calculate_light_times d c w =
    (Ok (Z.max CONFIG.LIGHT_MIN
           (Z.min CONFIG.LIGHT_MAX
              (CONFIG.LIGHT_MIN + density_bonus (total d) + cycle_bonus c) - 2),
         Z.min CONFIG.LIGHT_MAX
           (CONFIG.LIGHT_MIN + density_bonus (total d) + cycle_bonus c), y), w') /\
  (forall n1 n2 c1 c2, n1 <= n2 -> c1 <= c2 ->
     cycle_green (density_green n1) c1 <= cycle_green (density_green n2) c2).
Proof.
  intros Hp.
  assert (Hcf : forall n c', cycle_green (density_green n) c' =
            Z.min CONFIG.LIGHT_MAX (CONFIG.LIGHT_MIN + density_bonus n + cycle_bonus c')).
  { intros n c'. unfold cycle_green, density_green, density_bonus, cycle_bonus,
      CONFIG.LIGHT_MIN, CONFIG.LIGHT_MAX.
    repeat (destruct (_ <? _)); lia. }
  destruct (calculate_light_times_with_none 15 23 d c w Hp) as (y & w' & E & _).
  exists y, w'. split; [unfold calculate_light_times; by rewrite E, Hcf|].
  intros n1 n2 c1 c2 Hn Hc. rewrite !Hcf.
  unfold density_bonus, cycle_bonus.
  repeat match goal with |- context [?a <? ?b] => destruct (Z.ltb_spec a b) end; lia.
Qed.

(** C18: the second copy's fast path returns a red time of 2 s and a green
    time of 12 s: the red time is below [LIGHT_MIN], outside the range the
    durations are promised to be clamped into, and the green time is
    shorter than the density path's maximum. *)
Theorem calculate_light_times_dup_priority d t c w :
  priority d = Some t ->
  fst (calculate_light_times_dup d c w) = Ok (2, 12, 5) /\
  2 < CONFIG.LIGHT_MIN /\ 12 < CONFIG.LIGHT_MAX.
Proof.
  intros Hp. unfold calculate_light_times_dup.
  rewrite (calculate_light_times_with_some _ _ _ _ _ t Hp). done.
Qed.

(** ** The contract of a decision method

    What [TrafficManager.run_cycle] relies on from the
    [calculate_light_times] of its [decision_algorithm]: it returns
    normally, takes no time, sets no phase, and keeps its durations in the
    ranges given.  Both copies of the class meet it. *)
Class DecisionContract (calc : TrafficData -> Z -> Sim (Z * Z * Z))
    (rlo rhi glo ghi ylo yhi : Z) : Prop :=
  decision_range : forall d c w,
    exists r g y w', calc d c w = (Ok (r, g, y), w') /\
      rlo <= r <= rhi /\ glo <= g <= ghi /\ ylo <= y <= yhi /\ now w' = now w /\
      TrafficLogger.phase_trace (entries w') = TrafficLogger.phase_trace (entries w).

#[export] Instance calculate_light_times_contract :
  DecisionContract calculate_light_times CONFIG.LIGHT_MIN CONFIG.LIGHT_MAX
                   CONFIG.LIGHT_MIN (CONFIG.LIGHT_MAX + 2) CONFIG.YELLOW_MIN CONFIG.YELLOW_MAX.
Proof. exact calculate_light_times_range. Qed.

#[export] Instance calculate_light_times_dup_contract :
  DecisionContract calculate_light_times_dup 2 CONFIG.LIGHT_MAX
                   CONFIG.LIGHT_MIN (CONFIG.LIGHT_MAX + 2) CONFIG.YELLOW_MIN CONFIG.YELLOW_MAX.
Proof. exact calculate_light_times_dup_range. Qed.

(** ** Witnesses *)

(** A reading with an ambulance waiting, and a busy reading without. *)
Lemma calculate_light_times_priority_witness :
  fst (calculate_light_times reading_priority 7 empty_world) = Ok (15, 17, 5) /\
  draws (snd (calculate_light_times reading_priority 7 empty_world)) = draws empty_world /\
  now (snd (calculate_light_times reading_priority 7 empty_world)) = now empty_world.
Proof. apply (calculate_light_times_priority reading_priority emergency 7 empty_world). reflexivity. Defined.

Lemma calculate_light_times_density_witness :
  exists y w', calculate_light_times reading_busy 7 empty_world =
    (Ok (Z.max CONFIG.LIGHT_MIN
           (Z.min CONFIG.LIGHT_MAX
              (CONFIG.LIGHT_MIN + density_bonus (total reading_busy) + cycle_bonus 7) - 2),
         Z.min CONFIG.LIGHT_MAX
           (CONFIG.LIGHT_MIN + density_bonus (total reading_busy) + cycle_bonus 7), y), w') /\
  (forall n1 n2 c1 c2, n1 <= n2 -> c1 <= c2 ->
     cycle_green (density_green n1) c1 <= cycle_green (density_green n2) c2).
Proof. apply (calculate_light_times_density reading_busy 7 empty_world). reflexivity. Defined.

Lemma calculate_light_times_dup_priority_witness :
  fst (calculate_light_times_dup reading_priority 7 empty_world) = Ok (2, 12, 5) /\
  2 < CONFIG.LIGHT_MIN /\ 12 < CONFIG.LIGHT_MAX.
Proof. apply (calculate_light_times_dup_priority reading_priority emergency 7 empty_world). reflexivity. Defined.

End LightDecisionAlgorithm.
