(* ===== verification/Manager.v ===== *)
(** * Manager: the class [TrafficManager] (dengiaothong.py, lines 271-384)

    The orchestrator owns the cars, the light, the sensor and the decision
    algorithm.  [spawn_cars] adds at most one car every two seconds,
    [update_cars] moves every car and counts the ones that cross the
    counting line, [write_simulation_data] publishes the snapshot, and
    [run_cycle] scans, decides, opens a priority window when needed and
    drives the light through RED, GREEN and YELLOW, ticking every 0.5 s
    within each phase.

    The [while time.time() - start_state_time < duration] loop is
    [phase_loop], bounded by a fuel argument; [phase_loop_runs] shows that
    [2 * duration + 1] loop tests are enough for it to return, and
    [run_cycle_spec] that fuel 35 is enough for every phase.  The start of
    [run_cycle] is [plan_cycle_with], shared with the second copy of the
    class (SecondCopy.v). *)

From stdpp Require Import base list gmap strings.
From Stdlib Require Import ZArith Lia.
From S2P Require Import Prelude Config Logger World Vehicle Signal Sensor Decision.

Local Open Scope Z_scope.
Local Open Scope sim_scope.

Module TrafficManager.
Import Car SmartTrafficLight TrafficAISensor LightDecisionAlgorithm.

Record Manager := mkManager {
  cars : list Car;
  light : Light;
  sensor : Sensor;
  decision_algorithm : BaseTimes;
  last_spawn_time : Z;            (** ms *)
  spawn_interval : Z              (** seconds *)
}.

Definition with_cars (m : Manager) (cs : list Car) : Manager :=
  mkManager cs (light m) (sensor m) (decision_algorithm m) (last_spawn_time m) (spawn_interval m).
Definition with_light (m : Manager) (l : Light) : Manager :=
  mkManager (cars m) l (sensor m) (decision_algorithm m) (last_spawn_time m) (spawn_interval m).
Definition with_sensor (m : Manager) (s : Sensor) : Manager :=
  mkManager (cars m) (light m) s (decision_algorithm m) (last_spawn_time m) (spawn_interval m).
Definition with_last_spawn (m : Manager) (t : Z) : Manager :=
  mkManager (cars m) (light m) (sensor m) (decision_algorithm m) t (spawn_interval m).

(** [TrafficManager.__init__()] (lines 272-278). *)
Definition init : Sim Manager :=
  l <- SmartTrafficLight.init ;;
  t <- time_time ;;
  ret (mkManager [] l TrafficAISensor.init LightDecisionAlgorithm.init t 2).

(** The cumulative probability table of [spawn_cars] (lines 297-307). *)
Definition choose_car_type (rand_val : Z) : Sim CarType :=
  if rand_val <? CONFIG.EMERGENCY_PROB then ret emergency
  else if rand_val <? CONFIG.EMERGENCY_PROB + CONFIG.POLICE_PROB then ret police
  else if rand_val <? CONFIG.EMERGENCY_PROB + CONFIG.POLICE_PROB + CONFIG.FIRE_PROB
  then ret fire
  else if rand_val <? 80 then choice normal [truck; bus]
  else ret normal.

(** [spawn_cars()] (lines 280-310). *)
Definition spawn_cars (m : Manager) : Sim Manager :=
  current_time <- time_time ;;
  if current_time - last_spawn_time m <? spawn_interval m * 1000 then ret m
  else
    let m1 := with_last_spawn m current_time in
    if CONFIG.MAX_CARS_PER_LANE * 4 <=? Z.of_nat (length (cars m1)) then ret m1
    else
      u <- random_random ;;
      if u <? CONFIG.CAR_SPAWN_PROB then
        lane <- randint 0 3 ;;
        rand_val <- random_random ;;
        car_type <- choose_car_type rand_val ;;
        new_car <- Car.init lane car_type ;;
        ret (with_cars m1 (cars m1 ++ [new_car]))
      else ret m1.

(** One iteration of the loop of [update_cars] (lines 315-320): the cars
    already updated, and the light whose counter it may increment. *)
Definition update_car (acc : list Car * Light) (car : Car) : Sim (list Car * Light) :=
  let (updated, l) := acc in
  car' <- Car.move (state l) (priority_active l) car ;;
  if (PASS_LINE <? position car') && negb (passed car') then
    ret (updated ++ [with_passed car' true], vehicle_passed l)
  else ret (updated ++ [car'], l).

(** The clean-up filter of line 323. *)
Definition keep_car (c : Car) : bool := (position c <? EXIT_LINE) || negb (passed c).

(** [update_cars()] (lines 312-323). *)
Definition update_cars (m : Manager) : Sim Manager :=
  acc <- for_each (cars m) ([], light m) update_car ;;
  let (cars', l') := acc in
  ret (with_light (with_cars m (List.filter keep_car cars')) l').

(** [write_simulation_data(current_cycle)] (lines 370-384). *)
Definition write_simulation_data (current_cycle : Z) (m : Manager) : Sim unit :=
  rt <- time_left (light m) ;;
  w <- get ;;
  write_traffic_data
    (mkSnapshot (state (light m)) (map get_display_info (cars m)) current_cycle
                CONFIG.MAX_CYCLES rt (priority_type (light m)) (priority_active (light m))
                (total_vehicles_passed (light m))
                (map TrafficLogger.format_entry (TrafficLogger.get_recent_logs 10 (entries w)))).

(** The body of the [while] loop of [run_cycle] (lines 352-364). *)
Definition tick (cycle_number : Z) (m : Manager) : Sim Manager :=
  l <- update_priority (light m) ;;
  m2 <- spawn_cars (with_light m l) ;;
  m3 <- update_cars m2 ;;
  write_simulation_data cycle_number m3 ;;;
  sleep 500 ;;;
  ret m3.

(** [while time.time() - start_state_time < duration: ...] (lines 350-364),
    with fuel. *)
Fixpoint phase_loop (fuel : nat) (cycle_number start_state_time duration : Z)
    (m : Manager) : Sim Manager :=
  match fuel with
  | O => raise FuelExhausted
  | S fuel' =>
      t <- time_time ;;
      if t - start_state_time <? duration * 1000 then
        m' <- tick cycle_number m ;;
        phase_loop fuel' cycle_number start_state_time duration m'
      else ret m
  end.

(** The loop by count: [k] runs of the loop body, one after the other. *)
Fixpoint ticks (k : nat) (cycle_number : Z) (m : Manager) : Sim Manager :=
  match k with
  | O => ret m
  | S k' => m' <- tick cycle_number m ;; ticks k' cycle_number m'
  end.

(** One iteration of [for state, duration in light_sequence] (lines
    347-366). *)
Definition run_phase (fuel : nat) (cycle_number : Z) (m : Manager)
    (phase : LightState * Z) : Sim Manager :=
  let (st, duration) := phase in
  l <- set_state st duration (light m) ;;
  start_state_time <- time_time ;;
  m' <- phase_loop fuel cycle_number start_state_time duration (with_light m l) ;;
  log TrafficLogger.INFO (TrafficLogger.PhaseEnd st cycle_number) ;;;
  ret m'.

(** The first part of [run_cycle(cycle_number)] (lines 326-345): log the
    start of the cycle, scan, decide the durations and open a priority
    window when a priority vehicle was found; it returns the manager and
    [light_sequence].  [calculate_light_times] is the method of the
    decision class the manager was built with (each copy of the program
    has its own). *)
Definition plan_cycle_with (calculate_light_times : TrafficData -> Z -> Sim (Z * Z * Z))
    (cycle_number : Z) (m : Manager) : Sim (Manager * list (LightState * Z)) :=
  log TrafficLogger.CYCLE (TrafficLogger.CycleStart cycle_number) ;;;
  scan <- scan_traffic (cars m) cycle_number (sensor m) ;;
  let (traffic_data, s') := scan in
  let m1 := with_sensor m s' in
  times <- calculate_light_times traffic_data cycle_number ;;
  let '(red_time, green_time, yellow_time) := times in
  m2 <- match priority traffic_data with
        | Some pt => l <- activate_priority pt (green_time + 2) (light m1) ;;
                     ret (with_light m1 l)
        | None => ret m1
        end ;;
  ret (m2, [(red, red_time); (green, green_time); (yellow, yellow_time)]).

Definition plan_cycle : Z -> Manager -> Sim (Manager * list (LightState * Z)) :=
  plan_cycle_with calculate_light_times.

(** [run_cycle(cycle_number)] (lines 325-368). *)
Definition run_cycle (fuel : nat) (cycle_number : Z) (m : Manager) : Sim Manager :=
  plan <- plan_cycle cycle_number m ;;
  let (m2, light_sequence) := plan in
  m3 <- for_each light_sequence m2 (run_phase fuel cycle_number) ;;
  ret (with_light m3 (increment_cycle (light m3))).

(** The cars that have not crossed the counting line yet. *)
Definition unpassed (cs : list Car) : nat := length (List.filter (fun c => negb (passed c)) cs).

(** Every car is well-formed, and a car not yet counted is at or before
    the counting line. *)
Definition pop_inv (cs : list Car) : Prop :=
  Forall car_wf cs /\ Forall (fun c => passed c = false -> position c <= PASS_LINE) cs.

(** The population invariant of the manager: well-formed cars, every
    uncounted one before the counting line, at most 32 of them. *)
Definition mgr_inv (m : Manager) : Prop :=
  pop_inv (cars m) /\ (length (cars m) <= 32)%nat.

(** The facts a phase keeps: the invariant, the phase, a non-decreasing
    counter, no new priority window, the sensor, and the phase trace. *)
Definition phase_inv (m0 : Manager) (w0 : World) (m : Manager) (w : World) : Prop :=
  mgr_inv m /\ state (light m) = state (light m0) /\
  total_vehicles_passed (light m0) <= total_vehicles_passed (light m) /\
  (priority_active (light m) = true -> priority_active (light m0) = true) /\
  sensor m = sensor m0 /\
  TrafficLogger.phase_trace (entries w) = TrafficLogger.phase_trace (entries w0).

(** A car held before the stop line that has not been counted. *)
Definition stopped (c : Car) : Prop := position c < STOP_LINE /\ passed c = false.

(** What a red tick does to a stopped car: its waiting time grows by one. *)
Definition wait (c : Car) : Car := with_waiting c (waiting_time c + 1).

(** The invariant of a red phase outside a priority window: every car is
    stopped before the stop line and uncounted, and the counter is [T]. *)
Definition red_inv (T : Z) (m : Manager) : Prop :=
  mgr_inv m /\ state (light m) = red /\ priority_active (light m) = false /\
  Forall stopped (cars m) /\ total_vehicles_passed (light m) = T.

(** A manager with the cars [cs] and a green light, for the witnesses. *)
Definition sample_manager (cs : list Car) : Manager :=
  mkManager cs (mkLight green 10 0 false None 0 0 0) TrafficAISensor.init
            LightDecisionAlgorithm.init 0 2.

(** ** The spawn distribution

    [random.random()] is read in hundredths (World.v), and
    [random.choice] of three names by a draw taken modulo 3, so the
    300 pairs of a hundredth [r] and a choice draw [d] are equally likely.
    [spawn_type r d] is the type [spawn_cars] gives a new car on them, and
    [spawn_count t] the number of pairs that give [t]. *)
Definition spawn_type (r d : Z) : option CarType :=
  match choose_car_type r (mkWorld 0 [d] [] None None) with (Ok t, _) => Some t | _ => None end.

Definition spawn_count (t : CarType) : nat :=
  length (List.filter (fun rd => match spawn_type rd.1 rd.2 with Some t' => bool_decide (t' = t) | None => false end)
                      (list_prod (seqZ 0 100) (seqZ 0 3))).

(** ** [update_cars] as two passes

    The reference the loop of [update_cars] is proved against: move every
    car once, in order, under the light as it stands, then mark and count
    the moved cars that are past the counting line and not counted yet. *)

Definition crossing (c : Car) : bool := (PASS_LINE <? position c) && negb (passed c).

Definition count_car (c : Car) : Car := if crossing c then with_passed c true else c.

Fixpoint move_all (st : LightState) (pa : bool) (cs : list Car) : Sim (list Car) :=
  match cs with
  | [] => ret []
  | c :: cs' => c' <- Car.move st pa c ;; cs'' <- move_all st pa cs' ;; ret (c' :: cs'')
  end.

Definition update_cars_ref (m : Manager) : Sim Manager :=
  moved <- move_all (state (light m)) (priority_active (light m)) (cars m) ;;
  ret (with_light (with_cars m (List.filter keep_car (map count_car moved)))
         (with_total (light m) (total_vehicles_passed (light m) +
                                Z.of_nat (length (List.filter crossing moved))))).

(** ** Frame lemmas *)

(** Close a goal [exists v w', m w = (Ok v, w') /\ P] where [m w] computes. *)
Ltac run_ok := eexists _, _; split; [reflexivity|]; simpl; repeat split; auto.

Lemma choose_car_type_frame r w :
  exists t w', choose_car_type r w = (Ok t, w') /\ now w' = now w /\ entries w' = entries w.
Proof.
  unfold choose_car_type.
  repeat (destruct (_ <? _)); try (eexists _, _; split; [reflexivity|]; auto).
  apply choice_frame.
Qed.

(** [spawn_cars] never raises, keeps the clock, the log, the light and the
    sensor, and either leaves the cars alone or appends one fresh car,
    upstream and not passed, to a population of fewer than 32. *)
Lemma spawn_cars_spec m w :
  exists m' w', spawn_cars m w = (Ok m', w') /\ now w' = now w /\ entries w' = entries w /\
    light m' = light m /\ sensor m' = sensor m /\
    (cars m' = cars m \/
     exists c, cars m' = cars m ++ [c] /\ (length (cars m) < 32)%nat /\ car_wf c /\
               passed c = false /\ -1000 <= position c <= -200).
Proof.
  unfold spawn_cars. rewrite bind_time_time. cbn [with_last_spawn cars light sensor].
  destruct (_ <? _); [run_ok|].
  destruct (Z.leb_spec (CONFIG.MAX_CARS_PER_LANE * 4) (Z.of_nat (length (cars m))))
    as [Hfull|Hroom]; [run_ok|].
  destruct (random_random_range w) as (u & w1 & E1 & _ & Hn1 & He1). rewrite (bind_ok _ _ _ _ _ E1).
  destruct (_ <? _); [|run_ok].
  destruct (randint_range 0 3 w1) as (ln & w2 & E2 & Hl & Hn2 & He2); [lia|].
  rewrite (bind_ok _ _ _ _ _ E2).
  destruct (random_random_range w2) as (rv & w3 & E3 & _ & Hn3 & He3). rewrite (bind_ok _ _ _ _ _ E3).
  destruct (choose_car_type_frame rv w3) as (t & w4 & E4 & Hn4 & He4). rewrite (bind_ok _ _ _ _ _ E4).
  destruct (init_wf ln t w4 Hl) as (c & w5 & E5 & Hwf & Hp & Hpos & _ & _ & Hn5 & He5).
  rewrite (bind_ok _ _ _ _ _ E5), ?bind_assoc. eexists _, _. split; [reflexivity|].
  simpl. repeat split; try congruence. right. exists c.
  unfold CONFIG.MAX_CARS_PER_LANE in Hroom. split; [done|]. split; [lia|]. auto.
Qed.

(** ** The counting invariant of [update_cars] *)

Lemma unpassed_app cs1 cs2 : unpassed (cs1 ++ cs2) = (unpassed cs1 + unpassed cs2)%nat.
Proof. unfold unpassed. by rewrite List.filter_app, length_app. Qed.

Lemma unpassed_single c : unpassed [c] = if passed c then 0%nat else 1%nat.
Proof. unfold unpassed. simpl. by destruct (passed c). Qed.

Lemma unpassed_cons c cs :
  unpassed (c :: cs) = ((if passed c then 0 else 1) + unpassed cs)%nat.
Proof. unfold unpassed. simpl. by destruct (passed c). Qed.

Lemma pop_inv_app cs1 cs2 : pop_inv (cs1 ++ cs2) <-> pop_inv cs1 /\ pop_inv cs2.
Proof. unfold pop_inv. rewrite !Forall_app. tauto. Qed.

Lemma pop_inv_cons c cs : pop_inv (c :: cs) <-> pop_inv [c] /\ pop_inv cs.
Proof. apply (pop_inv_app [c] cs). Qed.

(** One car's update: the counter grows by one exactly when the car leaves
    the un-passed set; the rest of the light is unchanged. *)
Lemma update_car_spec updated l c w :
  pop_inv [c] ->
  exists c' l' w', update_car (updated, l) c w = (Ok (updated ++ [c'], l'), w') /\
    l' = with_total l (total_vehicles_passed l + Z.of_nat (unpassed [c]) - Z.of_nat (unpassed [c'])) /\
    pop_inv [c'] /\ (unpassed [c'] <= unpassed [c])%nat /\ now w' = now w /\
    entries w' = entries w.
Proof.
  intros [Hwf Hp]. rewrite Forall_singleton in Hwf. rewrite Forall_singleton in Hp.
  pose proof Hwf as (Hs & _). pose proof (CAR_TYPES_speed_bounds (type c)).
  pose proof (advance_position (state l) (priority_active l) c ltac:(lia)) as Hadv.
  destruct (advance_frame (state l) (priority_active l) c) as (_ & _ & _ & _ & _ & Hpa).
  destruct (move_wf (state l) (priority_active l) c w Hwf) as (c' & w' & E & Hwf' & _ & _ & Hn & Hen).
  unfold update_car. rewrite (bind_ok _ _ _ _ _ E).
  destruct (passed c) eqn:Hpc.
  - (* already counted: the car stays counted and the counter is kept *)
    assert (Hpc' : passed c' = true).
    { destruct (move_cases (state l) (priority_active l) c w) as [(_ & E')|(_ & p & w'' & E' & _)];
        rewrite E in E'; injection E' as -> _; [by rewrite Hpa|done]. }
    rewrite Hpc', andb_false_r. simpl. exists c', l, w'. split; [reflexivity|].
    assert (Hu : unpassed [c] = 0%nat /\ unpassed [c'] = 0%nat)
      by (unfold unpassed; simpl; by rewrite Hpc, Hpc').
    destruct Hu as [-> ->]. rewrite Z.add_0_r, Z.sub_0_r, with_total_same.
    split; [done|]. split; [split|split; [lia|done]].
    + by apply Forall_singleton.
    + apply Forall_singleton. intros; congruence.
  - (* not counted yet: the car is before the line, so [move] cannot respawn it *)
    specialize (Hp eq_refl).
    destruct (move_cases (state l) (priority_active l) c w) as [(Hx & E')|(Hx & _)];
      [|unfold PASS_LINE, EXIT_LINE in *; lia].
    rewrite E in E'. injection E' as -> ->. rewrite Hpa. simpl.
    destruct (Z.ltb_spec PASS_LINE (position (advance (state l) (priority_active l) c))).
    + eexists _, _, _. split; [reflexivity|].
      rewrite !unpassed_single, Hpc, vehicle_passed_with_total. simpl.
      split; [f_equal; lia|]. split; [|split; [lia|done]].
      split; apply Forall_singleton; [by apply with_passed_wf|discriminate].
    + eexists _, _, _. split; [reflexivity|].
      rewrite !unpassed_single, Hpc, Hpa.
      replace (total_vehicles_passed l + Z.of_nat 1 - Z.of_nat 1) with (total_vehicles_passed l)
        by lia.
      rewrite with_total_same.
      split; [done|]. split; [|split; [lia|done]].
      split; apply Forall_singleton; auto.
Qed.

Lemma update_loop_spec cs updated l w :
  pop_inv cs -> pop_inv updated ->
  exists updated' l' w', for_each cs (updated, l) update_car w = (Ok (updated', l'), w') /\
    pop_inv updated' /\
    l' = with_total l (total_vehicles_passed l + Z.of_nat (unpassed updated + unpassed cs)
                       - Z.of_nat (unpassed updated')) /\
    (unpassed updated' <= unpassed updated + unpassed cs)%nat /\
    length updated' = (length updated + length cs)%nat /\ now w' = now w /\
    entries w' = entries w.
Proof.
  revert updated l w. induction cs as [|c cs IH]; intros updated l w Hcs Hup; simpl.
  - eexists _, _, _. split; [reflexivity|]. split; [done|].
    split; [|split; [lia|split; [lia|done]]]. rewrite Nat.add_0_r.
    replace (total_vehicles_passed l + Z.of_nat (unpassed updated) - Z.of_nat (unpassed updated))
      with (total_vehicles_passed l) by lia. by rewrite with_total_same.
  - apply pop_inv_cons in Hcs as [Hc Hcs].
    destruct (update_car_spec updated l c w Hc) as (c' & l1 & w1 & E1 & Hl1 & Hc' & Hle & Hn1 & He1).
    rewrite (bind_ok _ _ _ _ _ E1).
    destruct (IH (updated ++ [c']) l1 w1 Hcs (proj2 (pop_inv_app _ _) (conj Hup Hc')))
      as (updated' & l' & w' & E & Hinv & -> & Hle' & Hlen & Hn & He).
    eexists updated', _, w'. split; [exact E|]. split; [done|]. subst l1.
    rewrite with_total_twice, unpassed_app in *.
    change (c :: cs) with ([c] ++ cs). rewrite unpassed_app, length_app in *. simpl in *.
    split; [f_equal; lia|]. split; [lia|]. split; [lia|]. split; congruence.
Qed.

Lemma update_car_eq updated l c :
  update_car (updated, l) c =
  (c' <- Car.move (state l) (priority_active l) c ;;
   if crossing c' then ret (updated ++ [with_passed c' true], vehicle_passed l)
   else ret (updated ++ [c'], l)).
Proof.
  reflexivity.
Qed.

(** The loop of [update_cars] is the two passes: [vehicle_passed] leaves
    the light's state and priority flag alone, so every car is moved under
    the same light. *)
Lemma update_loop_move_all cs updated l w :
  for_each cs (updated, l) update_car w =
  (moved <- move_all (state l) (priority_active l) cs ;;
   ret (updated ++ map count_car moved,
        with_total l (total_vehicles_passed l + Z.of_nat (length (List.filter crossing moved))))) w.
Proof.
  revert updated l w. induction cs as [|c cs IH]; intros updated l w.
  - cbn. rewrite app_nil_r. replace (total_vehicles_passed l + _) with (total_vehicles_passed l) by lia.
    by rewrite with_total_same.
  - cbn [for_each move_all]. rewrite update_car_eq, !bind_assoc.
    destruct (Car.move (state l) (priority_active l) c w) as [[c'|e] w1] eqn:E;
      [rewrite (bind_ok _ _ _ _ _ E), (bind_ok _ _ _ _ _ E), bind_assoc
      |by rewrite (bind_raise _ _ _ _ _ E), (bind_raise _ _ _ _ _ E)].
    destruct (crossing c') eqn:Hx; rewrite bind_ret_l, IH; cbn [state priority_active vehicle_passed];
      (destruct (move_all (state l) (priority_active l) cs w1) as [[ms|e] w2] eqn:E2;
       [rewrite (bind_ok _ _ _ _ _ E2), (bind_ok _ _ _ _ _ E2), bind_ret_l
       |by rewrite (bind_raise _ _ _ _ _ E2), (bind_raise _ _ _ _ _ E2)]);
      unfold ret, count_car; cbn [map List.filter length]; rewrite <- app_assoc, Hx; [|done].
    rewrite vehicle_passed_with_total, with_total_twice. cbn [total_vehicles_passed with_total].
    rewrite length_cons, (Nat2Z.inj_succ (length _)), <- Z.add_1_l, Z.add_assoc. done.
Qed.

(** The clean-up filter removes only cars that have passed. *)
Lemma keep_car_filter cs :
  unpassed (List.filter keep_car cs) = unpassed cs /\
  (pop_inv cs -> pop_inv (List.filter keep_car cs)) /\
  (length (List.filter keep_car cs) <= length cs)%nat.
Proof.
  induction cs as [|c cs (IHu & IHi & IHl)]; [done|]. simpl.
  assert (Hk : keep_car c = false -> passed c = true).
  { unfold keep_car. destruct (passed c); [done|]. rewrite orb_true_r. discriminate. }
  destruct (keep_car c) eqn:Hkc; simpl; rewrite !unpassed_cons.
  - split; [lia|]. split; [|lia].
    rewrite (pop_inv_cons c cs), (pop_inv_cons c (List.filter keep_car cs)). tauto.
  - rewrite (Hk eq_refl). split; [lia|]. split; [|lia].
    rewrite (pop_inv_cons c cs). tauto.
Qed.

(** [update_cars] conserves the counter plus the uncounted cars. *)
Lemma update_cars_spec m w :
  pop_inv (cars m) ->
  exists m' w', update_cars m w = (Ok m', w') /\
    pop_inv (cars m') /\
    total_vehicles_passed (light m') + Z.of_nat (unpassed (cars m')) =
      total_vehicles_passed (light m) + Z.of_nat (unpassed (cars m)) /\
    total_vehicles_passed (light m) <= total_vehicles_passed (light m') /\
    light m' = with_total (light m) (total_vehicles_passed (light m')) /\
    (length (cars m') <= length (cars m))%nat /\ now w' = now w /\
    sensor m' = sensor m /\ entries w' = entries w.
Proof.
  intros Hinv.
  destruct (update_loop_spec (cars m) [] (light m) w Hinv ltac:(split; constructor))
    as (cs' & l' & w' & E & Hinv' & -> & Hle & Hlen & Hn & He).
  unfold update_cars. rewrite (bind_ok _ _ _ _ _ E).
  destruct (keep_car_filter cs') as (Hu & Hi & Hl).
  eexists _, _. split; [reflexivity|]. simpl. rewrite Hu.
  split; [auto|]. simpl in Hle, Hlen.
  split; [lia|]. split; [lia|]. split; [done|]. split; [lia|]. split; [done|]. split; done.
Qed.

(** C6: [update_cars] moves every car exactly once and counts each car
    exactly once in its lifetime.  The loop of lines 314-320 is the same
    computation as moving every car once, in order, under the light as it
    stands, then marking as passed and counting the moved cars past the
    counting line that were not counted yet, then dropping the counted cars
    past the exit ([update_cars_ref]); an error of a move is raised at the
    same point.  On a population where every uncounted car is before the
    line, it returns normally and the passed-vehicle counter plus the
    number of cars not yet counted is conserved, the cars stay well-formed
    with every uncounted car before the line, and the clean-up never grows
    the list. *)
Theorem update_cars_counts_once m w :
  pop_inv (cars m) ->
  update_cars m w = update_cars_ref m w /\
  exists m' w', update_cars m w = (Ok m', w') /\
    pop_inv (cars m') /\
    total_vehicles_passed (light m') + Z.of_nat (unpassed (cars m')) =
      total_vehicles_passed (light m) + Z.of_nat (unpassed (cars m)) /\
    (length (cars m') <= length (cars m))%nat.
Proof.
  intros Hinv. split.
  - unfold update_cars, update_cars_ref, bind at 1. rewrite update_loop_move_all.
    unfold bind. by destruct (move_all _ _ (cars m) w) as [[ms|e] w'].
  - destruct (update_cars_spec m w Hinv) as (m' & w' & E & H1 & H2 & _ & _ & H5 & _).
    exists m', w'. auto.
Qed.

(** C19: once a car has been counted, [update_cars] never counts it again,
    even after it leaves the screen and is respawned upstream as a new
    arrival: [passed] is never reset, so a respawned car crosses the
    counting line uncounted and is also never again a priority candidate
    of the sensor. *)
Theorem update_car_passed_not_counted updated l c w :
  passed c = true ->
  exists c' w', update_car (updated, l) c w = (Ok (updated ++ [c'], l), w') /\
    passed c' = true.
Proof.
  intros Hpc. unfold update_car.
  destruct (advance_frame (state l) (priority_active l) c) as (_ & _ & _ & _ & _ & Hpa).
  destruct (move_cases (state l) (priority_active l) c w)
    as [(_ & E)|(_ & p & w' & E & _)]; rewrite (bind_ok _ _ _ _ _ E).
  - rewrite Hpa, Hpc. simpl negb. rewrite andb_false_r.
    eexists _, _. split; [reflexivity|]. by rewrite Hpa.
  - simpl negb. rewrite andb_false_r. eexists _, _. split; [reflexivity|]. done.
Qed.

(** ** One tick of a phase *)

Lemma write_simulation_data_frame n m w :
  exists w', write_simulation_data n m w = (Ok tt, w') /\
    now w' = now w /\ draws w' = draws w /\ entries w' = entries w.
Proof. eexists. split; [reflexivity|]. auto. Qed.

Lemma spawn_cars_inv m w :
  mgr_inv m ->
  exists m' w', spawn_cars m w = (Ok m', w') /\ mgr_inv m' /\ now w' = now w /\
    entries w' = entries w /\ light m' = light m /\ sensor m' = sensor m /\
    total_vehicles_passed (light m) + Z.of_nat (unpassed (cars m)) <=
      total_vehicles_passed (light m') + Z.of_nat (unpassed (cars m')) /\
    Forall (fun c => In c (cars m) \/ (passed c = false /\ position c <= -200)) (cars m').
Proof.
  intros [Hp Hl].
  destruct (spawn_cars_spec m w) as (m' & w' & E & Hn & He & Hlt & Hs & Hc).
  exists m', w'. split; [done|]. rewrite Hlt. unfold mgr_inv.
  destruct Hc as [Hc|(c & Hc & Hlen & Hwf & Hpc & Hpos)]; rewrite Hc.
  - split; [split; assumption|]. do 4 (split; [done|]). split; [lia|].
    apply List.Forall_forall. auto.
  - rewrite length_app, unpassed_app, unpassed_single, Hpc. simpl.
    split; [split; [apply pop_inv_app; split; [done|]|lia]|].
    + split; apply Forall_singleton; [done|]. unfold PASS_LINE. lia.
    + do 4 (split; [done|]). split; [lia|]. apply Forall_app. split.
      * apply List.Forall_forall. auto.
      * apply Forall_singleton. right. split; [done|lia].
Qed.

(** A tick never raises, keeps the invariant, advances the clock by 500 ms,
    keeps the phase and never opens a priority window. *)
Lemma tick_spec n m w :
  mgr_inv m ->
  exists m' w', tick n m w = (Ok m', w') /\ mgr_inv m' /\ now w' = now w + 500 /\
    state (light m') = state (light m) /\
    (priority_active (light m') = true -> priority_active (light m) = true) /\
    total_vehicles_passed (light m) <= total_vehicles_passed (light m') /\
    sensor m' = sensor m /\
    TrafficLogger.phase_trace (entries w') = TrafficLogger.phase_trace (entries w).
Proof.
  intros Hinv. unfold tick.
  destruct (update_priority_frame (light m) w)
    as (l1 & w1 & E1 & Hst1 & _ & _ & Ht1 & _ & Hn1 & _ & Hpa1).
  pose proof (update_priority_trace _ _ _ _ E1) as Htr1.
  rewrite (bind_ok _ _ _ _ _ E1).
  destruct (spawn_cars_inv (with_light m l1) w1 Hinv)
    as (m2 & w2 & E2 & Hinv2 & Hn2 & He2 & Hl2 & Hs2 & Hcons2 & _).
  rewrite (bind_ok _ _ _ _ _ E2).
  destruct (update_cars_spec m2 w2 (proj1 Hinv2))
    as (m3 & w3 & E3 & Hp3 & _ & Hle3 & Hl3 & Hlen3 & Hn3 & Hs3 & He3).
  rewrite (bind_ok _ _ _ _ _ E3).
  destruct (write_simulation_data_frame n m3 w3) as (w4 & E4 & Hn4 & _ & He4).
  rewrite (bind_ok _ _ _ _ _ E4), (bind_ok _ _ _ _ _ (sleep_run 500 w4)).
  eexists _, _. split; [reflexivity|]. simpl in *.
  destruct Hinv2 as [_ Hlen2]. rewrite Hl2 in Hle3; simpl in Hle3.
  split; [split; [done|lia]|]. split; [lia|].
  rewrite Hl3, Hl2, Hs3, Hs2, He4, He3, He2. simpl.
  split; [done|]. split; [done|]. split; [lia|]. split; done.
Qed.

(** ** Termination of the phase loop *)

Section PhaseLoop.
Variables (cycle_number start duration : Z).
(** What a tick preserves, and that it takes exactly half a second. *)
Variable Inv : Manager -> World -> Prop.
Hypothesis tick_inv : forall m w, Inv m w ->
  exists m' w', tick cycle_number m w = (Ok m', w') /\ Inv m' w' /\ now w' = now w + 500.

(** After [j] ticks the clock reads [start + 500 j]; the loop stops after
    [2 * duration] ticks, when the clock reads [start + duration] seconds,
    provided the fuel covers the ticks left plus the final test. *)
Lemma phase_loop_runs fuel j m w :
  Inv m w -> now w = start + 500 * j -> 0 <= j <= 2 * duration ->
  2 * duration - j + 1 <= Z.of_nat fuel ->
  exists m' w', phase_loop fuel cycle_number start duration m w = (Ok m', w') /\
    Inv m' w' /\ now w' = start + 1000 * duration.
Proof.
  revert j m w. induction fuel as [|fuel IH]; intros j m w Hi Hn Hj Hf; [lia|].
  cbn [phase_loop]. rewrite bind_time_time.
  destruct (Z.ltb_spec (now w - start) (duration * 1000)).
  - destruct (tick_inv m w Hi) as (m1 & w1 & E & Hi1 & Hn1). rewrite (bind_ok _ _ _ _ _ E).
    apply (IH (j + 1)); auto; lia.
  - exists m, w. split; [reflexivity|]. split; [done|]. lia.
Qed.

(** The same loop, seen as a loop by count: from the [j]-th tick on, the
    [while] loop runs exactly the [2 * duration - j] ticks that are left. *)
Lemma phase_loop_ticks_from fuel j m w :
  Inv m w -> now w = start + 500 * j -> 0 <= j <= 2 * duration ->
  2 * duration - j + 1 <= Z.of_nat fuel ->
  phase_loop fuel cycle_number start duration m w =
    ticks (Z.to_nat (2 * duration - j)) cycle_number m w.
Proof.
  revert j m w. induction fuel as [|fuel IH]; intros j m w Hi Hn Hj Hf; [lia|].
  cbn [phase_loop]. rewrite bind_time_time.
  destruct (Z.ltb_spec (now w - start) (duration * 1000)).
  - replace (Z.to_nat (2 * duration - j)) with (S (Z.to_nat (2 * duration - (j + 1)))) by lia.
    cbn [ticks]. destruct (tick_inv m w Hi) as (m1 & w1 & E & Hi1 & Hn1).
    rewrite !(bind_ok _ _ _ _ _ E). apply (IH (j + 1)); auto; lia.
  - replace (Z.to_nat (2 * duration - j)) with O by lia. reflexivity.
Qed.

End PhaseLoop.

Lemma tick_mgr_inv n m w :
  mgr_inv m ->
  exists m' w', tick n m w = (Ok m', w') /\ mgr_inv m' /\ now w' = now w + 500.
Proof.
  intros Hi. destruct (tick_spec n m w Hi) as (m' & w' & E & Hi' & Hn & _).
  by exists m', w'.
Qed.

Lemma phase_inv_tick n m0 w0 m w :
  phase_inv m0 w0 m w ->
  exists m' w', tick n m w = (Ok m', w') /\ phase_inv m0 w0 m' w' /\ now w' = now w + 500.
Proof.
  intros (Hi & Hs & Ht & Hp & Hse & Htr).
  destruct (tick_spec n m w Hi) as (m' & w' & E & Hi' & Hn' & Hs' & Hp' & Ht' & Hse' & Htr').
  exists m', w'. split; [done|]. split; [|done].
  split; [done|]. split; [congruence|]. split; [lia|]. split; [auto|]. split; congruence.
Qed.

(** One phase of [run_cycle]: with fuel for [2 * duration + 1] loop tests
    it returns, after exactly [duration] seconds, with the light in the
    phase it was set to and the log extended by exactly that phase
    change. *)
Lemma run_phase_spec fuel n m st d w :
  mgr_inv m -> 0 <= d -> 2 * d + 1 <= Z.of_nat fuel ->
  exists m' w', run_phase fuel n m (st, d) w = (Ok m', w') /\
    mgr_inv m' /\ state (light m') = st /\ now w' = now w + 1000 * d /\
    total_vehicles_passed (light m) <= total_vehicles_passed (light m') /\
    (priority_active (light m') = true -> priority_active (light m) = true) /\
    sensor m' = sensor m /\
    TrafficLogger.phase_trace (entries w') =
      TrafficLogger.phase_trace (entries w) ++ [(st, d)].
Proof.
  intros Hi Hd Hf. unfold run_phase.
  rewrite (bind_ok _ _ _ _ _ (set_state_run st d (light m) w)), bind_time_time.
  set (w1 := snd (log TrafficLogger.INFO (TrafficLogger.LightSet st d) w)).
  set (m1 := with_light m _).
  assert (H0 : phase_inv m1 w1 m1 w1)
    by (split; [exact Hi|]; split; [done|]; split; [lia|]; split; [auto|]; split; done).
  destruct (phase_loop_runs n (now w1) d (phase_inv m1 w1) (phase_inv_tick n m1 w1)
              fuel 0 m1 w1 H0 ltac:(lia) ltac:(lia) ltac:(lia))
    as (m' & w' & E & (Hi' & Hs' & Ht' & Hp' & Hse' & Htr') & Hn').
  rewrite (bind_ok _ _ _ _ _ E). eexists _, _. split; [reflexivity|].
  simpl in *. rewrite TrafficLogger.phase_trace_app, Htr'. subst w1. simpl.
  do 6 (split; [done|]). by rewrite app_nil_r, TrafficLogger.phase_trace_app.
Qed.

Lemma mgr_inv_lanes m : mgr_inv m -> Forall valid_lane (cars m).
Proof.
  intros [[Hwf _] _]. eapply Forall_impl; [exact Hwf|].
  intros c (_ & _ & _ & Hl & _). exact Hl.
Qed.

(** ** A whole cycle *)

Section PlanCycle.
(** A decision method meeting its contract, for the ranges of the
    durations it returns. *)
Context {calc : TrafficData -> Z -> Sim (Z * Z * Z)} {rlo rhi glo ghi ylo yhi : Z}.
Context `{!DecisionContract calc rlo rhi glo ghi ylo yhi}.

(** The start of a cycle never raises, keeps the invariant and the
    counter, takes no time, sets no phase, and plans RED, GREEN and YELLOW
    with durations in the decision's ranges. *)
Lemma plan_cycle_with_spec n m w :
  mgr_inv m ->
  exists m2 w2 r g y,
    plan_cycle_with calc n m w = (Ok (m2, [(red, r); (green, g); (yellow, y)]), w2) /\
    mgr_inv m2 /\ now w2 = now w /\
    TrafficLogger.phase_trace (entries w2) = TrafficLogger.phase_trace (entries w) /\
    total_vehicles_passed (light m2) = total_vehicles_passed (light m) /\
    rlo <= r <= rhi /\ glo <= g <= ghi /\ ylo <= y <= yhi.
Proof.
  intros Hi. unfold plan_cycle_with.
  rewrite (bind_ok _ _ _ _ _ (log_run _ _ w)).
  set (w0 := snd (log _ _ w)).
  destruct (scan_traffic_frame (cars m) n (sensor m) w0 (mgr_inv_lanes m Hi))
    as (d & s' & w1 & E1 & Hn1 & Htr1).
  rewrite (bind_ok _ _ _ _ _ E1).
  destruct (decision_range d n w1) as (r & g & y & w2 & E2 & Hr & Hg & Hy & Hn2 & Htr2).
  rewrite (bind_ok _ _ _ _ _ E2). cbv beta iota zeta.
  assert (Htr0 : TrafficLogger.phase_trace (entries w0) = TrafficLogger.phase_trace (entries w))
    by (subst w0; autorewrite with traffic; simpl; by rewrite app_nil_r).
  assert (Hn0 : now w0 = now w) by apply log_now.
  destruct (priority d) as [pt|].
  - rewrite bind_assoc, (bind_ok _ _ _ _ _ (activate_priority_run _ _ _ w2)).
    eexists _, _, r, g, y. split; [reflexivity|]. split; [exact Hi|].
    autorewrite with traffic. simpl. rewrite app_nil_r. repeat split; try lia; congruence.
  - eexists _, _, r, g, y. split; [reflexivity|]. split; [exact Hi|].
    repeat split; try lia; congruence.
Qed.

End PlanCycle.

Lemma plan_cycle_spec n m w :
  mgr_inv m ->
  exists m2 w2 r g y, plan_cycle n m w = (Ok (m2, [(red, r); (green, g); (yellow, y)]), w2) /\
    mgr_inv m2 /\ now w2 = now w /\
    TrafficLogger.phase_trace (entries w2) = TrafficLogger.phase_trace (entries w) /\
    total_vehicles_passed (light m2) = total_vehicles_passed (light m) /\
    CONFIG.LIGHT_MIN <= r <= CONFIG.LIGHT_MAX /\
    CONFIG.LIGHT_MIN <= g <= CONFIG.LIGHT_MAX + 2 /\
    CONFIG.YELLOW_MIN <= y <= CONFIG.YELLOW_MAX.
Proof. apply plan_cycle_with_spec. Qed.

(** [run_cycle] with fuel for the longest phase (17 s, so 35 loop tests)
    returns: it never raises, keeps the population invariant, sets the
    light to RED, GREEN and YELLOW in this order with the durations it
    decided, runs exactly as long as their sum and never decreases the
    passed-vehicle counter. *)
Lemma run_cycle_spec fuel n m w :
  mgr_inv m -> (35 <= fuel)%nat ->
  exists m' w' r g y, run_cycle fuel n m w = (Ok m', w') /\
    mgr_inv m' /\
    TrafficLogger.phase_trace (entries w') =
      TrafficLogger.phase_trace (entries w) ++ [(red, r); (green, g); (yellow, y)] /\
    now w' = now w + 1000 * (r + g + y) /\
    CONFIG.LIGHT_MIN <= r <= CONFIG.LIGHT_MAX /\
    CONFIG.LIGHT_MIN <= g <= CONFIG.LIGHT_MAX + 2 /\
    CONFIG.YELLOW_MIN <= y <= CONFIG.YELLOW_MAX /\
    total_vehicles_passed (light m) <= total_vehicles_passed (light m').
Proof.
  intros Hi Hf. unfold run_cycle.
  destruct (plan_cycle_spec n m w Hi)
    as (m2 & w3 & r & g & y & E3 & Hi2 & Hn3 & Htr3 & Ht2 & Hr & Hg & Hy).
  rewrite (bind_ok _ _ _ _ _ E3). cbn [for_each]. rewrite !bind_assoc.
  unfold CONFIG.LIGHT_MIN, CONFIG.LIGHT_MAX, CONFIG.YELLOW_MIN, CONFIG.YELLOW_MAX in *.
  destruct (run_phase_spec fuel n m2 red r w3 Hi2 ltac:(lia) ltac:(lia))
    as (m4 & w4 & E4 & Hi4 & _ & Hn4 & Ht4 & _ & _ & Htr4).
  rewrite (bind_ok _ _ _ _ _ E4), ?bind_assoc.
  destruct (run_phase_spec fuel n m4 green g w4 Hi4 ltac:(lia) ltac:(lia))
    as (m5 & w5 & E5 & Hi5 & _ & Hn5 & Ht5 & _ & _ & Htr5).
  rewrite (bind_ok _ _ _ _ _ E5), ?bind_assoc.
  destruct (run_phase_spec fuel n m5 yellow y w5 Hi5 ltac:(lia) ltac:(lia))
    as (m6 & w6 & E6 & Hi6 & _ & Hn6 & Ht6 & _ & _ & Htr6).
  rewrite (bind_ok _ _ _ _ _ E6).
  exists (with_light m6 (increment_cycle (light m6))), w6, r, g, y.
  split; [reflexivity|]. split; [exact Hi6|].
  split; [rewrite Htr6, Htr5, Htr4, Htr3, <- !app_assoc; done|].
  simpl. lia.
Qed.

(** ** A red phase outside a priority window *)

Lemma wait_wf c : car_wf c -> car_wf (wait c).
Proof. intros (? & ? & ? & ? & ? & ?). unfold car_wf; simpl. repeat split; auto; lia. Qed.

Lemma update_car_red updated l c w :
  state l = red -> priority_active l = false -> stopped c ->
  update_car (updated, l) c w = (Ok (updated ++ [wait c], l), w).
Proof.
  intros Hs Hp [Hpos Hpc]. unfold update_car, move. rewrite Hs, Hp.
  rewrite (advance_red_stopped false c (andb_false_r _) Hpos). simpl.
  destruct (Z.ltb_spec EXIT_LINE (position c)); [unfold EXIT_LINE, STOP_LINE in *; lia|].
  unfold bind, ret. simpl.
  destruct (Z.ltb_spec PASS_LINE (position c)); [unfold PASS_LINE, STOP_LINE in *; lia|].
  reflexivity.
Qed.

Lemma update_cars_red m w :
  state (light m) = red -> priority_active (light m) = false -> Forall stopped (cars m) ->
  update_cars m w = (Ok (with_light (with_cars m (map wait (cars m))) (light m)), w).
Proof.
  intros Hs Hp Hst. unfold update_cars.
  assert (Hloop : forall cs updated, Forall stopped cs ->
            for_each cs (updated, light m) update_car w =
            (Ok (updated ++ map wait cs, light m), w)).
  { induction cs as [|c cs IH]; intros updated Hcs; simpl; [by rewrite app_nil_r|].
    inversion Hcs as [|? ? Hc Hcs']; subst.
    rewrite (bind_ok _ _ _ _ _ (update_car_red updated (light m) c w Hs Hp Hc)).
    rewrite IH by done. by rewrite <- app_assoc. }
  rewrite (bind_ok _ _ _ _ _ (Hloop (cars m) [] Hst)). unfold ret. simpl. do 4 f_equal.
  clear -Hst. induction Hst as [|c cs [Hpos _] _ IH]; [done|]. simpl.
  unfold keep_car at 1. simpl.
  destruct (Z.ltb_spec (position c) EXIT_LINE); [|unfold EXIT_LINE, STOP_LINE in *; lia].
  simpl. by rewrite IH.
Qed.

Lemma tick_red T n m w :
  red_inv T m ->
  exists m' w', tick n m w = (Ok m', w') /\ red_inv T m' /\ now w' = now w + 500 /\
    exists extra, cars m' = map wait (cars m) ++ extra.
Proof.
  intros (Hi & Hs & Hp & Hst & Ht). unfold tick.
  assert (E1 : update_priority (light m) w = (Ok (light m), w))
    by (rewrite update_priority_run, Hp; reflexivity).
  rewrite (bind_ok _ _ _ _ _ E1).
  replace (with_light m (light m)) with m by (destruct m; reflexivity).
  destruct (spawn_cars_inv m w Hi) as (m2 & w2 & E2 & Hi2 & Hn2 & _ & Hl2 & _ & _ & Hnew).
  destruct (spawn_cars_spec m w) as (m2' & w2' & E2' & _ & _ & _ & _ & Hc2).
  rewrite E2 in E2'. injection E2' as <- <-.
  rewrite (bind_ok _ _ _ _ _ E2).
  assert (Hst2 : Forall stopped (cars m2)).
  { eapply Forall_impl; [exact Hnew|]. intros c [Hin|[Hpc Hpos]].
    - eapply List.Forall_forall in Hst; [exact Hst|exact Hin].
    - split; [unfold STOP_LINE; lia|done]. }
  (* the light is untouched by the spawn *)
  rewrite (bind_ok _ _ _ _ _ (update_cars_red m2 w2 ltac:(congruence) ltac:(congruence) Hst2)).
  set (m3 := with_light _ _).
  destruct (write_simulation_data_frame n m3 w2) as (w4 & E4 & Hn4 & _).
  rewrite (bind_ok _ _ _ _ _ E4), (bind_ok _ _ _ _ _ (sleep_run 500 w4)).
  eexists _, _. split; [reflexivity|]. simpl.
  destruct Hi2 as [[Hwf Hpi] Hlen].
  split; [|split; [lia|]].
  2: { destruct Hc2 as [Hc|(c & Hc & _)]; rewrite Hc;
       [exists []; by rewrite app_nil_r|exists [wait c]; by rewrite map_app]. }
  subst m3. unfold red_inv, mgr_inv, pop_inv.
  cbn [cars light with_light with_cars]. rewrite length_map, Hl2.
  split; [split; [split|done]|].
  - clear -Hwf. induction Hwf; constructor; auto using wait_wf.
  - clear -Hst2. induction Hst2 as [|c cs [Hpos Hpc] _ IH]; constructor; auto.
    simpl. unfold PASS_LINE, STOP_LINE in *. lia.
  - do 2 (split; [done|]). split; [|done].
    clear -Hst2. induction Hst2 as [|c cs [Hpos Hpc] _ IH]; constructor; auto. done.
Qed.

Lemma tick_red_inv T n m w :
  red_inv T m ->
  exists m' w', tick n m w = (Ok m', w') /\ red_inv T m' /\ now w' = now w + 500.
Proof.
  intros H. destruct (tick_red T n m w H) as (m' & w' & E & Hi & Hn & _). by exists m', w'.
Qed.

(** [k] ticks on red add [k] to the waiting time of every car there was,
    in place; the new cars come after them. *)
Lemma ticks_red k T n m w :
  red_inv T m ->
  exists m' w', ticks k n m w = (Ok m', w') /\ red_inv T m' /\ now w' = now w + 500 * Z.of_nat k /\
    exists extra, cars m' = map (fun c => with_waiting c (waiting_time c + Z.of_nat k)) (cars m) ++ extra.
Proof.
  revert m w. induction k as [|k IH]; intros m w H.
  - exists m, w. split; [reflexivity|]. split; [done|]. split; [lia|]. exists [].
    rewrite app_nil_r. erewrite map_ext; [by rewrite map_id|]. intros c. rewrite Z.add_0_r. by destruct c.
  - cbn [ticks]. destruct (tick_red T n m w H) as (m1 & w1 & E1 & H1 & Hn1 & e1 & Hc1).
    rewrite (bind_ok _ _ _ _ _ E1).
    destruct (IH m1 w1 H1) as (m' & w' & E & H' & Hn & e2 & Hc).
    exists m', w'. split; [done|]. split; [done|]. split; [lia|].
    exists (map (fun c => with_waiting c (waiting_time c + Z.of_nat k)) e1 ++ e2).
    rewrite Hc, Hc1, map_app, map_map, app_assoc. do 2 f_equal. apply map_ext. intros c.
    unfold wait, with_waiting. simpl. f_equal. lia.
Qed.

(** ** Properties of the orchestrator *)

(** C12: a RED phase outside a priority window lets no vehicle through.
    If no car is past the stop line or counted yet, then during the whole
    phase (however many cars spawn) every car stays before the stop line,
    none is counted, and the passed-vehicle counter keeps its value; in
    particular, starting with no vehicles it stays at its initial value. *)
Theorem red_phase_no_passes fuel n m d w :
  mgr_inv m -> priority_active (light m) = false -> Forall stopped (cars m) ->
  0 <= d -> 2 * d + 1 <= Z.of_nat fuel ->
  exists m' w', run_phase fuel n m (red, d) w = (Ok m', w') /\
    total_vehicles_passed (light m') = total_vehicles_passed (light m) /\
    Forall stopped (cars m') /\ now w' = now w + 1000 * d.
Proof.
  intros Hi Hp Hst Hd Hf. unfold run_phase.
  rewrite (bind_ok _ _ _ _ _ (set_state_run red d (light m) w)), bind_time_time.
  set (w1 := snd (log _ _ w)). set (m1 := with_light m _).
  assert (H0 : red_inv (total_vehicles_passed (light m)) m1)
    by (split; [exact Hi|]; split; [done|]; split; [exact Hp|]; split; [exact Hst|done]).
  destruct (phase_loop_runs n (now w1) d
              (fun mm _ => red_inv (total_vehicles_passed (light m)) mm)
              (fun mm ww H => tick_red_inv _ n mm ww H) fuel 0 m1 w1 H0
              ltac:(lia) ltac:(lia) ltac:(lia))
    as (m' & w' & E & (_ & _ & _ & Hst' & Ht') & Hn').
  rewrite (bind_ok _ _ _ _ _ E). eexists _, _. split; [reflexivity|].
  split; [done|]. split; [done|]. subst w1. simpl in *. lia.
Qed.

Lemma red_phase_no_passes_witness :
  exists m' w', run_phase 17 1
    (mkManager [] (mkLight red 0 0 false None 0 0 0) TrafficAISensor.init
               LightDecisionAlgorithm.init 0 2) (red, 8) (mkWorld 0 [] [] None None)
      = (Ok m', w') /\ total_vehicles_passed (light m') = 0 /\
    Forall stopped (cars m') /\ now w' = 8000.
Proof.
  apply (red_phase_no_passes 17 1
    (mkManager [] (mkLight red 0 0 false None 0 0 0) TrafficAISensor.init
               LightDecisionAlgorithm.init 0 2) 8 (mkWorld 0 [] [] None None)).
  - split; [split; constructor|simpl; lia].
  - reflexivity.
  - constructor.
  - lia.
  - simpl. lia.
Defined.

(** C11: a whole cycle terminates and drives the light through the fixed
    phase order.  With fuel for the longest phase (35 loop tests), and
    well-formed cars, [run_cycle] never raises, keeps every car
    well-formed and the population at most 32, logs exactly the three
    phase changes RED, GREEN, YELLOW in this order with the durations it
    decided (red and green within [LIGHT_MIN, LIGHT_MAX + 2], yellow
    within [YELLOW_MIN, YELLOW_MAX]), lasts exactly their sum, and never
    decreases the passed-vehicle counter. *)
Theorem run_cycle_terminates_in_order fuel n m w :
  mgr_inv m -> (35 <= fuel)%nat ->
  exists m' w' r g y, run_cycle fuel n m w = (Ok m', w') /\
    mgr_inv m' /\
    TrafficLogger.phase_trace (entries w') =
      TrafficLogger.phase_trace (entries w) ++ [(red, r); (green, g); (yellow, y)] /\
    now w' = now w + 1000 * (r + g + y) /\
    CONFIG.LIGHT_MIN <= r <= CONFIG.LIGHT_MAX + 2 /\
    CONFIG.LIGHT_MIN <= g <= CONFIG.LIGHT_MAX + 2 /\
    CONFIG.YELLOW_MIN <= y <= CONFIG.YELLOW_MAX /\
    total_vehicles_passed (light m) <= total_vehicles_passed (light m').
Proof.
  intros Hi Hf.
  destruct (run_cycle_spec fuel n m w Hi Hf)
    as (m' & w' & r & g & y & E & Hi' & Htr & Hn & Hr & Hg & Hy & Ht).
  exists m', w', r, g, y. unfold CONFIG.LIGHT_MIN, CONFIG.LIGHT_MAX in *.
  repeat (split; [done|]). repeat split; lia.
Qed.

Lemma run_cycle_terminates_in_order_witness :
  exists m' w' r g y, run_cycle 35 1
    (mkManager [] (mkLight red 0 0 false None 0 0 0) TrafficAISensor.init
               LightDecisionAlgorithm.init 0 2) (mkWorld 0 [] [] None None) = (Ok m', w') /\
    mgr_inv m' /\
    TrafficLogger.phase_trace (entries w') =
      TrafficLogger.phase_trace [] ++ [(red, r); (green, g); (yellow, y)] /\
    now w' = 0 + 1000 * (r + g + y) /\
    CONFIG.LIGHT_MIN <= r <= CONFIG.LIGHT_MAX + 2 /\
    CONFIG.LIGHT_MIN <= g <= CONFIG.LIGHT_MAX + 2 /\
    CONFIG.YELLOW_MIN <= y <= CONFIG.YELLOW_MAX /\ 0 <= total_vehicles_passed (light m').
Proof.
  apply (run_cycle_terminates_in_order 35 1
    (mkManager [] (mkLight red 0 0 false None 0 0 0) TrafficAISensor.init
               LightDecisionAlgorithm.init 0 2) (mkWorld 0 [] [] None None)).
  - split; [split; constructor|simpl; lia].
  - lia.
Defined.

(** C31: the type of a new car has the configured distribution, and the
    regular branch takes more than its comment says.  Of the 300 equally
    likely outcomes of [random.random()] (in hundredths) and the
    [random.choice] draw, the cumulative tests of lines 297-307 give
    [emergency] 45 (15%), [police] 24 (8%), [fire] 21 (7%), [truck] and
    [bus] 50 each, and [normal] 110.  The branch [rand_val < 0.8], which
    the comment calls the remaining 30%, takes the hundredths 30 to 79,
    half of them: truck and bus get 1/6 each, and normal 1/6 plus the 20%
    above 0.8. *)
Theorem choose_car_type_distribution :
  map spawn_count [emergency; police; fire; truck; bus; normal] = [45; 24; 21; 50; 50; 110]%nat.
Proof. vm_compute. reflexivity. Qed.

(** C10: [spawn_cars] is rate-limited and bounded.  Within two seconds of
    the last spawn attempt it changes nothing; otherwise it adds at most
    one car, never beyond 32 cars ([MAX_CARS_PER_LANE * 4]), and every new
    car starts upstream of the screen, between -100 and -20 pixels, not
    yet counted. *)
Theorem spawn_cars_rate_and_bound m w :
  (length (cars m) <= 32)%nat ->
  exists m' w', spawn_cars m w = (Ok m', w') /\ (length (cars m') <= 32)%nat /\
    (length (cars m') <= length (cars m) + 1)%nat /\
    (now w - last_spawn_time m < spawn_interval m * 1000 -> m' = m /\ w' = w) /\
    (forall c, In c (cars m') -> In c (cars m) \/
       (passed c = false /\ -1000 <= position c <= -200)).
Proof.
  intros Hl.
  destruct (spawn_cars_spec m w) as (m' & w' & E & _ & _ & _ & _ & Hc).
  exists m', w'. split; [done|].
  split; [|split; [|split]].
  - destruct Hc as [->|(c & -> & Hlt & _)]; [done|]. rewrite length_app. simpl. lia.
  - destruct Hc as [->|(c & -> & _)]; [lia|]. rewrite length_app. simpl. lia.
  - intros Hlt. unfold spawn_cars in E. rewrite bind_time_time in E.
    destruct (Z.ltb_spec (now w - last_spawn_time m) (spawn_interval m * 1000)); [|lia].
    by injection E as -> ->.
  - intros c Hin. destruct Hc as [Hc|(c' & Hc & _ & _ & Hp & Hpos)]; rewrite Hc in Hin; [by left|].
    apply in_app_or in Hin as [Hin|[<-|[]]]; [by left|by right].
Qed.

(** ** Witnesses *)

Lemma update_cars_counts_once_witness :
  update_cars (sample_manager [sedan_near_exit; ambulance]) empty_world =
    update_cars_ref (sample_manager [sedan_near_exit; ambulance]) empty_world /\
  exists m' w', update_cars (sample_manager [sedan_near_exit; ambulance]) empty_world
                = (Ok m', w') /\
    pop_inv (cars m') /\
    total_vehicles_passed (light m') + Z.of_nat (unpassed (cars m')) =
      total_vehicles_passed (light (sample_manager [sedan_near_exit; ambulance])) +
      Z.of_nat (unpassed (cars (sample_manager [sedan_near_exit; ambulance]))) /\
    (length (cars m') <= length (cars (sample_manager [sedan_near_exit; ambulance])))%nat.
Proof.
  apply (update_cars_counts_once (sample_manager [sedan_near_exit; ambulance]) empty_world).
  split; repeat constructor; try car_wf_tac; simpl; unfold PASS_LINE; lia.
Defined.

Lemma update_car_passed_not_counted_witness :
  exists c' w', update_car ([], mkLight green 10 0 false None 0 0 0)
                  (with_passed sedan_near_exit true) empty_world
                = (Ok ([] ++ [c'], mkLight green 10 0 false None 0 0 0), w') /\
    passed c' = true.
Proof.
  apply (update_car_passed_not_counted [] (mkLight green 10 0 false None 0 0 0)
           (with_passed sedan_near_exit true) empty_world). reflexivity.
Defined.

Lemma spawn_cars_rate_and_bound_witness :
  exists m' w', spawn_cars (sample_manager [ambulance]) (mkWorld 5000 [10; 2; 40; 7] [] None None)
                = (Ok m', w') /\ (length (cars m') <= 32)%nat /\
    (length (cars m') <= length (cars (sample_manager [ambulance])) + 1)%nat /\
    (now (mkWorld 5000 [10; 2; 40; 7] [] None None) - last_spawn_time (sample_manager [ambulance])
       < spawn_interval (sample_manager [ambulance]) * 1000 ->
     m' = sample_manager [ambulance] /\ w' = mkWorld 5000 [10; 2; 40; 7] [] None None) /\
    (forall c, In c (cars m') -> In c (cars (sample_manager [ambulance])) \/
       (passed c = false /\ -1000 <= position c <= -200)).
Proof.
  apply (spawn_cars_rate_and_bound (sample_manager [ambulance])
           (mkWorld 5000 [10; 2; 40; 7] [] None None)).
  simpl. lia.
Defined.

(** C33: the phase loop is a loop by count.  Started at the phase's start
    on a well-formed manager, with fuel for [2 * duration + 1] loop tests,
    [while time.time() - start_state_time < duration] runs the loop body
    exactly [2 * duration] times and does nothing else: its result and
    final world are those of [2 * duration] consecutive ticks. *)
Theorem phase_loop_ticks fuel n d m w :
  mgr_inv m -> 0 <= d -> 2 * d + 1 <= Z.of_nat fuel ->
  phase_loop fuel n (now w) d m w = ticks (Z.to_nat (2 * d)) n m w.
Proof.
  intros Hi Hd Hf.
  rewrite (phase_loop_ticks_from n (now w) d (fun m _ => mgr_inv m) (tick_mgr_inv n) fuel 0 m w);
    [f_equal; lia|done|lia..].
Qed.

Lemma phase_loop_ticks_witness :
  phase_loop 7 1 (now (mkWorld 0 [] [] None None)) 3 (sample_manager []) (mkWorld 0 [] [] None None) =
    ticks (Z.to_nat (2 * 3)) 1 (sample_manager []) (mkWorld 0 [] [] None None).
Proof.
  apply (phase_loop_ticks 7 1 3 (sample_manager []) (mkWorld 0 [] [] None None)).
  - split; [split; constructor|simpl; lia].
  - lia.
  - simpl. lia.
Defined.

(** C39: on red the waiting time counts ticks, not seconds.  A red phase
    of [d] seconds, on a well-formed manager whose cars are all stopped
    and with no priority window, lasts exactly [1000 d] ms and adds [2 d]
    to the waiting time of every car, each kept in its place (the cars
    spawned meanwhile come after them).  The page labels a car with
    [waiting_time] followed by "s", so the label runs at twice the
    clock. *)
Theorem red_phase_waiting_rate fuel n m d w :
  mgr_inv m -> priority_active (light m) = false -> Forall stopped (cars m) ->
  0 <= d -> 2 * d + 1 <= Z.of_nat fuel ->
  exists m' w' extra, run_phase fuel n m (red, d) w = (Ok m', w') /\ now w' = now w + 1000 * d /\
    cars m' = map (fun c => with_waiting c (waiting_time c + 2 * d)) (cars m) ++ extra.
Proof.
  intros Hi Hp Hst Hd Hf. unfold run_phase.
  rewrite (bind_ok _ _ _ _ _ (set_state_run red d (light m) w)), bind_time_time.
  set (w1 := snd (log _ _ w)). set (m1 := with_light m _).
  assert (H0 : red_inv (total_vehicles_passed (light m)) m1)
    by (split; [exact Hi|]; split; [done|]; split; [exact Hp|]; split; [exact Hst|done]).
  pose proof (phase_loop_ticks_from n (now w1) d (fun mm _ => red_inv (total_vehicles_passed (light m)) mm)
             (fun mm ww H => tick_red_inv _ n mm ww H) fuel 0 m1 w1 H0 ltac:(lia) ltac:(lia) ltac:(lia)) as El.
  destruct (ticks_red (Z.to_nat (2 * d - 0)) _ n m1 w1 H0) as (m' & w' & E & _ & Hn & extra & Hc).
  rewrite E in El. rewrite (bind_ok _ _ _ _ _ El). exists m', (snd (log TrafficLogger.INFO (TrafficLogger.PhaseEnd red n) w')), extra.
  split; [reflexivity|]. rewrite log_now, Hn, Hc. subst w1. rewrite log_now.
  replace (Z.of_nat (Z.to_nat (2 * d - 0))) with (2 * d) by lia. split; [lia|done].
Qed.

Lemma red_phase_waiting_rate_witness :
  exists m' w' extra, run_phase 17 1
    (mkManager [ambulance] (mkLight red 0 0 false None 0 0 0) TrafficAISensor.init
               LightDecisionAlgorithm.init 0 2) (red, 8) empty_world = (Ok m', w') /\
    now w' = now empty_world + 1000 * 8 /\
    cars m' = map (fun c => with_waiting c (waiting_time c + 2 * 8)) [ambulance] ++ extra.
Proof.
  apply (red_phase_waiting_rate 17 1
    (mkManager [ambulance] (mkLight red 0 0 false None 0 0 0) TrafficAISensor.init
               LightDecisionAlgorithm.init 0 2) 8 empty_world).
  - split; repeat constructor; try car_wf_tac; simpl; unfold PASS_LINE; lia.
  - reflexivity.
  - repeat constructor; simpl; unfold STOP_LINE; lia.
  - lia.
  - simpl. lia.
Defined.

End TrafficManager.
