(* ===== verification/Json.v ===== *)
(** * Json: the snapshot file as JSON

    [write_simulation_data] (lines 370-384) builds a Python dict, with one
    dict per car from [Car.get_display_info] (lines 113-120), and hands it
    to [json.dump]; the page reads it back with [response.json()] and
    reads its fields by name.  This file models the value in between: the
    JSON tree [JSON], the encoding of a [Snapshot] as the two dict
    literals build it ([display_info_json], [snapshot_json]), the reading
    of the fields back into the model's units ([snapshot_of_json]) and the
    schema the page's script relies on ([page_schema], checked by
    [has_ty]).

    Numbers are exact rationals: a position in tenths of a pixel is the
    number [tenths / 10], a time in ms the number [ms / 1000] of seconds.
    The text of the file (indentation, escapes, float printing) is the
    library's business and is not modelled. *)

From stdpp Require Import base option list strings.
From Stdlib Require Import ZArith QArith Qround Lia.
From S2P Require Import Prelude Config Logger World Vehicle Signal Manager.

Local Open Scope Z_scope.

Module Json.

(** ** JSON values *)

#[local] Set Warnings "-register-all".

Inductive JSON : Type :=
| JNull
| JBool (b : bool)
| JNum (q : Q)
| JStr (s : string)
| JArr (xs : list JSON)
| JObj (kvs : list (string * JSON)).

(** The number [z / k]. *)
Definition scaled (z : Z) (k : positive) : JSON := JNum (Qmake z k).

Definition jint (z : Z) : JSON := scaled z 1.

(** ** Encoding: the dict literals *)

(** [Car.get_display_info()] (lines 113-120), the position in pixels. *)
Definition display_info_json (c : DisplayInfo) : JSON :=
  JObj [("lane", jint (di_lane c)); ("type", JStr (car_type_name (di_type c)));
        ("position", scaled (di_position c) 10); ("emoji", JStr (di_emoji c));
        ("waiting_time", jint (di_waiting_time c))].

(** [self.light.priority_type] (line 377) is a string: the type of the
    priority vehicle, or ["none"], which [__init__] and [update_priority]
    store when no window is open (lines 131, 158). *)
Definition priority_json (p : PriorityType) : JSON := JStr (priority_name p).

(** The [data] dict of [write_simulation_data] (lines 371-381), the
    remaining time in seconds. *)
Definition snapshot_json (s : Snapshot) : JSON :=
  JObj [("light_state", JStr (light_state_name (light_state s)));
        ("cars", JArr (map display_info_json (snap_cars s)));
        ("current_cycle", jint (current_cycle s));
        ("max_cycles", jint (max_cycles s));
        ("remaining_time", scaled (remaining_time s) 1000);
        ("priority_type", priority_json (snap_priority_type s));
        ("priority_active", JBool (snap_priority_active s));
        ("total_vehicles_passed", jint (snap_total_vehicles_passed s));
        ("log", JArr (map JStr (snap_log s)))].

(** ** Reading fields back *)

(** [obj[k]] after [JSON.parse]: the last binding of the key. *)
Fixpoint lookup_last (k : string) (kvs : list (string * JSON)) : option JSON :=
  match kvs with
  | [] => None
  | (k', x) :: r =>
      match lookup_last k r with
      | Some y => Some y
      | None => if String.eqb k k' then Some x else None
      end
  end.

Definition jget (k : string) (v : JSON) : option JSON :=
  match v with JObj kvs => lookup_last k kvs | _ => None end.

Definition is_int (q : Q) : bool := Qeq_bool (inject_Z (Qfloor q)) q.

(** A number that is a whole multiple of [1 / k], in units of [1 / k]. *)
Definition as_scaled (k : positive) (v : JSON) : option Z :=
  match v with
  | JNum q => let q' := (q * inject_Z (Zpos k))%Q in if is_int q' then Some (Qfloor q') else None
  | _ => None
  end.

Definition as_int : JSON -> option Z := as_scaled 1.

Definition as_str (v : JSON) : option string := match v with JStr s => Some s | _ => None end.
Definition as_bool (v : JSON) : option bool := match v with JBool b => Some b | _ => None end.
Definition as_list (v : JSON) : option (list JSON) := match v with JArr xs => Some xs | _ => None end.

Definition light_state_of_name (s : string) : option LightState :=
  if String.eqb s "red" then Some red
  else if String.eqb s "green" then Some green
  else if String.eqb s "yellow" then Some yellow
  else None.

Definition car_type_of_name (s : string) : option CarType :=
  find (fun t => String.eqb (car_type_name t) s) [normal; emergency; police; fire; truck; bus].

(** ["none"] is no car type's name, so the string reads back
    unambiguously. *)
Definition priority_of_json (v : JSON) : option PriorityType :=
  match v with
  | JStr s => if String.eqb s "none" then Some None else Some <$> car_type_of_name s
  | _ => None
  end.

(** The fields the page reads of a car, in the model's units. *)
Definition display_info_of_json (v : JSON) : option DisplayInfo :=
  lane ← jget "lane" v ≫= as_int;
  ty ← (jget "type" v ≫= as_str) ≫= car_type_of_name;
  pos ← jget "position" v ≫= as_scaled 10;
  em ← jget "emoji" v ≫= as_str;
  wt ← jget "waiting_time" v ≫= as_int;
  Some (mkDisplayInfo lane ty pos em wt).

Definition snapshot_of_json (v : JSON) : option Snapshot :=
  st ← (jget "light_state" v ≫= as_str) ≫= light_state_of_name;
  cs ← (jget "cars" v ≫= as_list) ≫= mapM display_info_of_json;
  cc ← jget "current_cycle" v ≫= as_int;
  mc ← jget "max_cycles" v ≫= as_int;
  rt ← jget "remaining_time" v ≫= as_scaled 1000;
  pt ← jget "priority_type" v ≫= priority_of_json;
  pa ← jget "priority_active" v ≫= as_bool;
  tot ← jget "total_vehicles_passed" v ≫= as_int;
  lg ← (jget "log" v ≫= as_list) ≫= mapM as_str;
  Some (mkSnapshot st cs cc mc rt pt pa tot lg).

(** ** The schema the page relies on *)

(** JSON types, with the ranges the page's drawing assumes. *)
Inductive JTy : Type :=
| TNull
| TBool
| TStr
| TNum (lo : option Q)                  (** a number, at least [lo] *)
| TInt (lo hi : option Z)               (** a whole number in [lo, hi] *)
| TEnum (names : list string)
| TOr (a b : JTy)
| TArr (t : JTy)
| TObj (fields : list (string * JTy)).

Definition above {A} (le : A -> A -> bool) (lo : option A) (x : A) : bool :=
  match lo with Some l => le l x | None => true end.

Fixpoint has_ty (t : JTy) (v : JSON) {struct t} : bool :=
  match t, v with
  | TNull, JNull | TBool, JBool _ | TStr, JStr _ => true
  | TNum lo, JNum q => above Qle_bool lo q
  | TInt lo hi, JNum q =>
      is_int q && above Z.leb lo (Qfloor q) && above (fun h x => Z.leb x h) hi (Qfloor q)
  | TEnum ns, JStr s => existsb (String.eqb s) ns
  | TOr a b, _ => has_ty a v || has_ty b v
  | TArr t', JArr xs => forallb (has_ty t') xs
  | TObj fs, JObj _ =>
      forallb (fun '(k, t') => match jget k v with Some x => has_ty t' x | None => false end) fs
  | _, _ => false
  end.

(** A car as [drawCars] reads it: [car.lane] picks one of the four lane
    heights, [car.waiting_time] is compared with 30. *)
Definition car_schema : JTy :=
  TObj [("lane", TInt (Some 0) (Some 3)); ("type", TEnum (map car_type_name [normal; emergency; police; fire; truck; bus]));
        ("position", TNum None); ("emoji", TStr); ("waiting_time", TInt (Some 0) None)].

(** The snapshot as [updateDisplay] and [drawScene] read it:
    [light_state] is one of the three classes of the CSS and of
    [drawTrafficLight], [remaining_time.toFixed(1)] needs a number,
    [priority_type.toUpperCase()] a string, ["none"] or a car type, and
    [log] lines. *)
Definition page_schema : JTy :=
  TObj [("light_state", TEnum ["red"; "green"; "yellow"]);
        ("cars", TArr car_schema);
        ("current_cycle", TInt None None); ("max_cycles", TInt None None);
        ("remaining_time", TNum (Some 0%Q));
        ("priority_type", TEnum ("none" :: map car_type_name [normal; emergency; police; fire; truck; bus]));
        ("priority_active", TBool);
        ("total_vehicles_passed", TInt None None);
        ("log", TArr TStr)].

(** ** Round trip *)

Lemma as_scaled_scaled z k : as_scaled k (scaled z k) = Some z.
Proof.
  unfold as_scaled, scaled.
  assert (Hf : Qfloor (Qmake z k * inject_Z (Zpos k)) = z).
  { unfold Qfloor, Qmult, inject_Z. simpl. rewrite Pos.mul_1_r. apply Z.div_mul. lia. }
  unfold is_int. rewrite Hf.
  replace (Qeq_bool _ _) with true; [done|].
  symmetry. apply Qeq_bool_iff. unfold Qeq, Qmult, inject_Z. simpl. lia.
Qed.

Lemma as_int_jint z : as_int (jint z) = Some z.
Proof. apply as_scaled_scaled. Qed.

Lemma car_type_of_name_name t : car_type_of_name (car_type_name t) = Some t.
Proof. by destruct t. Qed.

Lemma light_state_of_name_name st : light_state_of_name (light_state_name st) = Some st.
Proof. by destruct st. Qed.

Lemma priority_of_json_json p : priority_of_json (priority_json p) = Some p.
Proof. destruct p as [t|]; [destruct t|]; done. Qed.

(** Decoding a list of encodings. *)
Lemma mapM_map_inv {A B} (f : A -> option B) (g : B -> A) xs :
  (forall x, f (g x) = Some x) -> mapM f (map g xs) = Some xs.
Proof. intros H. induction xs as [|x xs IH]; [done|]. simpl. by rewrite H, IH. Qed.

Lemma display_info_roundtrip c : display_info_of_json (display_info_json c) = Some c.
Proof.
  destruct c as [l t p e wt]. unfold display_info_of_json, display_info_json.
  cbn -[as_scaled as_int jint scaled car_type_of_name].
  by rewrite !as_int_jint, car_type_of_name_name, !as_scaled_scaled.
Qed.

(** ** The written snapshot has the page's schema *)

Lemma has_ty_obj fs kvs :
  has_ty (TObj fs) (JObj kvs) =
  forallb (fun '(k, t) => match lookup_last k kvs with Some x => has_ty t x | None => false end) fs.
Proof. reflexivity. Qed.

Lemma has_ty_arr t xs : has_ty (TArr t) (JArr xs) = forallb (has_ty t) xs.
Proof. reflexivity. Qed.

Lemma has_ty_jint z lo hi :
  has_ty (TInt lo hi) (jint z) = above Z.leb lo z && above (fun h x => Z.leb x h) hi z.
Proof.
  assert (Hf : Qfloor (Qmake z 1) = z) by (unfold Qfloor; simpl; apply Z.div_1_r).
  cbn -[Qfloor Qeq_bool]. unfold is_int. rewrite Hf.
  replace (Qeq_bool _ _) with true; [by rewrite andb_true_l|]. symmetry. by apply Qeq_bool_iff.
Qed.

Lemma has_ty_scaled_nonneg z k : 0 <= z -> has_ty (TNum (Some 0%Q)) (scaled z k) = true.
Proof. intros Hz. simpl. apply Qle_bool_iff. unfold Qle. simpl. lia. Qed.

Lemma has_ty_car_type t :
  has_ty (TEnum (map car_type_name [normal; emergency; police; fire; truck; bus]))
         (JStr (car_type_name t)) = true.
Proof. by destruct t. Qed.

Lemma car_schema_ok c : Car.car_wf c -> has_ty car_schema (display_info_json (Car.get_display_info c)) = true.
Proof.
  intros (_ & _ & _ & Hl & _ & Hw).
  unfold car_schema, display_info_json, Car.get_display_info.
  rewrite has_ty_obj. cbn -[has_ty jint scaled car_type_name].
  rewrite !has_ty_jint, has_ty_car_type. simpl.
  repeat (apply andb_true_iff; split); try apply Z.leb_le; try lia; done.
Qed.

(** Decoding an encoded snapshot gives it back. *)
Lemma decode_snapshot_json s : snapshot_of_json (snapshot_json s) = Some s.
Proof.
  destruct s as [st cs cc mc rt pt pa tot lg]. unfold snapshot_of_json, snapshot_json.
  cbn -[as_scaled as_int jint scaled light_state_of_name mapM display_info_of_json priority_of_json].
  rewrite light_state_of_name_name, (mapM_map_inv _ _ _ display_info_roundtrip), !as_int_jint,
    as_scaled_scaled, priority_of_json_json, (mapM_map_inv as_str JStr); done.
Qed.


(** C35: what [write_simulation_data] writes on a well-formed manager
    never raises and has the types and ranges the page's script relies on:
    a light state among the three the page draws, every car's lane in
    [0, 3] and waiting time a non-negative whole number, a non-negative
    remaining time, a priority type that is ["none"] or a car type name, and
    string log lines. *)
Theorem write_simulation_data_schema n m w :
  TrafficManager.mgr_inv m ->
  exists s, TrafficManager.write_simulation_data n m w =
              (Ok tt, mkWorld (now w) (draws w) (entries w) (log_file w) (Some s)) /\
            has_ty page_schema (snapshot_json s) = true.
Proof.
  intros ((Hwf & _) & _). eexists. split; [reflexivity|].
  unfold page_schema, snapshot_json.
  rewrite has_ty_obj. cbn -[has_ty jint scaled car_type_name light_state_name map car_schema display_info_json].
  rewrite !has_ty_jint, has_ty_scaled_nonneg, !has_ty_arr by (unfold SmartTrafficLight.time_left_at; lia).
  repeat (apply andb_true_iff; split); try done.
  - by destruct (SmartTrafficLight.state _).
  - apply forallb_forall. intros x Hx. rewrite map_map in Hx. apply in_map_iff in Hx as (c & <- & Hc).
    rewrite Forall_forall in Hwf. apply car_schema_ok, Hwf. by apply list_elem_of_In.
  - by destruct (SmartTrafficLight.priority_type _) as [[]|].
  - apply forallb_forall. intros x Hx. by apply in_map_iff in Hx as (? & <- & _).
Qed.

Lemma write_simulation_data_schema_witness :
  exists s, TrafficManager.write_simulation_data 3
              (TrafficManager.sample_manager [Car.sedan_near_exit; Car.ambulance]) empty_world =
            (Ok tt, mkWorld (now empty_world) (draws empty_world) (entries empty_world)
                            (log_file empty_world) (Some s)) /\
            has_ty page_schema (snapshot_json s) = true.
Proof.
  apply (write_simulation_data_schema 3 (TrafficManager.sample_manager [Car.sedan_near_exit; Car.ambulance])
           empty_world).
  split; repeat constructor; try Car.car_wf_tac; simpl; unfold Car.PASS_LINE; lia.
Defined.

End Json.
