(* ===== verification/Main.v ===== *)
(** * Main: the module-level start-up and [run_simulation]
    (dengiaothong.py, lines 859-898)

    Because of its indentation, the first copy of the program runs at
    module level (not inside [main()], which only prints a banner):
    [if os.path.exists(LOG_FILE): os.remove(LOG_FILE); traffic_manager =
    TrafficManager()] — the assignment is inside the [if] — then starts
    [run_simulation] in a thread and serves HTTP forever.  The thread and
    the server are not modelled; [run_simulation] runs on the world with
    the global [traffic_manager] bound or unbound. *)

From stdpp Require Import base list gmap strings.
From Stdlib Require Import ZArith Lia.
From S2P Require Import Prelude Config Logger World Vehicle Signal Sensor Decision Manager.

Local Open Scope Z_scope.
Local Open Scope sim_scope.

Module Program.
Import SmartTrafficLight TrafficManager.

(** Lines 866-870: the global [traffic_manager], [None] when unbound. *)
Definition module_setup : Sim (option Manager) :=
  w <- get ;;
  match log_file w with
  | Some _ => remove_log_file ;;; m <- TrafficManager.init ;; ret (Some m)
  | None => ret None
  end.

(** One iteration of [for cycle in range(1, MAX_CYCLES + 1)] (lines
    876-881). *)
Definition cycle_step (fuel : nat) (m : Manager) (cycle : Z) : Sim Manager :=
  m' <- run_cycle fuel cycle m ;;
  (if cycle <? CONFIG.MAX_CYCLES then sleep 2000 else ret tt) ;;;
  ret m'.

Definition cycle_numbers : list Z := map Z.of_nat (seq 1 (Z.to_nat CONFIG.MAX_CYCLES)).

(** [run_simulation()] (lines 872-887), on the global binding [tm]; the
    name [traffic_manager] is looked up when the loop first uses it. *)
Definition run_simulation (fuel : nat) (tm : option Manager) : Sim (option Manager) :=
  log TrafficLogger.SYSTEM TrafficLogger.SimStart ;;;
  try_except
    (m <- match tm with
          | Some m => ret m
          | None => raise (NameError "traffic_manager")
          end ;;
     m' <- for_each cycle_numbers m (cycle_step fuel) ;;
     log TrafficLogger.SYSTEM
         (TrafficLogger.SimDone (SmartTrafficLight.total_vehicles_passed (light m'))) ;;;
     ret (Some m'))
    (fun e => log TrafficLogger.ERROR (TrafficLogger.SimError e) ;;; ret None).

(** The three phases one cycle sets, from the durations it decided. *)
Definition cycle_phases (rgy : Z * Z * Z) : list (LightState * Z) :=
  let '(r, g, y) := rgy in [(red, r); (green, g); (yellow, y)].

(** The ranges [run_cycle] keeps its durations in. *)
Definition durations_ok (rgy : Z * Z * Z) : Prop :=
  let '(r, g, y) := rgy in
  CONFIG.LIGHT_MIN <= r <= CONFIG.LIGHT_MAX /\ CONFIG.LIGHT_MIN <= g <= CONFIG.LIGHT_MAX + 2 /\
  CONFIG.YELLOW_MIN <= y <= CONFIG.YELLOW_MAX.

(** The module-level start-up followed by the simulation thread. *)
Definition program (fuel : nat) : Sim (option Manager) :=
  tm <- module_setup ;; run_simulation fuel tm.

(** ** Lemmas *)

Lemma init_run w :
  TrafficManager.init w =
  (Ok (mkManager [] (SmartTrafficLight.mkLight red 0 (now w) false None 0 0 0)
                 TrafficAISensor.init LightDecisionAlgorithm.init (now w) 2), w).
Proof. reflexivity. Qed.

Lemma cycles_spec fuel cs m w :
  mgr_inv m -> (35 <= fuel)%nat ->
  exists m' w' ds, for_each cs m (cycle_step fuel) w = (Ok m', w') /\ mgr_inv m' /\
    length ds = length cs /\
    TrafficLogger.phase_trace (entries w') =
      TrafficLogger.phase_trace (entries w) ++ flat_map cycle_phases ds /\
    Forall durations_ok ds.
Proof.
  revert m w. induction cs as [|c cs IH]; intros m w Hi Hf; simpl.
  - exists m, w, []. split; [reflexivity|]. split; [done|]. split; [done|].
    split; [by rewrite app_nil_r|constructor].
  - unfold cycle_step at 1. rewrite !bind_assoc.
    destruct (run_cycle_spec fuel c m w Hi Hf)
      as (m1 & w1 & r & g & y & E & Hi1 & Htr & _ & Hr & Hg & Hy & _).
    rewrite (bind_ok _ _ _ _ _ E), !bind_assoc.
    assert (Hs : exists w2, (if c <? CONFIG.MAX_CYCLES then sleep 2000 else ret tt) w1 = (Ok tt, w2)
                 /\ entries w2 = entries w1).
    { destruct (c <? CONFIG.MAX_CYCLES); eexists; split; reflexivity. }
    destruct Hs as (w2 & E2 & He2). rewrite (bind_ok _ _ _ _ _ E2). cbn [ret].
    destruct (IH m1 w2 Hi1 Hf) as (m' & w' & ds & E' & Hi' & Hlen & Htr' & Hds).
    exists m', w', ((r, g, y) :: ds). split; [exact E'|]. split; [done|].
    split; [simpl; by rewrite Hlen|].
    split; [rewrite Htr', He2, Htr, <- app_assoc; reflexivity|].
    constructor; [split; [lia|split; lia]|exact Hds].
Qed.

Lemma cycle_phases_length ds : length (flat_map cycle_phases ds) = (3 * length ds)%nat.
Proof. induction ds as [|[[r g] y] ds IH]; simpl; [done|]. rewrite IH. lia. Qed.

(** Successive cycles set the phases in the cyclic order. *)
Lemma cycle_phases_chain ds : phase_chain yellow (map fst (flat_map cycle_phases ds)).
Proof.
  induction ds as [|[[r g] y] ds IH]; simpl; [done|].
  repeat split; [constructor..|exact IH].
Qed.

(** A restart: the program removes the old log, builds the manager and
    runs the ten cycles. *)
Lemma restart_spec fuel w l :
  log_file w = Some l -> (35 <= fuel)%nat ->
  exists m' w' ds, program fuel w = (Ok (Some m'), w') /\ mgr_inv m' /\
    length ds = 10%nat /\
    TrafficLogger.phase_trace (entries w') =
      TrafficLogger.phase_trace (entries w) ++ flat_map cycle_phases ds /\
    Forall durations_ok ds /\
    last (entries w') = Some (TrafficLogger.make_entry (now w') TrafficLogger.SYSTEM
      (TrafficLogger.SimDone (SmartTrafficLight.total_vehicles_passed (light m')))).
Proof.
  intros Hl Hf. unfold program, module_setup. rewrite bind_assoc.
  unfold bind at 1, get at 1. rewrite Hl.
  rewrite !bind_assoc, (bind_ok _ _ _ _ _ (remove_log_file_run w)), !bind_assoc,
    (bind_ok _ _ _ _ _ (init_run _)), bind_ret_l.
  unfold run_simulation. rewrite (bind_ok _ _ _ _ _ (log_run _ _ _)).
  set (w1 := snd (log _ _ _)).
  set (m0 := mkManager _ _ _ _ _ _).
  assert (Hi0 : mgr_inv m0) by (split; [split; constructor|simpl; lia]).
  destruct (cycles_spec fuel cycle_numbers m0 w1 Hi0 Hf) as (m' & w' & ds & E & Hi' & Hlen & Htr & Hds).
  unfold try_except. rewrite bind_ret_l, (bind_ok _ _ _ _ _ E), (bind_ok _ _ _ _ _ (log_run _ _ _)).
  cbn [ret]. eexists _, _, ds. split; [reflexivity|]. split; [done|]. split; [by rewrite Hlen|].
  split; [|split; [exact Hds|by rewrite log_entries, last_app]].
  autorewrite with traffic. rewrite Htr. subst w1. autorewrite with traffic. simpl.
  by rewrite !app_nil_r.
Qed.

(** On a first start the program never writes the snapshot file. *)
Lemma fresh_start_snapshot fuel w :
  log_file w = None -> traffic_data (snd (program fuel w)) = traffic_data w.
Proof.
  intros Hf. unfold program, module_setup. rewrite bind_assoc.
  unfold bind at 1, get at 1. rewrite Hf. reflexivity.
Qed.

(** ** Properties of the start-up *)

(** C20: on a first start, when [traffic_log.txt] does not exist, the
    global [traffic_manager] is never bound (its assignment sits inside the
    [if] that removes an old log file), so the simulation thread fails at
    once with [NameError]: it logs the start line and the error, runs no
    cycle and never writes the snapshot the browser page polls. *)
Theorem fresh_start_never_simulates fuel w :
  log_file w = None ->
  exists w', program fuel w = (Ok None, w') /\
    entries w' = entries w ++
      [TrafficLogger.make_entry (now w) TrafficLogger.SYSTEM TrafficLogger.SimStart;
       TrafficLogger.make_entry (now w) TrafficLogger.ERROR
         (TrafficLogger.SimError (NameError "traffic_manager"))] /\
    traffic_data w' = traffic_data w.
Proof.
  intros Hf. unfold program, module_setup. rewrite bind_assoc.
  unfold bind at 1, get at 1. rewrite Hf.
  eexists. split; [reflexivity|]. simpl. by rewrite <- app_assoc.
Qed.

Lemma fresh_start_never_simulates_witness :
  exists w', program 35 (mkWorld 0 [] [] None None) = (Ok None, w') /\
    entries w' = entries (mkWorld 0 [] [] None None) ++
      [TrafficLogger.make_entry 0 TrafficLogger.SYSTEM TrafficLogger.SimStart;
       TrafficLogger.make_entry 0 TrafficLogger.ERROR
         (TrafficLogger.SimError (NameError "traffic_manager"))] /\
    traffic_data w' = traffic_data (mkWorld 0 [] [] None None).
Proof. apply (fresh_start_never_simulates 35 (mkWorld 0 [] [] None None)). reflexivity. Defined.

(** C21: when the log file of an earlier run exists, the program removes
    it, builds the manager and runs all [MAX_CYCLES] = 10 cycles to the
    end.  With fuel for the longest phase it terminates normally and
    keeps the population invariant.  The light goes through RED, GREEN
    and YELLOW ten times in the cyclic order of [phase_step] (each phase
    change a step YELLOW -> RED -> GREEN -> YELLOW), 30 phase changes in
    all, with every red, green and yellow duration in its range.  The
    log ends with the "simulation complete" line carrying the final
    passed-vehicle count. *)
Theorem restart_runs_all_cycles fuel w l :
  log_file w = Some l -> (35 <= fuel)%nat ->
  exists m' w' ds, program fuel w = (Ok (Some m'), w') /\ mgr_inv m' /\ length ds = 10%nat /\
    TrafficLogger.phase_trace (entries w') =
      TrafficLogger.phase_trace (entries w) ++ flat_map cycle_phases ds /\
    length (flat_map cycle_phases ds) = 30%nat /\
    phase_chain yellow (map fst (flat_map cycle_phases ds)) /\
    Forall durations_ok ds /\
    last (entries w') = Some (TrafficLogger.make_entry (now w') TrafficLogger.SYSTEM
      (TrafficLogger.SimDone (SmartTrafficLight.total_vehicles_passed (light m')))).
Proof.
  intros Hl Hf.
  destruct (restart_spec fuel w l Hl Hf) as (m' & w' & ds & E & Hi & Hlen & Htr & Hds & Hlast).
  exists m', w', ds. do 4 (split; [done|]).
  split; [by rewrite cycle_phases_length, Hlen|].
  split; [apply cycle_phases_chain|]. by split.
Qed.

Lemma restart_runs_all_cycles_witness :
  exists m' w' ds, program 35 (mkWorld 0 [] [] (Some []) None) = (Ok (Some m'), w') /\ mgr_inv m' /\
    length ds = 10%nat /\
    TrafficLogger.phase_trace (entries w') =
      TrafficLogger.phase_trace (entries (mkWorld 0 [] [] (Some []) None)) ++
      flat_map cycle_phases ds /\
    length (flat_map cycle_phases ds) = 30%nat /\
    phase_chain yellow (map fst (flat_map cycle_phases ds)) /\
    Forall durations_ok ds /\
    last (entries w') = Some (TrafficLogger.make_entry (now w') TrafficLogger.SYSTEM
      (TrafficLogger.SimDone (SmartTrafficLight.total_vehicles_passed (light m')))).
Proof. apply (restart_runs_all_cycles 35 (mkWorld 0 [] [] (Some []) None) []); [reflexivity|lia]. Defined.

End Program.
