(* ===== verification/SecondCopy.v ===== *)
(** * SecondCopy: the second copy of the program (dengiaothong.py, lines
    910-1792)

    The file holds the whole program twice.  The second copy's classes are
    the first copy's line for line, except that
    - [LightDecisionAlgorithm.calculate_light_times] uses another priority
      fast path (modelled as [calculate_light_times_dup] in Decision.v);
    - [TrafficManager.write_simulation_data] is indented one level too far
      (line 1268): it is a local function of [run_cycle], defined after the
      phase loop, so the class has no such method and the loop's call
      [self.write_simulation_data(cycle_number)] raises [AttributeError];
      the [with open("traffic_data.json", "w")] that follows it at the
      level of [run_cycle] dumps a name [data] that is not bound there;
    - [main()] (lines 1755-1790) holds the start-up, with
      [traffic_manager = TrafficManager()] outside the [if].

    The second copy runs only once the first copy's [serve_forever()]
    returns; its threads and server are not modelled. *)

From stdpp Require Import base list gmap strings.
From Stdlib Require Import ZArith Lia.
From S2P Require Import Prelude Config Logger World Vehicle Signal Sensor Decision Manager Main.

Local Open Scope Z_scope.
Local Open Scope sim_scope.

Module SecondCopy.
Import Car SmartTrafficLight TrafficAISensor LightDecisionAlgorithm TrafficManager.

(** The body of the [while] loop (lines 1250-1262): the lookup of the
    missing method raises after the cars have moved. *)
Definition tick (cycle_number : Z) (m : Manager) : Sim Manager :=
  l <- update_priority (light m) ;;
  m2 <- spawn_cars (with_light m l) ;;
  m3 <- update_cars m2 ;;
  (raise (AttributeError "write_simulation_data") : Sim unit) ;;;
  sleep 500 ;;;
  ret m3.

(** The phase loop of lines 1248-1262, with fuel. *)
Fixpoint phase_loop (fuel : nat) (cycle_number start_state_time duration : Z)
    (m : Manager) : Sim Manager :=
  match fuel with
  | O => raise FuelExhausted
  | S fuel' =>
      t <- time_time ;;
      if t - start_state_time <? duration * 1000 then
        m' <- tick cycle_number m ;;
        phase_loop fuel' cycle_number start_state_time duration m'
      else ret m
  end.

(** One iteration of [for state, duration in light_sequence] (lines
    1245-1264). *)
Definition run_phase (fuel : nat) (cycle_number : Z) (m : Manager)
    (phase : LightState * Z) : Sim Manager :=
  let (st, duration) := phase in
  l <- set_state st duration (light m) ;;
  start_state_time <- time_time ;;
  m' <- phase_loop fuel cycle_number start_state_time duration (with_light m l) ;;
  log TrafficLogger.INFO (TrafficLogger.PhaseEnd st cycle_number) ;;;
  ret m'.

(** [open("traffic_data.json", "w")] truncates the snapshot file. *)
Definition truncate_traffic_data : Sim unit :=
  modify (fun w => mkWorld (now w) (draws w) (entries w) (log_file w) None).

(** [run_cycle(cycle_number)] of the second class (lines 1223-1281).  It
    has the same start as the first copy's ([plan_cycle_with]; lines
    1224-1243 are lines 326-345), with the second copy's decision method.
    Then come the phases, [increment_cycle()] and the local [def], which
    has no effect.  Last, the [with] block opens the file for writing, and
    [json.dump(data, ...)] raises [NameError]. *)
Definition run_cycle (fuel : nat) (cycle_number : Z) (m : Manager) : Sim Manager :=
  plan <- plan_cycle_with calculate_light_times_dup cycle_number m ;;
  let (m2, light_sequence) := plan in
  m3 <- for_each light_sequence m2 (run_phase fuel cycle_number) ;;
  (* [self.light.increment_cycle()] changes only the manager, which the
     exception below discards. *)
  truncate_traffic_data ;;;
  raise (NameError "data").

(** One iteration of the [for cycle] loop of lines 1772-1777. *)
Definition cycle_step (fuel : nat) (m : Manager) (cycle : Z) : Sim Manager :=
  m' <- run_cycle fuel cycle m ;;
  (if cycle <? CONFIG.MAX_CYCLES then sleep 2000 else ret tt) ;;;
  ret m'.

(** The nested [run_simulation()] (lines 1768-1783), on the local
    [traffic_manager]. *)
Definition run_simulation (fuel : nat) (traffic_manager : Manager) : Sim unit :=
  log TrafficLogger.SYSTEM TrafficLogger.SimStart ;;;
  try_except
    (m' <- for_each Program.cycle_numbers traffic_manager (cycle_step fuel) ;;
     log TrafficLogger.SYSTEM
         (TrafficLogger.SimDone (SmartTrafficLight.total_vehicles_passed (light m'))))
    (fun e => log TrafficLogger.ERROR (TrafficLogger.SimError e)).

(** [main()] of the second copy (lines 1755-1790), without the banner,
    the thread and the server. *)
Definition main (fuel : nat) : Sim unit :=
  w <- get ;;
  (match log_file w with Some _ => remove_log_file | None => ret tt end) ;;;
  traffic_manager <- TrafficManager.init ;;
  run_simulation fuel traffic_manager.

(** ** The second copy never completes a cycle *)

Definition raised_attr : PyExn := AttributeError "write_simulation_data".

(** The first tick moves the cars, then raises. *)
Lemma tick_raises n m w :
  mgr_inv m ->
  exists w', tick n m w = (Raise raised_attr, w') /\
    TrafficLogger.phase_trace (entries w') = TrafficLogger.phase_trace (entries w).
Proof.
  intros Hinv. unfold tick.
  destruct (update_priority_frame (light m) w) as (l1 & w1 & E1 & _).
  pose proof (update_priority_trace _ _ _ _ E1) as Htr1.
  rewrite (bind_ok _ _ _ _ _ E1).
  destruct (spawn_cars_inv (with_light m l1) w1 Hinv)
    as (m2 & w2 & E2 & Hinv2 & _ & He2 & _).
  rewrite (bind_ok _ _ _ _ _ E2).
  destruct (update_cars_spec m2 w2 (proj1 Hinv2)) as (m3 & w3 & E3 & _ & _ & _ & _ & _ & _ & _ & He3).
  rewrite (bind_ok _ _ _ _ _ E3).
  eexists. split; [reflexivity|]. by rewrite He3, He2.
Qed.

(** A phase of positive length raises in its first tick, after setting
    the light. *)
Lemma run_phase_raises fuel n m st d w :
  mgr_inv m -> 0 < d -> (1 <= fuel)%nat ->
  exists w', run_phase fuel n m (st, d) w = (Raise raised_attr, w') /\
    TrafficLogger.phase_trace (entries w') =
      TrafficLogger.phase_trace (entries w) ++ [(st, d)].
Proof.
  intros Hi Hd Hf. unfold run_phase.
  rewrite (bind_ok _ _ _ _ _ (set_state_run st d (light m) w)), bind_time_time.
  destruct fuel as [|fuel]; [lia|]. cbn [phase_loop]. rewrite bind_assoc, bind_time_time.
  rewrite Z.sub_diag. replace (0 <? d * 1000) with true by lia.
  set (w1 := snd (log _ _ w)). set (m1 := with_light m _).
  destruct (tick_raises n m1 w1 Hi) as (w' & E & Htr).
  rewrite bind_assoc, (bind_raise _ _ _ _ _ E). eexists. split; [reflexivity|].
  rewrite Htr. subst w1. autorewrite with traffic. done.
Qed.

(** A cycle raises in the first tick of its red phase, after setting the
    light to red for a duration in [2, LIGHT_MAX]. *)
Lemma run_cycle_raises fuel n m w :
  mgr_inv m -> (1 <= fuel)%nat ->
  exists w' r, run_cycle fuel n m w = (Raise raised_attr, w') /\
    TrafficLogger.phase_trace (entries w') =
      TrafficLogger.phase_trace (entries w) ++ [(red, r)] /\
    2 <= r <= CONFIG.LIGHT_MAX.
Proof.
  intros Hi Hf. unfold run_cycle.
  destruct (plan_cycle_with_spec (calc := calculate_light_times_dup) n m w Hi)
    as (m2 & w3 & r & g & y & E3 & Hi2 & _ & Htr3 & _ & Hr & _).
  rewrite (bind_ok _ _ _ _ _ E3). cbn [for_each]. rewrite !bind_assoc.
  unfold CONFIG.LIGHT_MIN, CONFIG.LIGHT_MAX in *.
  destruct (run_phase_raises fuel n m2 red r w3 Hi2 ltac:(lia) Hf) as (w4 & E4 & Htr4).
  rewrite (bind_raise _ _ _ _ _ E4). exists w4, r.
  split; [reflexivity|]. split; [by rewrite Htr4, Htr3|lia].
Qed.

(** C25: the second copy's [main()], which runs once the first copy's
    server stops, starts the simulation but never completes a cycle: the
    red light of cycle 1 is set, the first tick moves the cars and then
    [self.write_simulation_data] raises [AttributeError] (the method was
    indented into [run_cycle]); the thread's handler logs the error as the
    last line and the light is never set again. *)
Theorem second_copy_never_completes_a_cycle fuel w :
  (1 <= fuel)%nat ->
  exists w' r, main fuel w = (Ok tt, w') /\
    TrafficLogger.phase_trace (entries w') =
      TrafficLogger.phase_trace (entries w) ++ [(red, r)] /\
    last (entries w') = Some (TrafficLogger.make_entry (now w') TrafficLogger.ERROR
      (TrafficLogger.SimError (AttributeError "write_simulation_data"))) /\
    2 <= r <= CONFIG.LIGHT_MAX.
Proof.
  intros Hf. unfold main. unfold bind at 1, get at 1.
  assert (Hrm : exists w0, (match log_file w with Some _ => remove_log_file
                            | None => ret tt end) w = (Ok tt, w0) /\ entries w0 = entries w)
    by (destruct (log_file w); eexists; split; reflexivity).
  destruct Hrm as (w0 & E0 & He0).
  rewrite (bind_ok _ _ _ _ _ E0), (bind_ok _ _ _ _ _ (Program.init_run _)).
  unfold run_simulation. rewrite (bind_ok _ _ _ _ _ (log_run _ _ _)).
  set (w1 := snd (log _ _ _)). set (m0 := mkManager _ _ _ _ _ _).
  assert (Hi0 : mgr_inv m0) by (split; [split; constructor|simpl; lia]).
  destruct (run_cycle_raises fuel 1 m0 w1 Hi0 Hf) as (w2 & r & E2 & Htr2 & Hr).
  assert (Hfail : for_each Program.cycle_numbers m0 (cycle_step fuel) w1 = (Raise raised_attr, w2)).
  { change Program.cycle_numbers with (1 :: map Z.of_nat (seq 2 9)). cbn [for_each].
    unfold cycle_step at 1. rewrite !bind_assoc. by rewrite (bind_raise _ _ _ _ _ E2). }
  unfold try_except. rewrite (bind_raise _ _ _ _ _ Hfail).
  eexists _, _. split; [reflexivity|]. split; [|split; [simpl; by rewrite last_app|exact Hr]].
  simpl. rewrite TrafficLogger.phase_trace_app, Htr2. subst w1. simpl.
  rewrite TrafficLogger.phase_trace_app, He0. simpl. by rewrite !app_nil_r.
Qed.

Lemma second_copy_never_completes_a_cycle_witness :
  exists w' r, main 35 empty_world = (Ok tt, w') /\
    TrafficLogger.phase_trace (entries w') =
      TrafficLogger.phase_trace (entries empty_world) ++ [(red, r)] /\
    last (entries w') = Some (TrafficLogger.make_entry (now w') TrafficLogger.ERROR
      (TrafficLogger.SimError (AttributeError "write_simulation_data"))) /\
    2 <= r <= CONFIG.LIGHT_MAX.
Proof. apply (second_copy_never_completes_a_cycle 35 empty_world). lia. Defined.

End SecondCopy.
