(* ===== verification/Page.v ===== *)
(** * Page: the script of the browser page (dengiaothong.py, lines 660-825)

    The page polls [traffic_data.json] every 500 ms ([fetchData]); on
    success it updates the text of the dashboard ([updateDisplay]) and
    redraws the canvas ([drawScene] = [drawRoad], [drawTrafficLight],
    [drawCars]).  Each drawing function is the list of calls it makes on
    the 2D context, in order; [render] interprets such a list on the
    context's state (fill and stroke style, line width, dash, font, current
    path) and returns the marks painted.  The dashboard is a record of the
    text of its elements.  Coordinates are rationals: every number the
    script computes is one, and each comparison below is decided as with
    JavaScript's doubles.  [String.substring] counts bytes and JavaScript
    counts UTF-16 units; the two agree on the ASCII prefix of a log line,
    the only place the script cuts a string.  The polling timer, the DOM
    scroll position and [clearLog] (a button) are not modelled. *)

From stdpp Require Import base list strings pretty.
From Stdlib Require Import ZArith QArith Lia.
From S2P Require Import Prelude Config Logger World Vehicle Signal Sensor Decision Manager Main.

Module Page.

Local Open Scope Z_scope.

(** Lines 665-666. *)
Definition canvasWidth : Z := 800.
Definition canvasHeight : Z := 500.

(** A path element: [moveTo], [lineTo], or a full-circle [arc]. *)
Inductive PathOp : Type :=
| PMove (x y : Q)
| PLine (x y : Q)
| PArc (x y r : Q).

(** The calls the script makes on [ctx]; [arc] is always drawn from 0 to
    [Math.PI * 2]. *)
Inductive CanvasCall : Type :=
| setFillStyle (c : string)
| setStrokeStyle (c : string)
| setLineWidth (w : Z)
| setLineDash (pattern : list Z)
| setFont (f : string)
| fillRect (x y w h : Q)
| clearRect (x y w h : Q)
| beginPath
| moveTo (x y : Q)
| lineTo (x y : Q)
| arc (x y r : Q)
| fill
| stroke
| fillText (s : string) (x y : Q).

(** What a call paints. *)
Inductive Mark : Type :=
| MRect (color : string) (x y w h : Q)
| MClear (x y w h : Q)
| MFill (color : string) (path : list PathOp)
| MStroke (color : string) (width : Z) (dash : list Z) (path : list PathOp)
| MText (color font s : string) (x y : Q).

(** The state of the context the calls read. *)
Record Ctx := mkCtx {
  fill_style : string;
  stroke_style : string;
  line_width : Z;
  line_dash : list Z;
  font : string;
  path : list PathOp
}.

(** One call: the context after it and what it paints. *)
Definition exec_call (c : Ctx) (k : CanvasCall) : Ctx * list Mark :=
  match k with
  | setFillStyle s => (mkCtx s (stroke_style c) (line_width c) (line_dash c) (font c) (path c), [])
  | setStrokeStyle s => (mkCtx (fill_style c) s (line_width c) (line_dash c) (font c) (path c), [])
  | setLineWidth w => (mkCtx (fill_style c) (stroke_style c) w (line_dash c) (font c) (path c), [])
  | setLineDash p => (mkCtx (fill_style c) (stroke_style c) (line_width c) p (font c) (path c), [])
  | setFont f => (mkCtx (fill_style c) (stroke_style c) (line_width c) (line_dash c) f (path c), [])
  | fillRect x y w h => (c, [MRect (fill_style c) x y w h])
  | clearRect x y w h => (c, [MClear x y w h])
  | beginPath => (mkCtx (fill_style c) (stroke_style c) (line_width c) (line_dash c) (font c) [], [])
  | moveTo x y =>
      (mkCtx (fill_style c) (stroke_style c) (line_width c) (line_dash c) (font c)
             (path c ++ [PMove x y]), [])
  | lineTo x y =>
      (mkCtx (fill_style c) (stroke_style c) (line_width c) (line_dash c) (font c)
             (path c ++ [PLine x y]), [])
  | arc x y r =>
      (mkCtx (fill_style c) (stroke_style c) (line_width c) (line_dash c) (font c)
             (path c ++ [PArc x y r]), [])
  | fill => (c, [MFill (fill_style c) (path c)])
  | stroke => (c, [MStroke (stroke_style c) (line_width c) (line_dash c) (path c)])
  | fillText s x y => (c, [MText (fill_style c) (font c) s x y])
  end.

(** A sequence of calls: the marks in the order they are painted. *)
Fixpoint render (ks : list CanvasCall) (c : Ctx) : list Mark * Ctx :=
  match ks with
  | [] => ([], c)
  | k :: ks' =>
      let (c1, ms1) := exec_call c k in
      let (ms2, c2) := render ks' c1 in
      (ms1 ++ ms2, c2)
  end.

(** [drawRoad()] (lines 676-708). *)
Definition drawRoad : list CanvasCall :=
  [setFillStyle "#34495e"; fillRect 0 0 (inject_Z canvasWidth) (inject_Z canvasHeight);
   setStrokeStyle "white"; setLineWidth 2; setLineDash [10; 15]] ++
  flat_map (fun i : Z =>
              let y := (inject_Z canvasHeight / 3 * inject_Z i)%Q in
              [beginPath; moveTo 0 y; lineTo (inject_Z canvasWidth) y; stroke])
           [1; 2] ++
  [setLineDash [];
   setStrokeStyle "white"; setLineWidth 3;
   beginPath; moveTo 350 0; lineTo 350 (inject_Z canvasHeight); stroke;
   setFillStyle "red"; setFont "12px Arial";
   fillText "VẠCH DỪNG" 360 (inject_Z canvasHeight / 2)].

(** An element of [lights] (lines 724-728). *)
Record Lamp := mkLamp { lamp_color : string; lamp_state : LightState; lamp_y : Z }.

(** [drawTrafficLight(state)] (lines 711-739). *)
Definition drawTrafficLight (state : LightState) : list CanvasCall :=
  let lightX := 700 in
  let lightY := 50 in
  let lightWidth := 80 in
  let lightHeight := 200 in
  let lights := [mkLamp "#e74c3c" red (lightY + 20);
                 mkLamp "#f39c12" yellow (lightY + 80);
                 mkLamp "#27ae60" green (lightY + 140)] in
  [setFillStyle "#2c3e50";
   fillRect (inject_Z lightX) (inject_Z lightY) (inject_Z lightWidth) (inject_Z lightHeight);
   setFillStyle "#34495e";
   fillRect (inject_Z (lightX - 10)) (inject_Z (lightY + lightHeight)) 100 20] ++
  flat_map (fun light =>
              [beginPath;
               arc (inject_Z lightX + inject_Z lightWidth / 2) (inject_Z (lamp_y light)) 25;
               setFillStyle (if decide (lamp_state light = state) then lamp_color light
                             else "#7f8c8d");
               fill;
               setStrokeStyle "#2c3e50"; setLineWidth 2; stroke])
           lights.

(** The pixel coordinate of a position kept in tenths of a pixel. *)
Definition px (tenths : Z) : Q := (inject_Z tenths / 10)%Q.

(** [const y = 50 + (car.lane * laneHeight)] (lines 745-746). *)
Definition car_y (car : DisplayInfo) : Q :=
  let laneHeight := (inject_Z canvasHeight / 4)%Q in
  (50 + inject_Z (di_lane car) * laneHeight)%Q.

(** The arrow function of [cars.forEach] in [drawCars] (lines 743-758). *)
Definition drawCar (car : DisplayInfo) : list CanvasCall :=
  let x := px (di_position car) in
  let y := car_y car in
  [setFont "30px Arial"; fillText (di_emoji car) x y] ++
  (if 30 <? di_waiting_time car
   then [setFillStyle "red"; setFont "12px Arial";
         fillText (pretty (di_waiting_time car) +:+ "s") x (y - 10)]
   else []).

(** [drawCars(cars)] (lines 742-759). *)
Definition drawCars (cars : list DisplayInfo) : list CanvasCall := flat_map drawCar cars.

(** [drawScene(data)] (lines 794-802). *)
Definition drawScene (data : Snapshot) : list CanvasCall :=
  [clearRect 0 0 (inject_Z canvasWidth) (inject_Z canvasHeight)] ++
  drawRoad ++ drawTrafficLight (light_state data) ++ drawCars (snap_cars data).

(** ** The dashboard *)

(** The elements [updateDisplay] writes (lines 624-656). *)
Record Dom := mkDom {
  cycle_text : string;            (** #cycle *)
  max_cycle_text : string;        (** #maxCycle *)
  vehicles_passed_text : string;  (** #vehiclesPassed *)
  state_text : string;            (** #stateDisplay *)
  state_class : string;
  timer_text : string;            (** #timer *)
  priority_display : string;      (** #priorityDisplay's style.display *)
  priority_type_text : string;    (** #priorityType *)
  log_html : string               (** #log's innerHTML *)
}.

(** The page as served: the texts of lines 624-656. *)
Definition initial_dom : Dom :=
  mkDom "1" "10" "0" "ĐỎ" "light-state" "0.0s" "none" "" "".

(** The one-character string of the double quote, ASCII 34. *)
Definition dq : string := String (Ascii.ascii_of_nat 34) EmptyString.

(** JavaScript's [s.substring(a, b)] for [a <= b <= s.length]. *)
Definition js_substring (a b : nat) (s : string) : string := String.substring a (b - a) s.

(** JavaScript's [s.substring(a)]. *)
Fixpoint js_substring_from (a : nat) (s : string) : string :=
  match a, s with
  | O, _ => s
  | S a', String _ s' => js_substring_from a' s'
  | S _, EmptyString => EmptyString
  end.

(** [x.toFixed(1)] of a non-negative time in milliseconds, in seconds. *)
Definition to_fixed1 (ms : Z) : string :=
  let t := (ms + 50) / 100 in pretty (t / 10) +:+ "." +:+ pretty (t mod 10).

(** [priority_type.toUpperCase()] *)
Definition priority_upper (p : PriorityType) : string :=
  match p with None => "NONE" | Some t => car_type_upper t end.

(** The markup of one log line (line 788), from its two parts. *)
Definition log_div (time text : string) : string :=
  "<div class=" +:+ dq +:+ "log-entry" +:+ dq +:+ "><span class=" +:+ dq +:+ "log-time" +:+ dq +:+
  ">" +:+ time +:+ "</span> " +:+ text +:+ "</div>".

(** The arrow function of lines 787-789 on one line of the log. *)
Definition log_entry_html (entry : string) : string :=
  log_div (js_substring 1 9 entry) (js_substring_from 12 entry).

(** [updateDisplay(data)] (lines 762-791).  The log of the snapshot holds
    the lines [TrafficLogger.log] built. *)
Definition updateDisplay (data : Snapshot) (d : Dom) : Dom :=
  let active := snap_priority_active data in
  mkDom (pretty (current_cycle data)) (pretty (max_cycles data))
        (pretty (snap_total_vehicles_passed data))
        (light_state_upper (light_state data))
        ("light-state state-" +:+ light_state_name (light_state data))
        (to_fixed1 (remaining_time data) +:+ "s")
        (if active then "block" else "none")
        (if active then priority_upper (snap_priority_type data) +:+ " ƯU TIÊN"
         else priority_type_text d)
        (String.concat "" (map log_entry_html (snap_log data))).

(** ** Polling *)

(** The script's state: [simulationData], the dashboard, the context and
    the picture on the canvas. *)
Record PageState := mkPage {
  simulationData : option Snapshot;
  dom : Dom;
  ctx : Ctx;
  picture : list Mark
}.

(** The context of a fresh canvas. *)
Definition initial_ctx : Ctx := mkCtx "#000000" "#000000" 1 [] "10px sans-serif" [].

Definition initial_page : PageState := mkPage None initial_dom initial_ctx [].

(** [fetchData()] (lines 805-814) on the content of [traffic_data.json]:
    when the file is missing the server answers 404, [response.json()]
    throws and the handler only logs to the console. *)
Definition fetchData (file : option Snapshot) (p : PageState) : PageState :=
  match file with
  | None => p
  | Some data =>
      let d := updateDisplay data (dom p) in
      let (marks, c) := render (drawScene data) (ctx p) in
      mkPage (Some data) d c marks
  end.

(** [clearLog()] (lines 817-820): the log panel is emptied. *)
Definition clearLog (d : Dom) : Dom :=
  mkDom (cycle_text d) (max_cycle_text d) (vehicles_passed_text d) (state_text d) (state_class d)
        (timer_text d) (priority_display d) (priority_type_text d) "".

(** [fetchData(); setInterval(fetchData, 500)] (lines 823-824): the
    page's successive polls, each with what the file held at that
    moment. *)
Fixpoint polls (rs : list (option Snapshot)) (p : PageState) : PageState :=
  match rs with
  | [] => p
  | r :: rs' => polls rs' (fetchData r p)
  end.

(** The snapshot of the latest poll that succeeded. *)
Fixpoint last_snapshot (rs : list (option Snapshot)) : option Snapshot :=
  match rs with
  | [] => None
  | r :: rs' => match last_snapshot rs' with Some s => Some s | None => r end
  end.

(** What the dashboard shows: every text, and the priority label only
    while its box is displayed. *)
Definition visible_dom (d : Dom) : list string :=
  [cycle_text d; max_cycle_text d; vehicles_passed_text d; state_text d; state_class d;
   timer_text d; priority_display d; log_html d] ++
  (if String.eqb (priority_display d) "block" then [priority_type_text d] else []).

(** ** What the canvas shows *)

(** The dashed lines painted: the lane dividers, by their height. *)
Definition dividers (ms : list Mark) : list Q :=
  flat_map (fun m => match m with
                     | MStroke _ _ (_ :: _) [PMove _ y; PLine _ _] => [y]
                     | _ => []
                     end) ms.

(** The solid straight lines painted, by their two ends. *)
Definition solid_lines (ms : list Mark) : list (Q * Q * Q * Q) :=
  flat_map (fun m => match m with
                     | MStroke _ _ [] [PMove x0 y0; PLine x1 y1] => [(x0, y0, x1, y1)]
                     | _ => []
                     end) ms.

(** The discs filled in a colour other than the grey of an unlit lamp. *)
Definition lit_lamps (ms : list Mark) : list Mark :=
  List.filter (fun m => match m with
                        | MFill col _ => negb (String.eqb col "#7f8c8d")
                        | _ => false
                        end) ms.

(** The colour and height of the lamp of each state (lines 725-727). *)
Definition lamp_color_of (s : LightState) : string :=
  match s with red => "#e74c3c" | yellow => "#f39c12" | green => "#27ae60" end.

Definition lamp_y_of (s : LightState) : Z :=
  match s with red => 70 | yellow => 130 | green => 190 end.

Definition sample_snapshot : Snapshot :=
  mkSnapshot red [mkDisplayInfo 2 bus 3200 "B" 31; mkDisplayInfo 1 normal 5000 "N" 0]
             3 10 7500 None false 4
             [TrafficLogger.format_entry
                (TrafficLogger.make_entry 3725000 TrafficLogger.CYCLE (TrafficLogger.CycleStart 3))].

(** ** Lemmas *)

Lemma render_app ks1 ks2 c :
  render (ks1 ++ ks2) c =
  let (ms1, c1) := render ks1 c in
  let (ms2, c2) := render ks2 c1 in (ms1 ++ ms2, c2).
Proof.
  revert c. induction ks1 as [|k ks1 IH]; intros c; simpl.
  - by destruct (render ks2 c).
  - destruct (exec_call c k) as [c1 ms1]. rewrite IH.
    destruct (render ks1 c1) as [ms ca]. destruct (render ks2 ca) as [ms2 c2].
    by rewrite app_assoc.
Qed.

Lemma render_app_fst ks1 ks2 c :
  fst (render (ks1 ++ ks2) c) = fst (render ks1 c) ++ fst (render ks2 (snd (render ks1 c))).
Proof.
  rewrite render_app. destruct (render ks1 c) as [ms1 c1]. simpl.
  by destruct (render ks2 c1).
Qed.

Lemma dividers_app ms1 ms2 : dividers (ms1 ++ ms2) = dividers ms1 ++ dividers ms2.
Proof. apply flat_map_app. Qed.

Lemma solid_lines_app ms1 ms2 : solid_lines (ms1 ++ ms2) = solid_lines ms1 ++ solid_lines ms2.
Proof. apply flat_map_app. Qed.

(** The road is painted the same whatever the context it starts from. *)
Lemma render_drawRoad c :
  fst (render drawRoad c) =
  [MRect "#34495e" 0 0 800 500;
   MStroke "white" 2 [10; 15] [PMove 0 (500 # 3); PLine 800 (500 # 3)];
   MStroke "white" 2 [10; 15] [PMove 0 (1000 # 3); PLine 800 (1000 # 3)];
   MStroke "white" 3 [] [PMove 350 0; PLine 350 500];
   MText "red" "12px Arial" "VẠCH DỪNG" 360 (500 # 2)].
Proof. reflexivity. Qed.

(** The traffic light paints no straight line and no dashed line. *)
Lemma drawTrafficLight_lines s c :
  dividers (fst (render (drawTrafficLight s) c)) = [] /\
  solid_lines (fst (render (drawTrafficLight s) c)) = [].
Proof. destruct s, c as [? ? ? [|? ?] ? ?]; split; reflexivity. Qed.

Lemma drawCar_lines d c :
  dividers (fst (render (drawCar d) c)) = [] /\ solid_lines (fst (render (drawCar d) c)) = [].
Proof. unfold drawCar. by destruct (30 <? di_waiting_time d). Qed.

Lemma drawCars_lines cars c :
  dividers (fst (render (drawCars cars) c)) = [] /\
  solid_lines (fst (render (drawCars cars) c)) = [].
Proof.
  revert c. induction cars as [|d cars IH]; intros c; [done|].
  change (drawCars (d :: cars)) with (drawCar d ++ drawCars cars).
  rewrite render_app_fst, dividers_app, solid_lines_app.
  destruct (drawCar_lines d c) as [-> ->]. apply IH.
Qed.

(** Every car of the list is painted, as its emoji at its position. *)
Lemma drawCars_emoji cars c d :
  In d cars ->
  exists col, In (MText col "30px Arial" (di_emoji d) (px (di_position d)) (car_y d))
                 (fst (render (drawCars cars) c)).
Proof.
  revert c. induction cars as [|d' cars IH]; intros c Hin; [done|].
  change (drawCars (d' :: cars)) with (drawCar d' ++ drawCars cars).
  rewrite render_app_fst. destruct Hin as [-> | Hin].
  - exists (fill_style c). apply in_or_app. left. unfold drawCar.
    destruct (30 <? di_waiting_time d); simpl; auto.
  - destruct (IH (snd (render (drawCar d') c)) Hin) as [col H].
    exists col. apply in_or_app. by right.
Qed.

(** The lines of a scene are those of its road. *)
Lemma drawScene_lines data c :
  dividers (fst (render (drawScene data) c)) = [500 # 3; 1000 # 3] /\
  solid_lines (fst (render (drawScene data) c)) = [(350, 0, 350, 500)%Q].
Proof.
  unfold drawScene. rewrite !render_app_fst, !dividers_app, !solid_lines_app, render_drawRoad.
  destruct (drawTrafficLight_lines (light_state data)
              (snd (render drawRoad (snd (render [clearRect 0 0 (inject_Z canvasWidth)
                                                   (inject_Z canvasHeight)] c)))))
    as [-> ->].
  destruct (drawCars_lines (snap_cars data)
              (snd (render (drawTrafficLight (light_state data))
                 (snd (render drawRoad (snd (render [clearRect 0 0 (inject_Z canvasWidth)
                                                      (inject_Z canvasHeight)] c)))))))
    as [-> ->].
  done.
Qed.

Lemma drawScene_emoji data c d :
  In d (snap_cars data) ->
  exists col, In (MText col "30px Arial" (di_emoji d) (px (di_position d)) (car_y d))
                 (fst (render (drawScene data) c)).
Proof.
  intros Hin. unfold drawScene. rewrite !render_app_fst.
  edestruct drawCars_emoji as [col H]; [exact Hin|].
  exists col. do 3 (apply in_or_app; right). exact H.
Qed.



(** [px] preserves the order of positions. *)
Lemma px_lt a b : a < b -> (px a < px b)%Q.
Proof. intros H. unfold px, Qlt, Qdiv, Qmult, Qinv, inject_Z. simpl. lia. Qed.

(** A log line splits, at the offsets the page cuts it, into its time and
    the rest of the line after the opening bracket of the level. *)
Lemma format_entry_parts e :
  js_substring 1 9 (TrafficLogger.format_entry e) =
    TrafficLogger.strftime_hms (TrafficLogger.log_time e) /\
  js_substring_from 12 (TrafficLogger.format_entry e) =
    TrafficLogger.level_name (TrafficLogger.log_level e) +:+ "] " +:+
    TrafficLogger.message (TrafficLogger.log_msg e).
Proof.
  destruct e as [t l m].
  unfold TrafficLogger.format_entry, TrafficLogger.strftime_hms, TrafficLogger.two_digits,
    js_substring.
  cbn -[Ascii.ascii_of_nat Z.div Z.modulo Z.to_nat TrafficLogger.level_name TrafficLogger.message].
  split; reflexivity.
Qed.

(** ** Properties of the page *)

(** C26: the traffic light shows exactly one lit lamp, the one of the
    state in the snapshot, in that state's colour, at its height in the
    housing; the other two lamps are grey. *)
Theorem drawTrafficLight_one_lit_lamp s c :
  exists x y r, lit_lamps (fst (render (drawTrafficLight s) c)) =
                  [MFill (lamp_color_of s) [PArc x y r]] /\
    (x == 740)%Q /\ (y == inject_Z (lamp_y_of s))%Q /\ (r == 25)%Q.
Proof.
  destruct s; (eexists _, _, _; split; [vm_compute; reflexivity|]); vm_compute; auto.
Qed.

(** C27: the page paints three lanes for four lanes of cars: its two
    dashed dividers are at heights 500/3 and 1000/3, and the cars of lanes
    1 and 2 are both painted between them. *)
Theorem middle_lanes_share_a_painted_lane data c d :
  In d (snap_cars data) -> di_lane d = 1 \/ di_lane d = 2 ->
  dividers (fst (render (drawScene data) c)) = [500 # 3; 1000 # 3] /\
  (exists col, In (MText col "30px Arial" (di_emoji d) (px (di_position d)) (car_y d))
                  (fst (render (drawScene data) c))) /\
  (500 # 3 < car_y d < 1000 # 3)%Q.
Proof.
  intros Hin Hl. split; [apply drawScene_lines|]. split; [by apply drawScene_emoji|].
  unfold car_y. destruct Hl as [-> | ->]; split; vm_compute; reflexivity.
Qed.

(** C28: the stop line the page paints is the simulation's: the only
    solid line of the scene is vertical at [Car.STOP_LINE] (350 pixels),
    and a car the model holds before the stop line is painted to its
    left. *)
Theorem stop_line_at_STOP_LINE data c :
  exists x, solid_lines (fst (render (drawScene data) c)) = [(x, 0, x, 500)%Q] /\
    (x == px Car.STOP_LINE)%Q /\
    forall d, In d (snap_cars data) -> di_position d < Car.STOP_LINE ->
      exists col, In (MText col "30px Arial" (di_emoji d) (px (di_position d)) (car_y d))
                     (fst (render (drawScene data) c)) /\ (px (di_position d) < x)%Q.
Proof.
  exists 350%Q. split; [apply drawScene_lines|]. split; [vm_compute; reflexivity|].
  intros d Hin Hp. destruct (drawScene_emoji data c d Hin) as [col H].
  exists col. split; [exact H|].
  apply (Qlt_le_trans _ (px Car.STOP_LINE)); [exact (px_lt _ _ Hp)|]. vm_compute. discriminate.
Qed.

(** C29: each line of the log panel shows the line's time in its time
    span, but its text starts at offset 12, inside the level tag: what is
    shown is the level name, "] " and the message (for example
    "CYCLE] ..."), not the message alone. *)
Theorem updateDisplay_log_panel data es d :
  snap_log data = map TrafficLogger.format_entry es ->
  log_html (updateDisplay data d) =
  String.concat ""
    (map (fun e => log_div (TrafficLogger.strftime_hms (TrafficLogger.log_time e))
                           (TrafficLogger.level_name (TrafficLogger.log_level e) +:+ "] " +:+
                            TrafficLogger.message (TrafficLogger.log_msg e)))
         es).
Proof.
  intros Hl. simpl. rewrite Hl, map_map. apply f_equal, map_ext. intros e.
  unfold log_entry_html. by destruct (format_entry_parts e) as [-> ->].
Qed.

(** ** The page after a run of polls *)

(** The scene begins by clearing the canvas and setting every style the
    road reads, so what it paints does not depend on the context the
    previous poll left. *)
Lemma scene_prefix_ctx_free c :
  render ([clearRect 0 0 (inject_Z canvasWidth) (inject_Z canvasHeight)] ++ drawRoad) c =
  render ([clearRect 0 0 (inject_Z canvasWidth) (inject_Z canvasHeight)] ++ drawRoad) initial_ctx.
Proof. destruct c. reflexivity. Qed.

Lemma render_drawScene_ctx_free data c :
  render (drawScene data) c = render (drawScene data) initial_ctx.
Proof.
  unfold drawScene. rewrite app_assoc, !(render_app (_ ++ drawRoad)), (scene_prefix_ctx_free c).
  reflexivity.
Qed.

Lemma polls_none rs p : last_snapshot rs = None -> polls rs p = p.
Proof.
  revert p. induction rs as [|r rs IH]; intros p H; [done|]. cbn [last_snapshot] in H.
  destruct (last_snapshot rs); [discriminate|]. subst r. cbn [polls fetchData]. by apply IH.
Qed.

Lemma polls_last rs p s :
  last_snapshot rs = Some s -> exists p', polls rs p = fetchData (Some s) p'.
Proof.
  revert p. induction rs as [|r rs IH]; intros p H; [discriminate|].
  cbn [last_snapshot] in H. cbn [polls].
  destruct (last_snapshot rs) eqn:El.
  - injection H as ->. by apply IH.
  - subst r. exists p. by apply polls_none.
Qed.

(** Two pages that received the same snapshot show the same. *)
Lemma fetchData_same_view s p1 p2 :
  simulationData (fetchData (Some s) p1) = Some s /\
  picture (fetchData (Some s) p1) = picture (fetchData (Some s) p2) /\
  visible_dom (dom (fetchData (Some s) p1)) = visible_dom (dom (fetchData (Some s) p2)).
Proof.
  cbn [fetchData]. rewrite (render_drawScene_ctx_free s (ctx p1)), (render_drawScene_ctx_free s (ctx p2)).
  destruct (render (drawScene s) initial_ctx) as [ms c]. simpl.
  split; [done|]. split; [done|].
  unfold visible_dom. simpl. by destruct (snap_priority_active s).
Qed.

(** C14: the page shows the latest snapshot it received, and nothing of
    what it showed before.  After any run of polls in which at least one
    succeeded, two pages, whatever they showed before, hold the snapshot
    of the latest successful poll, paint the same picture and show the
    same dashboard: the canvas is repainted from a cleared state with
    every style set, and [updateDisplay] rewrites every visible text
    (the priority label only matters while its box is displayed). *)
Theorem page_shows_latest_poll rs s p1 p2 :
  last_snapshot rs = Some s ->
  simulationData (polls rs p1) = Some s /\ simulationData (polls rs p2) = Some s /\
  picture (polls rs p1) = picture (polls rs p2) /\
  visible_dom (dom (polls rs p1)) = visible_dom (dom (polls rs p2)).
Proof.
  intros H. destruct (polls_last rs p1 s H) as [q1 ->], (polls_last rs p2 s H) as [q2 ->].
  destruct (fetchData_same_view s q1 q2) as (H1 & Hp & Hv).
  destruct (fetchData_same_view s q2 q1) as (H2 & _).
  split; [exact H1|]. split; [exact H2|]. split; [exact Hp|exact Hv].
Qed.

(** ** Witnesses *)

Lemma updateDisplay_log_panel_witness :
  snap_log sample_snapshot =
    map TrafficLogger.format_entry
      [TrafficLogger.make_entry 3725000 TrafficLogger.CYCLE (TrafficLogger.CycleStart 3)] /\
  log_html (updateDisplay sample_snapshot initial_dom) =
  String.concat ""
    (map (fun e => log_div (TrafficLogger.strftime_hms (TrafficLogger.log_time e))
                           (TrafficLogger.level_name (TrafficLogger.log_level e) +:+ "] " +:+
                            TrafficLogger.message (TrafficLogger.log_msg e)))
         [TrafficLogger.make_entry 3725000 TrafficLogger.CYCLE (TrafficLogger.CycleStart 3)]).
Proof. split; [reflexivity|]. apply updateDisplay_log_panel. reflexivity. Defined.

Lemma middle_lanes_share_a_painted_lane_witness :
  dividers (fst (render (drawScene sample_snapshot) initial_ctx)) = [500 # 3; 1000 # 3] /\
  (exists col, In (MText col "30px Arial" "B" (px 3200) (car_y (mkDisplayInfo 2 bus 3200 "B" 31)))
                  (fst (render (drawScene sample_snapshot) initial_ctx))) /\
  (500 # 3 < car_y (mkDisplayInfo 2 bus 3200 "B" 31) < 1000 # 3)%Q.
Proof.
  apply (middle_lanes_share_a_painted_lane sample_snapshot initial_ctx
           (mkDisplayInfo 2 bus 3200 "B" 31)); [simpl; auto|right; reflexivity].
Defined.

Lemma page_shows_latest_poll_witness :
  last_snapshot [Some sample_snapshot; None] = Some sample_snapshot /\
  simulationData (polls [Some sample_snapshot; None] initial_page) = Some sample_snapshot /\
  simulationData (polls [Some sample_snapshot; None]
                    (mkPage None (clearLog initial_dom) (mkCtx "blue" "blue" 7 [1] "9px serif" []) []))
    = Some sample_snapshot /\
  picture (polls [Some sample_snapshot; None] initial_page) =
    picture (polls [Some sample_snapshot; None]
               (mkPage None (clearLog initial_dom) (mkCtx "blue" "blue" 7 [1] "9px serif" []) [])) /\
  visible_dom (dom (polls [Some sample_snapshot; None] initial_page)) =
    visible_dom (dom (polls [Some sample_snapshot; None]
                    (mkPage None (clearLog initial_dom) (mkCtx "blue" "blue" 7 [1] "9px serif" []) []))).
Proof.
  split; [reflexivity|].
  apply (page_shows_latest_poll [Some sample_snapshot; None] sample_snapshot initial_page
           (mkPage None (clearLog initial_dom) (mkCtx "blue" "blue" 7 [1] "9px serif" []) [])).
  reflexivity.
Defined.

End Page.
