(* ===== verification/Server.v ===== *)
(** * Server: the web server, the files it serves and the page's poll
    (lines 55-56, 383-384, 805-814 and 832-853)

    [start_web_server] writes [HTML_FILE] with [open(HTML_FILE, "w")],
    then changes the process's directory to the script's own with
    [os.chdir(os.path.dirname(os.path.abspath(__file__)))], and serves
    that directory with [SimpleHTTPRequestHandler], whose [log_message]
    the subclass silences.  The simulation thread, started just before,
    appends lines to [traffic_log.txt] ([TrafficLogger.log]) and writes
    snapshots to [traffic_data.json] ([write_simulation_data]: [open] with
    mode ["w"], which empties the file, then [json.dump] through the open
    handle) by relative paths at the same time.  Every file name is resolved against
    the directory of the moment.  The page polls
    [traffic_data.json?t=<ms>] and hands the parsed JSON to [updateDisplay]
    and [drawScene].

    A process is its current directory, its files, keyed by directory
    and name, and the directory of the snapshot file it holds open; a file
    holds text or the JSON value [json.dump] wrote (Json.v).  [json.dump]
    fills the file in one event: a partly written file, like the empty
    one, is not JSON, and [response.json()] rejects both.  The two threads are lists of events; a run of the program
    is any interleaving of them ([interleave]).  A request is answered
    from the state reached by the events before it.  The handler is
    [SimpleHTTPRequestHandler]'s [translate_path] on a plain file name:
    the query and the fragment are cut off, the rest is looked up in the
    current directory.  The sockets, the browser and the prints are not
    modelled. *)

From stdpp Require Import base list gmap strings pretty.
From Stdlib Require Import Ascii ZArith.
From S2P Require Import Prelude Config Logger World Json Page.

Module Server.
Import Json.

(** ** Files and directories *)

Definition HTML_FILE : string := "traffic_simulation.html".
Definition LOG_FILE : string := "traffic_log.txt".
Definition DATA_FILE : string := "traffic_data.json".

(** What a file holds: text, or the value [json.dump] wrote. *)
Inductive Content := Text (s : string) | Dumped (v : JSON).

(** A process: its current directory, its files, and the directory of
    the snapshot file [write_simulation_data] holds open, if any. *)
Record Proc := mkProc {
  cwd : string;
  files : gmap (string * string) Content;
  data_handle : option string
}.

(** [with open(name, "w") as f: f.write(content)], relative to the
    current directory. *)
Definition write_file (name : string) (c : Content) (p : Proc) : Proc :=
  mkProc (cwd p) (<[(cwd p, name) := c]> (files p)) (data_handle p).

(** [with open(name, "a") as f: f.write(line + "\n")] (lines 55-56). *)
Definition append_line (name line : string) (p : Proc) : Proc :=
  let old := match files p !! (cwd p, name) with Some (Text s) => s | _ => "" end in
  write_file name (Text (old +:+ line +:+ String "010"%char EmptyString)) p.

(** [with open("traffic_data.json", "w", encoding="utf-8") as f:]
    (line 383): the file of the current directory is truncated and a
    handle on it is kept. *)
Definition open_data (p : Proc) : Proc :=
  mkProc (cwd p) (<[(cwd p, DATA_FILE) := Text ""]> (files p)) (Some (cwd p)).

(** [json.dump(data, f, ...)] (line 384) writes through the handle, into
    the directory the file was opened in, and the [with] block closes it. *)
Definition dump_snapshot (s : Snapshot) (p : Proc) : Proc :=
  match data_handle p with
  | Some d => mkProc (cwd p) (<[(d, DATA_FILE) := Dumped (snapshot_json s)]> (files p)) None
  | None => p
  end.

(** [os.chdir(d)] *)
Definition chdir (d : string) (p : Proc) : Proc := mkProc d (files p) (data_handle p).

(** ** The request handler *)

Inductive Response := Ok200 (body : Content) | NotFound404.

(** [TrafficHTTPRequestHandler.log_message] (lines 833-835): [pass]. *)
Definition log_message (msg : string) (p : Proc) : Proc := p.

(** [path.split(c, 1)[0]] *)
Fixpoint cut_at (c : ascii) (s : string) : string :=
  match s with
  | EmptyString => EmptyString
  | String a r => if Ascii.eqb a c then EmptyString else String a (cut_at c r)
  end.

(** [translate_path] on [/name]: the name with query and fragment cut. *)
Definition url_file (path : string) : option string :=
  match cut_at "#"%char (cut_at "?"%char path) with
  | String c name => if Ascii.eqb c "/"%char then Some name else None
  | EmptyString => None
  end.

(** [SimpleHTTPRequestHandler.do_GET]: the file of the current directory,
    or 404; the request is then logged through [log_message]. *)
Definition do_GET (path : string) (p : Proc) : Response * Proc :=
  let r := match url_file path with
           | Some name => match files p !! (cwd p, name) with Some b => Ok200 b | None => NotFound404 end
           | None => NotFound404
           end in
  (r, log_message path p).

(** [webbrowser.open(f"http://localhost:{PORT}/{HTML_FILE}")] (line 849). *)
Definition page_path : string := "/" +:+ HTML_FILE.

(** ** The page's poll *)

(** [fetch('traffic_data.json?t=' + new Date().getTime())] (line 807),
    relative to the page's own path. *)
Definition poll_path (t : Z) : string := "/" +:+ DATA_FILE +:+ "?t=" +:+ pretty t.

(** [await response.json()] (line 808): a 404 page or a text file is not
    JSON and throws, which the [catch] swallows. *)
Definition response_json (r : Response) : option Snapshot :=
  match r with Ok200 (Dumped v) => snapshot_of_json v | _ => None end.

(** [fetchData()] (lines 805-814) at time [t] against the server. *)
Definition page_poll (t : Z) (p : Proc) (pg : Page.PageState) : Page.PageState :=
  Page.fetchData (response_json (do_GET (poll_path t) p).1) pg.

(** ** The two threads *)

Inductive MainEv :=
| WriteHtml                    (** [open(HTML_FILE, "w").write(HTML_CONTENT)] *)
| Chdir.                       (** [os.chdir(script_dir)] *)

Inductive SimEv :=
| LogLine (line : string)      (** [logger.log]: a line appended to the log file *)
| OpenData                     (** [write_simulation_data]: the snapshot file opened *)
| DumpSnapshot (s : Snapshot). (** [write_simulation_data]: the snapshot written *)

Inductive Event := Main (e : MainEv) | Sim (e : SimEv).

(** The main thread's part of [start_web_server] before [serve_forever]
    (lines 837-844). *)
Definition main_thread : list Event := [Main WriteHtml; Main Chdir].

(** The events that open or write the snapshot file. *)
Definition touches_data (e : Event) : bool :=
  match e with Sim OpenData | Sim (DumpSnapshot _) => true | _ => false end.

(** A stretch of a schedule that leaves the snapshot file alone. *)
Definition quiet (xs : list Event) : bool := forallb (fun e => negb (touches_data e)) xs.

Section Run.
Variables (HTML_CONTENT script_dir : string).

Definition step (p : Proc) (e : Event) : Proc :=
  match e with
  | Main WriteHtml => write_file HTML_FILE (Text HTML_CONTENT) p
  | Main Chdir => chdir script_dir p
  | Sim (LogLine l) => append_line LOG_FILE l p
  | Sim OpenData => open_data p
  | Sim (DumpSnapshot s) => dump_snapshot s p
  end.

Definition run (es : list Event) (p : Proc) : Proc := foldl step p es.

End Run.

(** The schedules of two threads: their events merged, each thread's in
    its order. *)
Inductive interleave {A} : list A -> list A -> list A -> Prop :=
| il_nil : interleave [] [] []
| il_left x xs ys zs : interleave xs ys zs -> interleave (x :: xs) ys (x :: zs)
| il_right y xs ys zs : interleave xs ys zs -> interleave xs (y :: ys) (y :: zs).

(** ** Schedules *)

Section Interleave.
Context {A : Type}.

(** A prefix of a schedule interleaves prefixes of the two threads, and
    the rest of the schedule the rest of them. *)
Lemma interleave_app (xs ys pre post : list A) :
  interleave xs ys (pre ++ post) ->
  exists xs1 xs2 ys1 ys2, xs = xs1 ++ xs2 /\ ys = ys1 ++ ys2 /\
    interleave xs1 ys1 pre /\ interleave xs2 ys2 post.
Proof.
  revert xs ys. induction pre as [|z pre IH]; intros xs ys H.
  - exists [], xs, [], ys. repeat split; [constructor|done].
  - simpl in H. inversion H as [|x xs' ? ? H'|y ? ys' ? H']; subst.
    + destruct (IH _ _ H') as (xs1 & xs2 & ys1 & ys2 & -> & -> & H1 & H2).
      exists (z :: xs1), xs2, ys1, ys2. repeat split; [by constructor|done].
    + destruct (IH _ _ H') as (xs1 & xs2 & ys1 & ys2 & -> & -> & H1 & H2).
      exists xs1, xs2, (z :: ys1), ys2. repeat split; [by constructor|done].
Qed.

Lemma interleave_elem (xs ys zs : list A) z :
  interleave xs ys zs -> z ∈ zs -> z ∈ xs \/ z ∈ ys.
Proof.
  induction 1 as [|x xs ys zs _ IH|y xs ys zs _ IH]; intros Hz.
  - by apply not_elem_of_nil in Hz.
  - rewrite elem_of_cons in Hz. rewrite (elem_of_cons xs).
    destruct Hz as [->|Hz]; [by left; left|]. destruct (IH Hz); [left; by right|by right].
  - rewrite elem_of_cons in Hz. rewrite (elem_of_cons ys).
    destruct Hz as [->|Hz]; [by right; left|]. destruct (IH Hz); [by left|right; by right].
Qed.

Lemma interleave_nil_l (ys zs : list A) : interleave [] ys zs -> zs = ys.
Proof.
  intros H. remember [] as xs eqn:E. induction H; [done|discriminate|]. by rewrite IHinterleave.
Qed.

End Interleave.

(** A prefix of the main thread that contains [Chdir] is all of it. *)
Lemma main_prefix_chdir xs1 xs2 :
  main_thread = xs1 ++ xs2 -> Main Chdir ∈ xs1 -> xs1 = main_thread /\ xs2 = [].
Proof.
  intros E Hc. destruct xs1 as [|a [|b xs1]]; simpl in E.
  - set_solver.
  - injection E as <- _. apply list_elem_of_singleton in Hc. discriminate.
  - injection E as <- <- E. symmetry in E. by apply app_eq_nil in E as [-> ->].
Qed.

(** Where the schedule is after the chdir: the whole main thread ran, and
    the rest is simulation events. *)
Lemma after_chdir es sched pre post :
  interleave main_thread (map Sim es) sched -> sched = pre ++ post -> Main Chdir ∈ pre ->
  exists es1 es2, es = es1 ++ es2 /\ interleave main_thread (map Sim es1) pre /\ post = map Sim es2.
Proof.
  intros H -> Hc. destruct (interleave_app _ _ _ _ H) as (xs1 & xs2 & ys1 & ys2 & Ex & Ey & H1 & H2).
  apply List.map_eq_app in Ey as (es1 & es2 & -> & <- & <-).
  destruct (interleave_elem _ _ _ _ H1 Hc) as [Hx|Hy].
  - destruct (main_prefix_chdir _ _ Ex Hx) as [-> ->]. exists es1, es2.
    split; [done|]. split; [done|]. by apply interleave_nil_l.
  - apply list_elem_of_In, in_map_iff in Hy as (? & ? & _). discriminate.
Qed.

(** ** The state after the main thread *)

Section Start.
Variables (HTML_CONTENT script_dir : string) (p0 : Proc).

(** What [(script_dir, HTML_FILE)] holds and where the process is, when
    the main thread has [xs] left to run. *)
Definition html_at (xs : list Event) : option Content :=
  match xs with
  | [Main WriteHtml; Main Chdir] => files p0 !! (script_dir, HTML_FILE)
  | _ => if decide (cwd p0 = script_dir) then Some (Text HTML_CONTENT)
         else files p0 !! (script_dir, HTML_FILE)
  end.

Definition cwd_at (xs : list Event) : string :=
  match xs with [] => script_dir | _ => cwd p0 end.

(** A simulation event stays in the current directory and writes a file
    other than the page. *)
Lemma sim_step_cwd p e : cwd (step HTML_CONTENT script_dir p (Sim e)) = cwd p.
Proof. destruct e; [done|done|]. unfold step, dump_snapshot. by destruct (data_handle p). Qed.

Lemma sim_keeps_html p e :
  files (step HTML_CONTENT script_dir p (Sim e)) !! (script_dir, HTML_FILE) =
  files p !! (script_dir, HTML_FILE).
Proof.
  destruct e; cbn [step]; [| |unfold dump_snapshot; destruct (data_handle p); [|done]];
    apply lookup_insert_ne; intros [= _ E]; discriminate E.
Qed.

Lemma run_start xs es zs p :
  interleave xs (map Sim es) zs ->
  (xs = main_thread \/ xs = [Main Chdir] \/ xs = []) ->
  cwd p = cwd_at xs -> files p !! (script_dir, HTML_FILE) = html_at xs ->
  cwd (run HTML_CONTENT script_dir zs p) = script_dir /\
  files (run HTML_CONTENT script_dir zs p) !! (script_dir, HTML_FILE) = html_at [].
Proof.
  intros H. remember (map Sim es) as ys eqn:Ey. revert es Ey p.
  induction H as [|x xs ys zs H IH|y xs ys zs H IH]; intros es Ey p Hx Hc Hh.
  - done.
  - unfold main_thread in Hx. cbn [run foldl].
    destruct Hx as [E|[E|E]]; [injection E as -> ->|injection E as -> ->|discriminate].
    + apply (IH es); auto. simpl in *. unfold html_at. rewrite Hc. case_decide as Hd.
      * rewrite Hd. apply lookup_insert_eq.
      * rewrite lookup_insert_ne; [done|congruence].
    + apply (IH es); auto.
  - destruct es as [|e es]; [discriminate|]. injection Ey as -> ->. cbn [run foldl].
    apply (IH es); auto; [by rewrite sim_step_cwd|]. by rewrite sim_keeps_html.
Qed.

End Start.

Lemma do_GET_url path name p :
  url_file path = Some name ->
  (do_GET path p).1 = match files p !! (cwd p, name) with Some b => Ok200 b | None => NotFound404 end.
Proof. intros H. unfold do_GET. by rewrite H. Qed.

(** The poll's path names the snapshot file, whatever the time stamp. *)
Lemma url_file_poll_path t : url_file (poll_path t) = Some DATA_FILE.
Proof. reflexivity. Qed.

Lemma url_file_page_path : url_file page_path = Some HTML_FILE.
Proof. reflexivity. Qed.

Lemma run_cons html sd e es p : run html sd (e :: es) p = run html sd es (step html sd p e).
Proof. reflexivity. Qed.

Lemma run_app html sd xs ys p : run html sd (xs ++ ys) p = run html sd ys (run html sd xs p).
Proof. apply foldl_app. Qed.

Lemma quiet_cons e xs : quiet (e :: xs) = negb (touches_data e) && quiet xs.
Proof. reflexivity. Qed.

(** A simulation stretch of a schedule. *)
Lemma map_Sim_app es xs ys :
  map Sim es = xs ++ ys -> exists es1 es2, es = es1 ++ es2 /\ xs = map Sim es1 /\ ys = map Sim es2.
Proof. intros H. apply List.map_eq_app in H as (es1 & es2 & -> & <- & <-). by exists es1, es2. Qed.

(** Log lines move neither the process, nor the open handle, nor the
    snapshot file of its directory. *)
Lemma run_keeps_snapshot html sd es p :
  quiet (map Sim es) = true ->
  cwd (run html sd (map Sim es) p) = cwd p /\
  data_handle (run html sd (map Sim es) p) = data_handle p /\
  files (run html sd (map Sim es) p) !! (cwd p, DATA_FILE) = files p !! (cwd p, DATA_FILE).
Proof.
  revert p. induction es as [|e es IH]; intros p Hq; [done|].
  cbn [map] in *. rewrite quiet_cons in Hq. apply andb_prop in Hq as [He Hq].
  rewrite run_cons. destruct e as [l| |s]; [|discriminate|discriminate].
  destruct (IH (step html sd p (Sim (LogLine l))) Hq) as (E1 & E2 & E3).
  assert (Hc : cwd (step html sd p (Sim (LogLine l))) = cwd p) by done.
  rewrite Hc in E1, E3. rewrite E1, E2, E3. split; [done|]. split; [done|].
  by apply lookup_insert_ne.
Qed.

(** Opening the snapshot file truncates it: until the dump, the file of
    the directory is empty. *)
Lemma open_truncates html sd p em1 :
  quiet (map Sim em1) = true ->
  cwd (run html sd (Sim OpenData :: map Sim em1) p) = cwd p /\
  data_handle (run html sd (Sim OpenData :: map Sim em1) p) = Some (cwd p) /\
  files (run html sd (Sim OpenData :: map Sim em1) p) !! (cwd p, DATA_FILE) = Some (Text "").
Proof.
  intros Hq. rewrite run_cons. change (step html sd p (Sim OpenData)) with (open_data p).
  destruct (run_keeps_snapshot html sd em1 (open_data p) Hq) as (E1 & E2 & E3).
  change (cwd (open_data p)) with (cwd p) in E1, E3. change (data_handle (open_data p)) with (Some (cwd p)) in E2.
  rewrite E1, E2, E3. split; [done|]. split; [done|]. apply lookup_insert_eq.
Qed.

(** An open followed by its dump leaves the snapshot in the file of the
    directory the file was opened in. *)
Lemma dump_block html sd p em1 s em :
  quiet (map Sim em1) = true -> quiet (map Sim em) = true ->
  cwd (run html sd (Sim OpenData :: map Sim em1 ++ Sim (DumpSnapshot s) :: map Sim em) p) = cwd p /\
  files (run html sd (Sim OpenData :: map Sim em1 ++ Sim (DumpSnapshot s) :: map Sim em) p)
    !! (cwd p, DATA_FILE) = Some (Dumped (snapshot_json s)).
Proof.
  intros Hq1 Hq. rewrite app_comm_cons, run_app.
  destruct (open_truncates html sd p em1 Hq1) as (E1 & E2 & _).
  set (p1 := run html sd (Sim OpenData :: map Sim em1) p) in *.
  rewrite run_cons. set (p2 := step html sd p1 (Sim (DumpSnapshot s))).
  assert (Hc : cwd p2 = cwd p) by (subst p2; cbn [step]; unfold dump_snapshot; by rewrite E2).
  assert (Hf : files p2 !! (cwd p, DATA_FILE) = Some (Dumped (snapshot_json s)))
    by (subst p2; cbn [step]; unfold dump_snapshot; rewrite E2; apply lookup_insert_eq).
  destruct (run_keeps_snapshot html sd em p2 Hq) as (E3 & _ & E4).
  rewrite E3, Hc, <- Hc, E4, Hc. done.
Qed.

(** The simulation events after the chdir, cut at an open and what
    follows it. *)
Lemma after_chdir_open es sched pre mid rest :
  interleave main_thread (map Sim es) sched ->
  sched = pre ++ Sim OpenData :: mid ++ rest -> Main Chdir ∈ pre ->
  exists em er, mid = map Sim em /\ rest = map Sim er.
Proof.
  intros H E Hc. destruct (after_chdir _ _ _ _ H E Hc) as (es1 & es2 & _ & _ & Hpost).
  destruct es2 as [|e es2]; [discriminate|]. injection Hpost as _ Hpost. symmetry in Hpost.
  destruct (map_Sim_app _ _ _ Hpost) as (em & er & _ & -> & ->). by exists em, er.
Qed.

(** A poll made after an open and its dump [s] that followed the chdir,
    with no other open or dump since, reads back [s] through the JSON
    encoding. *)
Lemma poll_reads_dump html sd p0 es sched pre mid1 s mid rest t :
  interleave main_thread (map Sim es) sched ->
  sched = pre ++ Sim OpenData :: mid1 ++ Sim (DumpSnapshot s) :: mid ++ rest -> Main Chdir ∈ pre ->
  quiet mid1 = true -> quiet mid = true ->
  response_json (do_GET (poll_path t)
    (run html sd (pre ++ Sim OpenData :: mid1 ++ Sim (DumpSnapshot s) :: mid) p0)).1 = Some s.
Proof.
  intros H E Hc Hq1 Hq.
  destruct (after_chdir_open _ _ _ _ _ H E Hc) as (em1 & er & -> & Her).
  destruct (map_Sim_app er [Sim (DumpSnapshot s)] (mid ++ rest) (eq_sym Her)) as (_ & er2 & _ & _ & Her2).
  destruct (map_Sim_app er2 mid rest (eq_sym Her2)) as (em & _ & _ & -> & _).
  rewrite run_app. destruct (dump_block html sd (run html sd pre p0) em1 s em Hq1 Hq) as [E1 E2].
  rewrite (do_GET_url _ _ _ (url_file_poll_path t)), E1, E2.
  cbn [response_json]. apply decode_snapshot_json.
Qed.

(** C36: the page is written where it is not served.  [start_web_server]
    writes [HTML_FILE] before its [os.chdir] to the script's directory,
    and the server serves that directory.  Under every interleaving with
    the simulation thread, when the program is started from another
    directory that holds no copy of the page, every request for the page
    the server answers gets 404. *)
Theorem page_not_served_from_elsewhere html sd p0 es sched pre post :
  interleave main_thread (map Sim es) sched ->
  sched = pre ++ post -> Main Chdir ∈ pre ->
  cwd p0 <> sd -> files p0 !! (sd, HTML_FILE) = None ->
  (do_GET page_path (run html sd pre p0)).1 = NotFound404.
Proof.
  intros H E Hc Hd Hn.
  destruct (after_chdir _ _ _ _ H E Hc) as (es1 & es2 & _ & H1 & _).
  destruct (run_start html sd p0 _ _ _ p0 H1 (or_introl eq_refl) eq_refl eq_refl) as [Hcwd Hh].
  rewrite (do_GET_url _ _ _ url_file_page_path), Hcwd, Hh. simpl.
  destruct (decide (cwd p0 = sd)); [contradiction|by rewrite Hn].
Qed.

(** C37: started from the script's own directory, under every
    interleaving, every request for the page the server answers gets
    the page [start_web_server] wrote. *)
Theorem page_served_from_script_dir html sd p0 es sched pre post :
  interleave main_thread (map Sim es) sched ->
  sched = pre ++ post -> Main Chdir ∈ pre -> cwd p0 = sd ->
  (do_GET page_path (run html sd pre p0)).1 = Ok200 (Text html).
Proof.
  intros H E Hc Hd.
  destruct (after_chdir _ _ _ _ H E Hc) as (es1 & es2 & _ & H1 & _).
  destruct (run_start html sd p0 _ _ _ p0 H1 (or_introl eq_refl) eq_refl eq_refl) as [Hcwd Hh].
  rewrite (do_GET_url _ _ _ url_file_page_path), Hcwd, Hh. simpl.
  by destruct (decide (cwd p0 = sd)).
Qed.

(** C38: the page shows the latest snapshot.  Under every interleaving of
    the two threads, a poll of the page made once the server runs, at any
    time stamp, after the simulation thread opened the snapshot file after
    the chdir and dumped [s] into it, with no open or dump since, reads
    back exactly [s] through [traffic_data.json?t=...], [response.json()]
    and the JSON encoding, and updates the dashboard and the canvas as
    [fetchData] does with [s]. *)
Theorem page_shows_latest_snapshot html sd p0 es sched pre mid1 s post t pg :
  interleave main_thread (map Sim es) sched ->
  sched = pre ++ Sim OpenData :: mid1 ++ Sim (DumpSnapshot s) :: post -> Main Chdir ∈ pre ->
  quiet mid1 = true -> quiet post = true ->
  page_poll t (run html sd sched p0) pg = Page.fetchData (Some s) pg.
Proof.
  intros H E Hc Hq1 Hq. unfold page_poll.
  rewrite E, (poll_reads_dump html sd p0 es sched pre mid1 s post [] t H); [done|by rewrite app_nil_r|done..].
Qed.

(** C17: the snapshot file is rewritten in place.  [write_simulation_data]
    opens [traffic_data.json] with mode ["w"], which empties it, before
    [json.dump] writes the new snapshot.  Under every interleaving, a poll
    that the server answers between the two gets the empty file with
    status 200 (not the previous snapshot, not a 404); [response.json()]
    throws on it, the [catch] swallows the error, and the page keeps what
    it showed. *)
Theorem poll_during_dump_sees_empty_file html sd p0 es sched pre mid rest t pg :
  interleave main_thread (map Sim es) sched ->
  sched = pre ++ Sim OpenData :: mid ++ rest -> Main Chdir ∈ pre -> quiet mid = true ->
  (do_GET (poll_path t) (run html sd (pre ++ Sim OpenData :: mid) p0)).1 = Ok200 (Text "") /\
  page_poll t (run html sd (pre ++ Sim OpenData :: mid) p0) pg = pg.
Proof.
  intros H E Hc Hq.
  destruct (after_chdir_open _ _ _ _ _ H E Hc) as (em & _ & -> & _).
  rewrite run_app. destruct (open_truncates html sd (run html sd pre p0) em Hq) as (E1 & _ & E2).
  unfold page_poll. rewrite (do_GET_url _ _ _ (url_file_poll_path t)), E1, E2. by split.
Qed.


(** ** Witnesses *)

(** The program started from [/home/user], the script in [/srv/app]:
    the simulation writes a snapshot before the server starts. *)
Definition launch : Proc := mkProc "/home/user" ∅ None.

(** A snapshot of the next cycle, green. *)
Definition later_snapshot : Snapshot :=
  mkSnapshot green [] 4 10 12000 None false 6 [].

Lemma page_not_served_from_elsewhere_witness :
  (do_GET page_path (run "<html>" "/srv/app"
     [Sim OpenData; Sim (DumpSnapshot Page.sample_snapshot); Main WriteHtml; Main Chdir] launch)).1
  = NotFound404.
Proof.
  apply (page_not_served_from_elsewhere "<html>" "/srv/app" launch
           [OpenData; DumpSnapshot Page.sample_snapshot]
           [Sim OpenData; Sim (DumpSnapshot Page.sample_snapshot); Main WriteHtml; Main Chdir] _ []).
  - repeat constructor.
  - by rewrite app_nil_r.
  - set_solver.
  - discriminate.
  - reflexivity.
Defined.

Lemma page_served_from_script_dir_witness :
  (do_GET page_path (run "<html>" "/srv/app" [Main WriteHtml; Sim (LogLine "x"); Main Chdir]
                       (mkProc "/srv/app" ∅ None))).1 = Ok200 (Text "<html>").
Proof.
  apply (page_served_from_script_dir "<html>" "/srv/app" (mkProc "/srv/app" ∅ None) [LogLine "x"]
           [Main WriteHtml; Sim (LogLine "x"); Main Chdir] _ []).
  - repeat constructor.
  - by rewrite app_nil_r.
  - set_solver.
  - reflexivity.
Defined.

Lemma page_shows_latest_snapshot_witness :
  page_poll 1700000000000
    (run "<html>" "/srv/app"
       [Sim OpenData; Sim (DumpSnapshot Page.sample_snapshot); Main WriteHtml; Main Chdir;
        Sim OpenData; Sim (DumpSnapshot Page.sample_snapshot); Sim (LogLine "x")] launch)
    Page.initial_page =
  Page.fetchData (Some Page.sample_snapshot) Page.initial_page.
Proof.
  apply (page_shows_latest_snapshot "<html>" "/srv/app" launch
           [OpenData; DumpSnapshot Page.sample_snapshot; OpenData; DumpSnapshot Page.sample_snapshot;
            LogLine "x"]
           _ [Sim OpenData; Sim (DumpSnapshot Page.sample_snapshot); Main WriteHtml; Main Chdir]
           [] Page.sample_snapshot [Sim (LogLine "x")]).
  - repeat constructor.
  - reflexivity.
  - set_solver.
  - reflexivity.
  - reflexivity.
Defined.

Lemma poll_during_dump_sees_empty_file_witness :
  (do_GET (poll_path 1700000000000)
     (run "<html>" "/srv/app" ([Main WriteHtml; Main Chdir] ++ [Sim OpenData]) launch)).1
    = Ok200 (Text "") /\
  page_poll 1700000000000
    (run "<html>" "/srv/app" ([Main WriteHtml; Main Chdir] ++ [Sim OpenData]) launch)
    Page.initial_page = Page.initial_page.
Proof.
  apply (poll_during_dump_sees_empty_file "<html>" "/srv/app" launch
           [OpenData; DumpSnapshot Page.sample_snapshot]
           [Main WriteHtml; Main Chdir; Sim OpenData; Sim (DumpSnapshot Page.sample_snapshot)]
           [Main WriteHtml; Main Chdir] [] [Sim (DumpSnapshot Page.sample_snapshot)]).
  - repeat constructor.
  - reflexivity.
  - set_solver.
  - reflexivity.
Defined.


End Server.
